(** * WifiStation: scan ranking, connect/retry/backoff and captive-portal login

    A shallow embedding of
    [managed_components/78__esp-wifi-connect/wifi_station.cc].  The station
    object becomes a record, every member function a command in a small
    state-and-trace monad (the trace lists the driver commands, the callbacks
    and the task creations in the order the code issues them), and the portal
    task a pure function of what its HTTP probes and DNS lookups answer. *)

From Stdlib Require Import ZArith List String Ascii Bool Lia Arith.
From Stdlib Require Import Permutation Sorted.
From Stdlib.Strings Require Byte.
Import ListNotations.

Local Open Scope Z_scope.

(** ** C strings and [std::string] *)

Definition NUL : ascii := Ascii.zero.

(** [s.c_str()] as C functions read it: the characters before the first NUL. *)
Fixpoint c_str (s : string) : string :=
  match s with
  | EmptyString => EmptyString
  | String c rest => if Ascii.eqb c NUL then EmptyString else String c (c_str rest)
  end.

(** [strcmp(a, b) == 0]. *)
Definition strcmp_eq (a b : string) : bool := String.eqb (c_str a) (c_str b).

(** [strncmp(a, b, n) == 0]. *)
Definition strncmp_eq (a b : string) (n : nat) : bool :=
  String.eqb (substring 0 n (c_str a)) (substring 0 n (c_str b)).

(** [s.find(sub) != std::string::npos], and [strstr(s, sub) != NULL] on
    literals. *)
Definition contains (s sub : string) : bool :=
  match String.index 0 sub s with
  | Some _ => true
  | None => false
  end.

(** [s.empty()]. *)
Definition empty (s : string) : bool :=
  match s with
  | EmptyString => true
  | String _ _ => false
  end.

(** [s.back()] of a non-empty string (NUL stands in for the empty one, which
    the code never asks about). *)
Fixpoint back (s : string) : ascii :=
  match s with
  | EmptyString => NUL
  | String c EmptyString => c
  | String _ rest => back rest
  end.

(** [strlcpy(dst, src, size)]: what ends up in [dst]. *)
Definition strlcpy (src : string) (size : nat) : string :=
  substring 0 (size - 1) (c_str src).

(** ** Machine integers *)

(** A C++ [int] on the target is 32 bits wide; arithmetic results are reduced
    to that range. *)
Definition wrap_int (x : Z) : Z := (x + 2 ^ 31) mod 2 ^ 32 - 2 ^ 31.

(** Conversion to [uint64_t], as in the argument of [esp_timer_start_once]. *)
Definition to_uint64 (x : Z) : Z := x mod 2 ^ 64.

(** ** Driver and credential-store data *)

(** [wifi_auth_mode_t] of the radio driver. *)
Inductive wifi_auth_mode_t : Type :=
| WIFI_AUTH_OPEN
| WIFI_AUTH_WEP
| WIFI_AUTH_WPA_PSK
| WIFI_AUTH_WPA2_PSK
| WIFI_AUTH_WPA_WPA2_PSK
| WIFI_AUTH_WPA2_ENTERPRISE
| WIFI_AUTH_WPA3_PSK
| WIFI_AUTH_WPA2_WPA3_PSK
| WIFI_AUTH_WAPI_PSK
| WIFI_AUTH_OWE
| WIFI_AUTH_WPA3_ENT_192
| WIFI_AUTH_WPA3_ENTERPRISE
| WIFI_AUTH_WPA2_WPA3_ENTERPRISE.

Definition authmode_eqb (a b : wifi_auth_mode_t) : bool :=
  match a, b with
  | WIFI_AUTH_OPEN, WIFI_AUTH_OPEN
  | WIFI_AUTH_WEP, WIFI_AUTH_WEP
  | WIFI_AUTH_WPA_PSK, WIFI_AUTH_WPA_PSK
  | WIFI_AUTH_WPA2_PSK, WIFI_AUTH_WPA2_PSK
  | WIFI_AUTH_WPA_WPA2_PSK, WIFI_AUTH_WPA_WPA2_PSK
  | WIFI_AUTH_WPA2_ENTERPRISE, WIFI_AUTH_WPA2_ENTERPRISE
  | WIFI_AUTH_WPA3_PSK, WIFI_AUTH_WPA3_PSK
  | WIFI_AUTH_WPA2_WPA3_PSK, WIFI_AUTH_WPA2_WPA3_PSK
  | WIFI_AUTH_WAPI_PSK, WIFI_AUTH_WAPI_PSK
  | WIFI_AUTH_OWE, WIFI_AUTH_OWE
  | WIFI_AUTH_WPA3_ENT_192, WIFI_AUTH_WPA3_ENT_192
  | WIFI_AUTH_WPA3_ENTERPRISE, WIFI_AUTH_WPA3_ENTERPRISE
  | WIFI_AUTH_WPA2_WPA3_ENTERPRISE, WIFI_AUTH_WPA2_WPA3_ENTERPRISE => true
  | _, _ => false
  end.

(** One scan result, [wifi_ap_record_t] (the fields the station reads). *)
Module ApInfo.
Record t : Type := mk {
  bssid : list Byte.byte;       (* uint8_t bssid[6] *)
  ssid : string;                (* uint8_t ssid[33], a C string *)
  primary : Z;                  (* uint8_t primary: channel *)
  rssi : Z;                     (* int8_t rssi, dBm *)
  authmode : wifi_auth_mode_t
}.
End ApInfo.
Definition wifi_ap_record_t : Type := ApInfo.t.

(** A known network of the credential store, [SsidItem]. *)
Module SsidItem.
Record t : Type := mk {
  ssid : string;
  password : string;
  username : string
}.
End SsidItem.

(** A connection candidate, [WifiApRecord]. *)
Module WifiApRecord.
Record t : Type := mk {
  ssid : string;
  password : string;
  username : string;
  channel : Z;
  authmode : wifi_auth_mode_t;
  bssid : list Byte.byte
}.
End WifiApRecord.

(** The station part of [wifi_config_t] that [StartConnect] fills in; the
    rest stays zeroed. *)
Module StaConfig.
Record t : Type := mk {
  ssid : string;                (* uint8_t ssid[32] *)
  password : string;            (* uint8_t password[64] *)
  channel : Z;
  bssid : list Byte.byte;
  bssid_set : bool;
  listen_interval : Z
}.
End StaConfig.

(** What the portal task receives, [PortalLoginCtx]. *)
Module PortalLoginCtx.
Record t : Type := mk {
  username : string;
  password : string;
  ssid : string
}.
End PortalLoginCtx.

(** An IPv4 address as [h_addr_list[0]] and [esp_ip4_addr_t] hold it: four
    bytes in network order. *)
Module InAddr.
Record t : Type := mk {
  b0 : Byte.byte;
  b1 : Byte.byte;
  b2 : Byte.byte;
  b3 : Byte.byte
}.
End InAddr.
Definition in_addr : Type := InAddr.t.

(** ** Commands and notifications

    Everything the station does to the outside: driver and timer calls,
    callbacks of the device layer, task creation.  The calls are named as in
    the source. *)

Inductive event_base_t : Type := WIFI_EVENT | IP_EVENT.

Inductive Effect : Type :=
| esp_event_handler_instance_register (base : event_base_t)
| esp_event_handler_instance_unregister (base : event_base_t)
| esp_netif_create_default_wifi_sta
| esp_netif_destroy_default_wifi
| esp_wifi_set_mode_sta
| esp_wifi_start
| esp_wifi_stop
| esp_wifi_set_max_tx_power (power : Z)
| esp_wifi_scan_start            (* active scan, show_hidden = true *)
| esp_wifi_scan_stop
| esp_wifi_connect
| esp_wifi_disconnect
| esp_wifi_set_config (config : StaConfig.t)
| esp_wifi_sta_wpa2_ent_set_identity (identity : string)
| esp_wifi_sta_wpa2_ent_set_username (username : string)
| esp_wifi_sta_wpa2_ent_set_password (password : string)
| esp_wifi_sta_wpa2_ent_enable
| esp_wifi_sta_wpa2_ent_disable
| esp_timer_create
| esp_timer_stop
| esp_timer_delete
| esp_timer_start_once (timeout_us : Z)
| on_scan_begin
| on_connect (ssid : string)
| on_connected (ssid : string)
| on_disconnected
| xTaskCreate_portal_login (ctx : PortalLoginCtx.t).

(** ** The station object *)

Definition WIFI_EVENT_CONNECTED : Z := 1.      (* BIT0 *)
Definition WIFI_EVENT_STOPPED : Z := 2.        (* BIT1 *)
Definition WIFI_EVENT_SCAN_DONE_BIT : Z := 4.  (* BIT2 *)
Definition MAX_RECONNECT_COUNT : Z := 5.

(** The members of [WifiStation].  A handle or a [std::function] member is
    kept as a flag: set (non-null, callable) or not.  [event_group_] holds the
    bits of the FreeRTOS event group.  The members are declared in
    [wifi_station.h]; the three scan intervals and the reconnect counter are
    [int]s, as the [%d] they are logged with and the [int] products assigned
    to them in [SetScanIntervalRange] show. *)
Record WifiStation : Type := mkWifiStation {
  event_group_ : Z;
  instance_any_id_ : bool;
  instance_got_ip_ : bool;
  timer_handle_ : bool;
  station_netif_ : bool;
  max_tx_power_ : Z;
  remember_bssid_ : Z;
  was_connected_ : bool;
  reconnect_count_ : Z;
  connect_queue_ : list WifiApRecord.t;
  scan_min_interval_microseconds_ : Z;
  scan_max_interval_microseconds_ : Z;
  scan_current_interval_microseconds_ : Z;
  ssid_ : string;
  password_ : string;
  ip_address_ : string;
  needs_portal_login_ : bool;
  pending_portal_username_ : string;
  pending_portal_password_ : string;
  on_scan_begin_ : bool;
  on_connect_ : bool;
  on_connected_ : bool;
  on_disconnected_ : bool
}.

(** Assignments to single members. *)
Definition set_event_group_ (v : Z) (s : WifiStation) : WifiStation :=
  mkWifiStation
    v (instance_any_id_ s) (instance_got_ip_ s) (timer_handle_ s) (station_netif_ s)
    (max_tx_power_ s) (remember_bssid_ s) (was_connected_ s) (reconnect_count_ s)
    (connect_queue_ s) (scan_min_interval_microseconds_ s)
    (scan_max_interval_microseconds_ s) (scan_current_interval_microseconds_ s) (ssid_ s)
    (password_ s) (ip_address_ s) (needs_portal_login_ s) (pending_portal_username_ s)
    (pending_portal_password_ s) (on_scan_begin_ s) (on_connect_ s) (on_connected_ s)
    (on_disconnected_ s).

Definition set_instance_any_id_ (v : bool) (s : WifiStation) : WifiStation :=
  mkWifiStation
    (event_group_ s) v (instance_got_ip_ s) (timer_handle_ s) (station_netif_ s)
    (max_tx_power_ s) (remember_bssid_ s) (was_connected_ s) (reconnect_count_ s)
    (connect_queue_ s) (scan_min_interval_microseconds_ s)
    (scan_max_interval_microseconds_ s) (scan_current_interval_microseconds_ s) (ssid_ s)
    (password_ s) (ip_address_ s) (needs_portal_login_ s) (pending_portal_username_ s)
    (pending_portal_password_ s) (on_scan_begin_ s) (on_connect_ s) (on_connected_ s)
    (on_disconnected_ s).

Definition set_instance_got_ip_ (v : bool) (s : WifiStation) : WifiStation :=
  mkWifiStation
    (event_group_ s) (instance_any_id_ s) v (timer_handle_ s) (station_netif_ s)
    (max_tx_power_ s) (remember_bssid_ s) (was_connected_ s) (reconnect_count_ s)
    (connect_queue_ s) (scan_min_interval_microseconds_ s)
    (scan_max_interval_microseconds_ s) (scan_current_interval_microseconds_ s) (ssid_ s)
    (password_ s) (ip_address_ s) (needs_portal_login_ s) (pending_portal_username_ s)
    (pending_portal_password_ s) (on_scan_begin_ s) (on_connect_ s) (on_connected_ s)
    (on_disconnected_ s).

Definition set_timer_handle_ (v : bool) (s : WifiStation) : WifiStation :=
  mkWifiStation
    (event_group_ s) (instance_any_id_ s) (instance_got_ip_ s) v (station_netif_ s)
    (max_tx_power_ s) (remember_bssid_ s) (was_connected_ s) (reconnect_count_ s)
    (connect_queue_ s) (scan_min_interval_microseconds_ s)
    (scan_max_interval_microseconds_ s) (scan_current_interval_microseconds_ s) (ssid_ s)
    (password_ s) (ip_address_ s) (needs_portal_login_ s) (pending_portal_username_ s)
    (pending_portal_password_ s) (on_scan_begin_ s) (on_connect_ s) (on_connected_ s)
    (on_disconnected_ s).

Definition set_station_netif_ (v : bool) (s : WifiStation) : WifiStation :=
  mkWifiStation
    (event_group_ s) (instance_any_id_ s) (instance_got_ip_ s) (timer_handle_ s) v
    (max_tx_power_ s) (remember_bssid_ s) (was_connected_ s) (reconnect_count_ s)
    (connect_queue_ s) (scan_min_interval_microseconds_ s)
    (scan_max_interval_microseconds_ s) (scan_current_interval_microseconds_ s) (ssid_ s)
    (password_ s) (ip_address_ s) (needs_portal_login_ s) (pending_portal_username_ s)
    (pending_portal_password_ s) (on_scan_begin_ s) (on_connect_ s) (on_connected_ s)
    (on_disconnected_ s).

Definition set_was_connected_ (v : bool) (s : WifiStation) : WifiStation :=
  mkWifiStation
    (event_group_ s) (instance_any_id_ s) (instance_got_ip_ s) (timer_handle_ s)
    (station_netif_ s) (max_tx_power_ s) (remember_bssid_ s) v (reconnect_count_ s)
    (connect_queue_ s) (scan_min_interval_microseconds_ s)
    (scan_max_interval_microseconds_ s) (scan_current_interval_microseconds_ s) (ssid_ s)
    (password_ s) (ip_address_ s) (needs_portal_login_ s) (pending_portal_username_ s)
    (pending_portal_password_ s) (on_scan_begin_ s) (on_connect_ s) (on_connected_ s)
    (on_disconnected_ s).

Definition set_reconnect_count_ (v : Z) (s : WifiStation) : WifiStation :=
  mkWifiStation
    (event_group_ s) (instance_any_id_ s) (instance_got_ip_ s) (timer_handle_ s)
    (station_netif_ s) (max_tx_power_ s) (remember_bssid_ s) (was_connected_ s) v
    (connect_queue_ s) (scan_min_interval_microseconds_ s)
    (scan_max_interval_microseconds_ s) (scan_current_interval_microseconds_ s) (ssid_ s)
    (password_ s) (ip_address_ s) (needs_portal_login_ s) (pending_portal_username_ s)
    (pending_portal_password_ s) (on_scan_begin_ s) (on_connect_ s) (on_connected_ s)
    (on_disconnected_ s).

Definition set_connect_queue_ (v : list WifiApRecord.t) (s : WifiStation) : WifiStation :=
  mkWifiStation
    (event_group_ s) (instance_any_id_ s) (instance_got_ip_ s) (timer_handle_ s)
    (station_netif_ s) (max_tx_power_ s) (remember_bssid_ s) (was_connected_ s)
    (reconnect_count_ s) v (scan_min_interval_microseconds_ s)
    (scan_max_interval_microseconds_ s) (scan_current_interval_microseconds_ s) (ssid_ s)
    (password_ s) (ip_address_ s) (needs_portal_login_ s) (pending_portal_username_ s)
    (pending_portal_password_ s) (on_scan_begin_ s) (on_connect_ s) (on_connected_ s)
    (on_disconnected_ s).

Definition set_scan_min_interval_microseconds_ (v : Z) (s : WifiStation) : WifiStation :=
  mkWifiStation
    (event_group_ s) (instance_any_id_ s) (instance_got_ip_ s) (timer_handle_ s)
    (station_netif_ s) (max_tx_power_ s) (remember_bssid_ s) (was_connected_ s)
    (reconnect_count_ s) (connect_queue_ s) v (scan_max_interval_microseconds_ s)
    (scan_current_interval_microseconds_ s) (ssid_ s) (password_ s) (ip_address_ s)
    (needs_portal_login_ s) (pending_portal_username_ s) (pending_portal_password_ s)
    (on_scan_begin_ s) (on_connect_ s) (on_connected_ s) (on_disconnected_ s).

Definition set_scan_max_interval_microseconds_ (v : Z) (s : WifiStation) : WifiStation :=
  mkWifiStation
    (event_group_ s) (instance_any_id_ s) (instance_got_ip_ s) (timer_handle_ s)
    (station_netif_ s) (max_tx_power_ s) (remember_bssid_ s) (was_connected_ s)
    (reconnect_count_ s) (connect_queue_ s) (scan_min_interval_microseconds_ s) v
    (scan_current_interval_microseconds_ s) (ssid_ s) (password_ s) (ip_address_ s)
    (needs_portal_login_ s) (pending_portal_username_ s) (pending_portal_password_ s)
    (on_scan_begin_ s) (on_connect_ s) (on_connected_ s) (on_disconnected_ s).

Definition set_scan_current_interval_microseconds_ (v : Z) (s : WifiStation) : WifiStation :=
  mkWifiStation
    (event_group_ s) (instance_any_id_ s) (instance_got_ip_ s) (timer_handle_ s)
    (station_netif_ s) (max_tx_power_ s) (remember_bssid_ s) (was_connected_ s)
    (reconnect_count_ s) (connect_queue_ s) (scan_min_interval_microseconds_ s)
    (scan_max_interval_microseconds_ s) v (ssid_ s) (password_ s) (ip_address_ s)
    (needs_portal_login_ s) (pending_portal_username_ s) (pending_portal_password_ s)
    (on_scan_begin_ s) (on_connect_ s) (on_connected_ s) (on_disconnected_ s).

Definition set_ssid_ (v : string) (s : WifiStation) : WifiStation :=
  mkWifiStation
    (event_group_ s) (instance_any_id_ s) (instance_got_ip_ s) (timer_handle_ s)
    (station_netif_ s) (max_tx_power_ s) (remember_bssid_ s) (was_connected_ s)
    (reconnect_count_ s) (connect_queue_ s) (scan_min_interval_microseconds_ s)
    (scan_max_interval_microseconds_ s) (scan_current_interval_microseconds_ s) v
    (password_ s) (ip_address_ s) (needs_portal_login_ s) (pending_portal_username_ s)
    (pending_portal_password_ s) (on_scan_begin_ s) (on_connect_ s) (on_connected_ s)
    (on_disconnected_ s).

Definition set_password_ (v : string) (s : WifiStation) : WifiStation :=
  mkWifiStation
    (event_group_ s) (instance_any_id_ s) (instance_got_ip_ s) (timer_handle_ s)
    (station_netif_ s) (max_tx_power_ s) (remember_bssid_ s) (was_connected_ s)
    (reconnect_count_ s) (connect_queue_ s) (scan_min_interval_microseconds_ s)
    (scan_max_interval_microseconds_ s) (scan_current_interval_microseconds_ s) (ssid_ s) v
    (ip_address_ s) (needs_portal_login_ s) (pending_portal_username_ s)
    (pending_portal_password_ s) (on_scan_begin_ s) (on_connect_ s) (on_connected_ s)
    (on_disconnected_ s).

Definition set_ip_address_ (v : string) (s : WifiStation) : WifiStation :=
  mkWifiStation
    (event_group_ s) (instance_any_id_ s) (instance_got_ip_ s) (timer_handle_ s)
    (station_netif_ s) (max_tx_power_ s) (remember_bssid_ s) (was_connected_ s)
    (reconnect_count_ s) (connect_queue_ s) (scan_min_interval_microseconds_ s)
    (scan_max_interval_microseconds_ s) (scan_current_interval_microseconds_ s) (ssid_ s)
    (password_ s) v (needs_portal_login_ s) (pending_portal_username_ s)
    (pending_portal_password_ s) (on_scan_begin_ s) (on_connect_ s) (on_connected_ s)
    (on_disconnected_ s).

Definition set_needs_portal_login_ (v : bool) (s : WifiStation) : WifiStation :=
  mkWifiStation
    (event_group_ s) (instance_any_id_ s) (instance_got_ip_ s) (timer_handle_ s)
    (station_netif_ s) (max_tx_power_ s) (remember_bssid_ s) (was_connected_ s)
    (reconnect_count_ s) (connect_queue_ s) (scan_min_interval_microseconds_ s)
    (scan_max_interval_microseconds_ s) (scan_current_interval_microseconds_ s) (ssid_ s)
    (password_ s) (ip_address_ s) v (pending_portal_username_ s)
    (pending_portal_password_ s) (on_scan_begin_ s) (on_connect_ s) (on_connected_ s)
    (on_disconnected_ s).

Definition set_pending_portal_username_ (v : string) (s : WifiStation) : WifiStation :=
  mkWifiStation
    (event_group_ s) (instance_any_id_ s) (instance_got_ip_ s) (timer_handle_ s)
    (station_netif_ s) (max_tx_power_ s) (remember_bssid_ s) (was_connected_ s)
    (reconnect_count_ s) (connect_queue_ s) (scan_min_interval_microseconds_ s)
    (scan_max_interval_microseconds_ s) (scan_current_interval_microseconds_ s) (ssid_ s)
    (password_ s) (ip_address_ s) (needs_portal_login_ s) v (pending_portal_password_ s)
    (on_scan_begin_ s) (on_connect_ s) (on_connected_ s) (on_disconnected_ s).

Definition set_pending_portal_password_ (v : string) (s : WifiStation) : WifiStation :=
  mkWifiStation
    (event_group_ s) (instance_any_id_ s) (instance_got_ip_ s) (timer_handle_ s)
    (station_netif_ s) (max_tx_power_ s) (remember_bssid_ s) (was_connected_ s)
    (reconnect_count_ s) (connect_queue_ s) (scan_min_interval_microseconds_ s)
    (scan_max_interval_microseconds_ s) (scan_current_interval_microseconds_ s) (ssid_ s)
    (password_ s) (ip_address_ s) (needs_portal_login_ s) (pending_portal_username_ s) v
    (on_scan_begin_ s) (on_connect_ s) (on_connected_ s) (on_disconnected_ s).

Definition set_on_scan_begin_ (v : bool) (s : WifiStation) : WifiStation :=
  mkWifiStation
    (event_group_ s) (instance_any_id_ s) (instance_got_ip_ s) (timer_handle_ s)
    (station_netif_ s) (max_tx_power_ s) (remember_bssid_ s) (was_connected_ s)
    (reconnect_count_ s) (connect_queue_ s) (scan_min_interval_microseconds_ s)
    (scan_max_interval_microseconds_ s) (scan_current_interval_microseconds_ s) (ssid_ s)
    (password_ s) (ip_address_ s) (needs_portal_login_ s) (pending_portal_username_ s)
    (pending_portal_password_ s) v (on_connect_ s) (on_connected_ s) (on_disconnected_ s).

Definition set_on_connect_ (v : bool) (s : WifiStation) : WifiStation :=
  mkWifiStation
    (event_group_ s) (instance_any_id_ s) (instance_got_ip_ s) (timer_handle_ s)
    (station_netif_ s) (max_tx_power_ s) (remember_bssid_ s) (was_connected_ s)
    (reconnect_count_ s) (connect_queue_ s) (scan_min_interval_microseconds_ s)
    (scan_max_interval_microseconds_ s) (scan_current_interval_microseconds_ s) (ssid_ s)
    (password_ s) (ip_address_ s) (needs_portal_login_ s) (pending_portal_username_ s)
    (pending_portal_password_ s) (on_scan_begin_ s) v (on_connected_ s) (on_disconnected_ s).

Definition set_on_connected_ (v : bool) (s : WifiStation) : WifiStation :=
  mkWifiStation
    (event_group_ s) (instance_any_id_ s) (instance_got_ip_ s) (timer_handle_ s)
    (station_netif_ s) (max_tx_power_ s) (remember_bssid_ s) (was_connected_ s)
    (reconnect_count_ s) (connect_queue_ s) (scan_min_interval_microseconds_ s)
    (scan_max_interval_microseconds_ s) (scan_current_interval_microseconds_ s) (ssid_ s)
    (password_ s) (ip_address_ s) (needs_portal_login_ s) (pending_portal_username_ s)
    (pending_portal_password_ s) (on_scan_begin_ s) (on_connect_ s) v (on_disconnected_ s).

Definition set_on_disconnected_ (v : bool) (s : WifiStation) : WifiStation :=
  mkWifiStation
    (event_group_ s) (instance_any_id_ s) (instance_got_ip_ s) (timer_handle_ s)
    (station_netif_ s) (max_tx_power_ s) (remember_bssid_ s) (was_connected_ s)
    (reconnect_count_ s) (connect_queue_ s) (scan_min_interval_microseconds_ s)
    (scan_max_interval_microseconds_ s) (scan_current_interval_microseconds_ s) (ssid_ s)
    (password_ s) (ip_address_ s) (needs_portal_login_ s) (pending_portal_username_ s)
    (pending_portal_password_ s) (on_scan_begin_ s) (on_connect_ s) (on_connected_ s) v.

(** ** The command monad

    A member function is a [Cmd A]: from the object before the call to the
    returned value, the object after it and the effects issued, oldest
    first. *)

Definition Cmd (A : Type) : Type := WifiStation -> A * WifiStation * list Effect.

Definition ret {A : Type} (a : A) : Cmd A := fun s => (a, s, []).

Definition bind {A B : Type} (c : Cmd A) (k : A -> Cmd B) : Cmd B :=
  fun s =>
    let r1 := c s in
    let r2 := k (fst (fst r1)) (snd (fst r1)) in
    (fst (fst r2), snd (fst r2), snd r1 ++ snd r2).

Definition get : Cmd WifiStation := fun s => (s, s, []).

Definition modify (f : WifiStation -> WifiStation) : Cmd unit := fun s => (tt, f s, []).

Definition emit (e : Effect) : Cmd unit := fun s => (tt, s, [e]).

Definition when (b : bool) (c : Cmd unit) : Cmd unit := if b then c else ret tt.

Declare Scope cmd_scope.
Delimit Scope cmd_scope with cmd.
Notation "x <- c ;; k" := (bind c (fun x => k))
  (at level 61, c at next level, right associativity) : cmd_scope.
Notation "c ;; k" := (bind c (fun _ => k))
  (at level 61, right associativity) : cmd_scope.
Local Open Scope cmd_scope.

(** The object after a command, and the effects of a command. *)
Definition state_after {A : Type} (c : Cmd A) (s : WifiStation) : WifiStation :=
  snd (fst (c s)).
Definition effects_of {A : Type} (c : Cmd A) (s : WifiStation) : list Effect :=
  snd (c s).
Definition value_of {A : Type} (c : Cmd A) (s : WifiStation) : A :=
  fst (fst (c s)).

(** ** Event group *)

Definition xEventGroupSetBits (bits : Z) : Cmd unit :=
  modify (fun s => set_event_group_ (Z.lor (event_group_ s) bits) s).

Definition xEventGroupClearBits (bits : Z) : Cmd unit :=
  modify (fun s => set_event_group_ (Z.ldiff (event_group_ s) bits) s).

Definition xEventGroupGetBits : Cmd Z :=
  s <- get ;; ret (event_group_ s).



(** ** Member functions of [WifiStation] *)

(** [WifiStation::IsConnected]. *)
Definition IsConnected : Cmd bool :=
  bits <- xEventGroupGetBits ;;
  ret (negb (Z.land bits WIFI_EVENT_CONNECTED =? 0)).

(** [WifiStation::Stop]. *)
Definition Stop : Cmd unit :=
  s <- get ;;
  when (instance_any_id_ s)
    (emit (esp_event_handler_instance_unregister WIFI_EVENT) ;;
     modify (set_instance_any_id_ false)) ;;
  when (instance_got_ip_ s)
    (emit (esp_event_handler_instance_unregister IP_EVENT) ;;
     modify (set_instance_got_ip_ false)) ;;
  when (timer_handle_ s)
    (emit esp_timer_stop ;;
     emit esp_timer_delete ;;
     modify (set_timer_handle_ false)) ;;
  emit esp_wifi_scan_stop ;;
  emit esp_wifi_disconnect ;;
  emit esp_wifi_stop ;;
  when (station_netif_ s)
    (emit esp_netif_destroy_default_wifi ;;
     modify (set_station_netif_ false)) ;;
  modify (set_was_connected_ false) ;;
  xEventGroupClearBits WIFI_EVENT_CONNECTED ;;
  xEventGroupSetBits WIFI_EVENT_STOPPED.

(** [WifiStation::OnScanBegin], [OnConnect], [OnConnected], [OnDisconnected]:
    the device layer registers a callable. *)
Definition OnScanBegin : Cmd unit := modify (set_on_scan_begin_ true).
Definition OnConnect : Cmd unit := modify (set_on_connect_ true).
Definition OnConnected : Cmd unit := modify (set_on_connected_ true).
Definition OnDisconnected : Cmd unit := modify (set_on_disconnected_ true).

(** [WifiStation::Start].  A failing driver call aborts the firmware
    ([ESP_ERROR_CHECK]); the model follows the run in which they succeed. *)
Definition Start : Cmd unit :=
  xEventGroupClearBits (Z.lor WIFI_EVENT_STOPPED WIFI_EVENT_SCAN_DONE_BIT) ;;
  emit esp_netif_create_default_wifi_sta ;;
  modify (set_station_netif_ true) ;;
  emit (esp_event_handler_instance_register WIFI_EVENT) ;;
  modify (set_instance_any_id_ true) ;;
  emit (esp_event_handler_instance_register IP_EVENT) ;;
  modify (set_instance_got_ip_ true) ;;
  emit esp_wifi_set_mode_sta ;;
  emit esp_wifi_start ;;
  s <- get ;;
  when (negb (max_tx_power_ s =? 0)) (emit (esp_wifi_set_max_tx_power (max_tx_power_ s))) ;;
  emit esp_timer_create ;;
  modify (set_timer_handle_ true).

(** The callback of the timer created in [Start]. *)
Definition WiFiScanTimer_callback : Cmd unit :=
  connected <- IsConnected ;;
  when (negb connected) (emit esp_wifi_scan_start).





(** [WifiStation::SetScanIntervalRange]. *)
Definition SetScanIntervalRange (min_interval_seconds max_interval_seconds : Z) : Cmd unit :=
  modify (set_scan_min_interval_microseconds_
            (wrap_int (wrap_int (min_interval_seconds * 1000) * 1000))) ;;
  modify (set_scan_max_interval_microseconds_
            (wrap_int (wrap_int (max_interval_seconds * 1000) * 1000))) ;;
  modify (fun s => set_scan_current_interval_microseconds_
                     (scan_min_interval_microseconds_ s) s).

(** [WifiStation::UpdateScanInterval]. *)
Definition UpdateScanInterval : Cmd unit :=
  s <- get ;;
  when (scan_current_interval_microseconds_ s <? scan_max_interval_microseconds_ s)
    (modify (set_scan_current_interval_microseconds_
               (wrap_int (scan_current_interval_microseconds_ s * 2))) ;;
     s1 <- get ;;
     when (scan_current_interval_microseconds_ s1 >? scan_max_interval_microseconds_ s1)
       (modify (set_scan_current_interval_microseconds_
                  (scan_max_interval_microseconds_ s1)))).

(** [WifiStation::GetRssi] and [WifiStation::GetChannel].  [ap_info] is what
    [esp_wifi_sta_get_ap_info] answers: a record when it returns [ESP_OK]. *)
Definition GetRssi (ap_info : option wifi_ap_record_t) : Cmd Z :=
  connected <- IsConnected ;;
  if negb connected then ret 0
  else match ap_info with
       | Some info => ret (ApInfo.rssi info)
       | None => ret 0
       end.

Definition GetChannel (ap_info : option wifi_ap_record_t) : Cmd Z :=
  connected <- IsConnected ;;
  if negb connected then ret 0
  else match ap_info with
       | Some info => ret (ApInfo.primary info)
       | None => ret 0
       end.

(** [WifiStation::StartPortalLogin]: the task gets its own copy of the two
    credentials and of the current ssid. *)
Definition StartPortalLogin (username password : string) : Cmd unit :=
  s <- get ;;
  emit (xTaskCreate_portal_login (PortalLoginCtx.mk username password (ssid_ s))).

(** [WifiStation::StartConnect]. *)
Definition StartConnect : Cmd unit :=
  s <- get ;;
  match connect_queue_ s with
  | [] => emit esp_wifi_scan_start
  | ap_record :: rest =>
      modify (set_connect_queue_ rest) ;;
      modify (set_ssid_ (WifiApRecord.ssid ap_record)) ;;
      modify (set_password_ (WifiApRecord.password ap_record)) ;;
      s1 <- get ;;
      when (on_connect_ s1) (emit (on_connect (ssid_ s1))) ;;
      emit esp_wifi_disconnect ;;
      modify (set_needs_portal_login_ false) ;;
      modify (set_pending_portal_username_ EmptyString) ;;
      modify (set_pending_portal_password_ EmptyString) ;;
      let is_enterprise :=
        negb (empty (WifiApRecord.username ap_record)) &&
        (authmode_eqb (WifiApRecord.authmode ap_record) WIFI_AUTH_WPA2_ENTERPRISE ||
         authmode_eqb (WifiApRecord.authmode ap_record) WIFI_AUTH_WPA2_WPA3_ENTERPRISE) in
      when (negb (empty (WifiApRecord.username ap_record)) && negb is_enterprise)
        (modify (set_needs_portal_login_ true) ;;
         modify (set_pending_portal_username_ (WifiApRecord.username ap_record)) ;;
         modify (set_pending_portal_password_ (WifiApRecord.password ap_record))) ;;
      (if is_enterprise then
         emit (esp_wifi_sta_wpa2_ent_set_identity (WifiApRecord.username ap_record)) ;;
         emit (esp_wifi_sta_wpa2_ent_set_username (WifiApRecord.username ap_record)) ;;
         emit (esp_wifi_sta_wpa2_ent_set_password (WifiApRecord.password ap_record)) ;;
         emit esp_wifi_sta_wpa2_ent_enable
       else
         emit esp_wifi_sta_wpa2_ent_disable) ;;
      let sta_password :=
        if negb is_enterprise &&
           negb (authmode_eqb (WifiApRecord.authmode ap_record) WIFI_AUTH_OPEN)
        then strlcpy (WifiApRecord.password ap_record) 64
        else EmptyString in
      let pin := negb (remember_bssid_ s =? 0) in
      let wifi_config :=
        StaConfig.mk
          (strlcpy (WifiApRecord.ssid ap_record) 32)
          sta_password
          (if pin then WifiApRecord.channel ap_record else 0)
          (if pin then WifiApRecord.bssid ap_record else repeat Byte.x00 6)
          pin
          3 in
      emit (esp_wifi_set_config wifi_config) ;;
      modify (set_reconnect_count_ 0) ;;
      emit esp_wifi_connect
  end.

(** ** Scan completion and the event handlers *)

(** The comparator handed to [std::sort]: [a.rssi > b.rssi]. *)
Definition rssi_greater (a b : wifi_ap_record_t) : bool := ApInfo.rssi a >? ApInfo.rssi b.

(** The first known network whose ssid [strcmp]-equals the scan result's:
    [std::find_if] over the store's list. *)
Definition find_known (ssid_list : list SsidItem.t) (ap_record : wifi_ap_record_t)
  : option SsidItem.t :=
  find (fun item => strcmp_eq (ApInfo.ssid ap_record) (SsidItem.ssid item)) ssid_list.

(** The candidate built from a scan result and its known network. *)
Definition make_record (item : SsidItem.t) (ap_record : wifi_ap_record_t) : WifiApRecord.t :=
  WifiApRecord.mk
    (SsidItem.ssid item)
    (SsidItem.password item)
    (SsidItem.username item)
    (ApInfo.primary ap_record)
    (ApInfo.authmode ap_record)
    (ApInfo.bssid ap_record).

(** One turn of the loop over the sorted scan results. *)
Definition push_if_known (ssid_list : list SsidItem.t) (queue : list WifiApRecord.t)
    (ap_record : wifi_ap_record_t) : list WifiApRecord.t :=
  match find_known ssid_list ap_record with
  | Some item => queue ++ [make_record item ap_record]
  | None => queue
  end.

(** [v.empty()] of a vector. *)
Definition vec_empty {A : Type} (v : list A) : bool :=
  match v with
  | [] => true
  | _ :: _ => false
  end.

Section Handlers.

(** [std::sort] with the comparator [rssi_greater], as linked into the
    firmware.  The C++ standard fixes its result only up to the order of
    elements the comparator does not separate. *)
Variable std_sort : list wifi_ap_record_t -> list wifi_ap_record_t.

(** The queue [HandleScanResult] builds after [connect_queue_.clear()]. *)
Definition ranked_queue (ap_records : list wifi_ap_record_t) (ssid_list : list SsidItem.t)
  : list WifiApRecord.t :=
  fold_left (push_if_known ssid_list) (std_sort ap_records) [].

(** [WifiStation::HandleScanResult].  [ap_records] is what the driver
    returns for the finished scan ([ap_num] is its length), [ssid_list]
    what [SsidManager::GetSsidList] returns. *)
Definition HandleScanResult (ap_records : list wifi_ap_record_t)
    (ssid_list : list SsidItem.t) : Cmd unit :=
  s <- get ;;
  if (List.length ap_records =? 0)%nat then
    emit (esp_timer_start_once (to_uint64 (scan_current_interval_microseconds_ s))) ;;
    UpdateScanInterval
  else
    modify (set_connect_queue_ []) ;;
    modify (set_connect_queue_ (ranked_queue ap_records ssid_list)) ;;
    s1 <- get ;;
    if vec_empty (connect_queue_ s1) then
      emit (esp_timer_start_once (to_uint64 (scan_current_interval_microseconds_ s1))) ;;
      UpdateScanInterval
    else
      StartConnect.

(** The link-layer events the handler distinguishes; any other event id
    falls through the [switch]. *)
Inductive wifi_event_t : Type :=
| WIFI_EVENT_STA_START
| WIFI_EVENT_SCAN_DONE (ap_records : list wifi_ap_record_t) (ssid_list : list SsidItem.t)
| WIFI_EVENT_STA_DISCONNECTED
| WIFI_EVENT_OTHER.

(** [WifiStation::WifiEventHandler]. *)
Definition WifiEventHandler (event : wifi_event_t) : Cmd unit :=
  match event with
  | WIFI_EVENT_STA_START =>
      emit esp_wifi_scan_start ;;
      s <- get ;;
      when (on_scan_begin_ s) (emit on_scan_begin)
  | WIFI_EVENT_SCAN_DONE ap_records ssid_list =>
      xEventGroupSetBits WIFI_EVENT_SCAN_DONE_BIT ;;
      HandleScanResult ap_records ssid_list
  | WIFI_EVENT_STA_DISCONNECTED =>
      xEventGroupClearBits WIFI_EVENT_CONNECTED ;;
      s <- get ;;
      let was_connected := was_connected_ s in
      modify (set_was_connected_ false) ;;
      when (was_connected && on_disconnected_ s) (emit on_disconnected) ;;
      if reconnect_count_ s <? MAX_RECONNECT_COUNT then
        modify (set_reconnect_count_ (wrap_int (reconnect_count_ s + 1))) ;;
        emit esp_wifi_connect
      else
        if negb (vec_empty (connect_queue_ s)) then
          StartConnect
        else
          emit (esp_timer_start_once (to_uint64 (scan_current_interval_microseconds_ s))) ;;
          UpdateScanInterval
  | WIFI_EVENT_OTHER => ret tt
  end.

(** [WifiStation::IpEventHandler] for [IP_EVENT_STA_GOT_IP]; [ip_address]
    is the dotted form of the address in the event. *)
Definition IpEventHandler (ip_address : string) : Cmd unit :=
  modify (set_ip_address_ ip_address) ;;
  xEventGroupSetBits WIFI_EVENT_CONNECTED ;;
  modify (set_was_connected_ true) ;;
  modify (set_reconnect_count_ 0) ;;
  modify (set_connect_queue_ []) ;;
  modify (fun s => set_scan_current_interval_microseconds_
                     (scan_min_interval_microseconds_ s) s) ;;
  s <- get ;;
  when (on_connected_ s) (emit (on_connected (ssid_ s))) ;;
  when (needs_portal_login_ s)
    (StartPortalLogin (pending_portal_username_ s) (pending_portal_password_ s)).

(** Everything that can happen to a station: an event of the radio driver,
    the scan timer firing, or a call of the device layer. *)
Inductive Input : Type :=
| WifiEvent (event : wifi_event_t)
| IpEvent (ip_address : string)
| TimerFired
| CallSetScanIntervalRange (min_interval_seconds max_interval_seconds : Z)
| CallStart
| CallStop.

Definition step (input : Input) : Cmd unit :=
  match input with
  | WifiEvent event => WifiEventHandler event
  | IpEvent ip_address => IpEventHandler ip_address
  | TimerFired => WiFiScanTimer_callback
  | CallSetScanIntervalRange lo hi => SetScanIntervalRange lo hi
  | CallStart => Start
  | CallStop => Stop
  end.

(** A run: the inputs one after the other. *)
Fixpoint run (inputs : list Input) : Cmd unit :=
  match inputs with
  | [] => ret tt
  | input :: rest => step input ;; run rest
  end.

End Handlers.

(** ** The portal task

    The body of the task [StartPortalLogin] creates.  Its surroundings are
    what the HTTP client answers to a GET, what the resolver answers for a
    host name, and the gateway of the station interface. *)

Record HttpResponse : Type := mkHttpResponse {
  perform_ok : bool;                  (* esp_http_client_perform == ESP_OK *)
  status_code : Z;
  location_header : option string;    (* the Location header, when present *)
  content_length : Z
}.

Record PortalEnv : Type := mkPortalEnv {
  http_get : string -> HttpResponse;
  gethostbyname : string -> option in_addr;   (* he && he->h_addr_list[0] *)
  gateway : option in_addr                    (* netif && get_ip_info == ESP_OK *)
}.

(** The requests the task sends. *)
Inductive HttpRequest : Type :=
| GET (url : string)
| POST (url : string) (headers : list (string * string)) (body : string).

(** A byte in decimal, as [%d] prints it. *)
Definition digit (n : nat) : ascii := ascii_of_nat (48 + n).

Definition decimal (n : nat) : string :=
  if (n <? 10)%nat then String (digit n) EmptyString
  else if (n <? 100)%nat then
    String (digit (n / 10)) (String (digit (n mod 10)) EmptyString)
  else
    String (digit (n / 100))
      (String (digit ((n / 10) mod 10)) (String (digit (n mod 10)) EmptyString)).

(** [inet_ntoa] and [esp_ip4addr_ntoa]: dotted decimal. *)
Definition inet_ntoa (a : in_addr) : string :=
  (decimal (Byte.to_nat (InAddr.b0 a)) ++ "." ++
   decimal (Byte.to_nat (InAddr.b1 a)) ++ "." ++
   decimal (Byte.to_nat (InAddr.b2 a)) ++ "." ++
   decimal (Byte.to_nat (InAddr.b3 a)))%string.

(** The test both DNS branches apply to the printed address. *)
Definition local_prefix (ip : string) : bool :=
  strncmp_eq ip "10." 3 || strncmp_eq ip "192.168" 7 || strncmp_eq ip "172." 4.

(** The two variables the probing lambda captures by reference. *)
Record Detection : Type := mkDetection {
  login_url : string;
  is_hijacked_200 : bool
}.

(** The DNS step shared by the two HTTP-200 branches. *)
Definition resolve_login (env : PortalEnv) (host : string) (d : Detection) : bool * Detection :=
  match gethostbyname env host with
  | Some a =>
      let ip := inet_ntoa a in
      if local_prefix ip
      then (true, mkDetection ("http://" ++ ip ++ "/login")%string true)
      else (false, mkDetection (login_url d) true)
  | None => (false, mkDetection (login_url d) true)
  end.

(** The lambda [check_redirect]: whether a login URL was found, and the
    captured variables afterwards. *)
Definition check_redirect (env : PortalEnv) (url : string) (d : Detection) : bool * Detection :=
  let r := http_get env url in
  if perform_ok r then
    let code := status_code r in
    if (code =? 302) || (code =? 301) then
      match location_header r with
      | Some loc => (true, mkDetection loc (is_hijacked_200 d))
      | None => (false, d)
      end
    else if code =? 200 then
      if contains url "generate_204" then
        resolve_login env "connect.rom.miui.com" d
      else if contains url "captive.apple.com" then
        let content_len := content_length r in
        if (content_len >? 0) && (content_len <? 200) then (false, d)
        else resolve_login env "captive.apple.com" d
      else (false, d)
    else (false, d)
  else (false, d).

Definition MIUI_PROBE : string := "http://connect.rom.miui.com/generate_204".
Definition APPLE_PROBE : string := "http://captive.apple.com/".

(** Steps 1 to 3 of the task: the probes sent and the login URL at the point
    where the POST is decided. *)
Definition detect_login_url (env : PortalEnv) (current_ssid : string)
  : list HttpRequest * string :=
  let d0 := mkDetection EmptyString false in
  let '(detected1, d1) := check_redirect env MIUI_PROBE d0 in
  let '(detected2, d2, probes) :=
    if negb detected1
    then let '(f, d) := check_redirect env APPLE_PROBE d1 in (f, d, [GET MIUI_PROBE; GET APPLE_PROBE])
    else (detected1, d1, [GET MIUI_PROBE]) in
  let url :=
    if negb detected2 && (is_hijacked_200 d2 || contains current_ssid "BUPT") then
      if String.eqb current_ssid "BUPT-portal" || String.eqb current_ssid "BUPT-mobile"
      then "http://10.3.8.216/login"%string
      else match gateway env with
           | Some gw => ("http://" ++ inet_ntoa gw ++ "/login")%string
           | None => login_url d2
           end
    else login_url d2 in
  (probes, url).

(** "Ensure we hit /login". *)
Definition post_url_of (login_url : string) : string :=
  if negb (contains login_url "login") then
    if Ascii.eqb (back login_url) "/" then (login_url ++ "login")%string
    else (login_url ++ "/login")%string
  else login_url.

Definition login_headers : list (string * string) :=
  [("User-Agent", "Mozilla/5.0 (Windows NT 10.0; Win64; x64)");
   ("Content-Type", "application/x-www-form-urlencoded")]%string.

Definition login_body (user pass : string) : string :=
  ("user=" ++ user ++ "&pass=" ++ pass)%string.

(** The POST section: nothing is sent when no login URL was determined. *)
Definition login_post (login_url user pass : string) : list HttpRequest :=
  if negb (empty login_url)
  then [POST (post_url_of login_url) login_headers (login_body user pass)]
  else [].

(** The whole task: every request it sends, in order. *)
Definition PortalLoginTask (env : PortalEnv) (ctx : PortalLoginCtx.t) : list HttpRequest :=
  let '(probes, url) := detect_login_url env (PortalLoginCtx.ssid ctx) in
  probes ++ login_post url (PortalLoginCtx.username ctx) (PortalLoginCtx.password ctx).

(** ** What the ranking is measured against *)

(** The order [std::sort] guarantees for [rssi_greater]: no element is
    followed by one the comparator puts strictly before it. *)
Definition rssi_ordered (l : list wifi_ap_record_t) : Prop :=
  StronglySorted (fun a b => rssi_greater b a = false) l.

(** The contract of [std::sort]: the same elements, in comparator order. *)
Record std_sort_contract (sort : list wifi_ap_record_t -> list wifi_ap_record_t) : Prop :=
  mk_std_sort_contract {
    sort_permutes : forall l, Permutation l (sort l);
    sort_orders : forall l, rssi_ordered (sort l)
  }.

(** Whether a scan result matches some known network. *)
Definition is_known (ssid_list : list SsidItem.t) (ap_record : wifi_ap_record_t) : bool :=
  match find_known ssid_list ap_record with
  | Some _ => true
  | None => false
  end.

(** The candidate a scan result gives rise to: one if it is known, none
    otherwise. *)
Definition candidates_of (ssid_list : list SsidItem.t) (ap_record : wifi_ap_record_t)
  : list WifiApRecord.t :=
  match find_known ssid_list ap_record with
  | Some item => [make_record item ap_record]
  | None => []
  end.

(** Insertion in front of the first element that is not strictly stronger:
    among equals the inserted one comes first. *)
Fixpoint insert_before_equal (x : wifi_ap_record_t) (l : list wifi_ap_record_t)
  : list wifi_ap_record_t :=
  match l with
  | [] => [x]
  | y :: rest =>
      if rssi_greater y x then y :: insert_before_equal x rest else x :: y :: rest
  end.

(** A stable sort by descending signal strength: ties keep scan order. *)
Fixpoint stable_sort_desc (l : list wifi_ap_record_t) : list wifi_ap_record_t :=
  match l with
  | [] => []
  | x :: rest => insert_before_equal x (stable_sort_desc rest)
  end.




(** The private IPv4 ranges 10.0.0.0/8, 172.16.0.0/12 and 192.168.0.0/16. *)
Definition private_range (a : in_addr) : bool :=
  let o0 := Byte.to_nat (InAddr.b0 a) in
  let o1 := Byte.to_nat (InAddr.b1 a) in
  ((o0 =? 10) || ((o0 =? 172) && (16 <=? o1) && (o1 <=? 31)) ||
   ((o0 =? 192) && (o1 =? 168)))%nat.


(** A string without NUL: for such a string [c_str] is the identity. *)
Fixpoint nul_free (s : string) : bool :=
  match s with
  | EmptyString => true
  | String c rest => negb (Ascii.eqb c NUL) && nul_free rest
  end.

(** The enterprise modes. *)
Definition enterprise_authmode (a : wifi_auth_mode_t) : bool :=
  match a with
  | WIFI_AUTH_WPA2_ENTERPRISE | WIFI_AUTH_WPA2_WPA3_ENTERPRISE => true
  | _ => false
  end.

(** The driver commands of a trace, callbacks and task creations left out. *)
Definition is_driver_command (e : Effect) : bool :=
  match e with
  | on_scan_begin | on_connect _ | on_connected _ | on_disconnected
  | xTaskCreate_portal_login _ => false
  | _ => true
  end.

Definition driver_commands (effects : list Effect) : list Effect :=
  filter is_driver_command effects.


(** [n] link-layer disconnects in a row. *)
Definition disconnects (n : nat) : list Input :=
  repeat (WifiEvent WIFI_EVENT_STA_DISCONNECTED) n.

(** A sample station: started, not connected, scan range 10 s to 300 s,
    every callback registered. *)
Definition sample_station : WifiStation :=
  mkWifiStation 0 true true true true 0 0 false 0 []
    10000000 300000000 10000000
    EmptyString EmptyString EmptyString false EmptyString EmptyString
    true true true true.

(** Sample data: the scan and the store of the specification's scenario, and
    two access points of one network heard equally loud. *)
Definition cafe_ap : wifi_ap_record_t :=
  ApInfo.mk [Byte.x02; Byte.x00; Byte.x00; Byte.x00; Byte.x00; Byte.x01]
    "CafeWifi" 6 (-50) WIFI_AUTH_OPEN.
Definition other_ap : wifi_ap_record_t :=
  ApInfo.mk [Byte.x02; Byte.x00; Byte.x00; Byte.x00; Byte.x00; Byte.x02]
    "OtherNet" 11 (-40) WIFI_AUTH_OPEN.
Definition cafe_item : SsidItem.t := SsidItem.mk "CafeWifi" EmptyString "guest".

Definition home_ap_1 : wifi_ap_record_t :=
  ApInfo.mk [Byte.x02; Byte.x00; Byte.x00; Byte.x00; Byte.x00; Byte.x0a]
    "Home" 1 (-60) WIFI_AUTH_WPA2_PSK.
Definition home_item : SsidItem.t := SsidItem.mk "Home" "secret" EmptyString.

(** Two states of one connect attempt: same queue, same target, same portal
    decision, same scan intervals. *)
Definition same_attempt (s s' : WifiStation) : Prop :=
  connect_queue_ s' = connect_queue_ s /\
  ssid_ s' = ssid_ s /\
  password_ s' = password_ s /\
  needs_portal_login_ s' = needs_portal_login_ s /\
  pending_portal_username_ s' = pending_portal_username_ s /\
  pending_portal_password_ s' = pending_portal_password_ s /\
  scan_min_interval_microseconds_ s' = scan_min_interval_microseconds_ s /\
  scan_max_interval_microseconds_ s' = scan_max_interval_microseconds_ s /\
  scan_current_interval_microseconds_ s' = scan_current_interval_microseconds_ s.

(** The state in which the disconnect handler decides between retrying and
    moving on: connected bit cleared, "was connected" forgotten. *)
Definition disconnected (s : WifiStation) : WifiStation :=
  set_was_connected_ false
    (set_event_group_ (Z.ldiff (event_group_ s) WIFI_EVENT_CONNECTED) s).

(** The disconnected notification, given only after a connection and to a
    registered callback. *)
Definition disconnect_notice (s : WifiStation) : list Effect :=
  if was_connected_ s && on_disconnected_ s then [on_disconnected] else [].

(** What [StartConnect] decides for the candidate it pops. *)
Definition is_enterprise (c : WifiApRecord.t) : bool :=
  negb (empty (WifiApRecord.username c)) &&
  (authmode_eqb (WifiApRecord.authmode c) WIFI_AUTH_WPA2_ENTERPRISE ||
   authmode_eqb (WifiApRecord.authmode c) WIFI_AUTH_WPA2_WPA3_ENTERPRISE).

Definition is_portal (c : WifiApRecord.t) : bool :=
  negb (empty (WifiApRecord.username c)) && negb (is_enterprise c).

(** The interval [UpdateScanInterval] leaves, from the current one and the
    maximum. *)
Definition next_interval (current maximum : Z) : Z :=
  if current <? maximum then
    if wrap_int (current * 2) >? maximum then maximum else wrap_int (current * 2)
  else current.

Arguments UpdateScanInterval : simpl never.
Arguments StartConnect : simpl never.
Arguments wrap_int : simpl never.
Arguments to_uint64 : simpl never.

(** A scan range the station can double within: 0 <= min <= current <= max,
    and max at most 2^30 microseconds, so that twice an interval below the
    maximum is still an [int]. *)
Definition interval_ok (s : WifiStation) : Prop :=
  0 <= scan_min_interval_microseconds_ s <= scan_current_interval_microseconds_ s /\
  scan_current_interval_microseconds_ s <= scan_max_interval_microseconds_ s /\
  scan_max_interval_microseconds_ s <= 2 ^ 30.

(** A call of [SetScanIntervalRange] with such a range, in seconds. *)
Definition valid_input (input : Input) : Prop :=
  match input with
  | CallSetScanIntervalRange lo hi => 0 <= lo <= hi /\ hi <= 1073
  | _ => True
  end.

(** The inputs that set the current interval back to the minimum. *)
Definition resets_interval (input : Input) : bool :=
  match input with
  | IpEvent _ | CallSetScanIntervalRange _ _ => true
  | _ => false
  end.

(** The addresses the prefix test of the task lets through, by their first
    two bytes. *)
Definition local_range (a : in_addr) : bool :=
  let o0 := Byte.to_nat (InAddr.b0 a) in
  let o1 := Byte.to_nat (InAddr.b1 a) in
  ((o0 =? 10) || (o0 =? 172) || ((o0 =? 192) && (o1 =? 168)))%nat.


(** Sample surroundings of the portal task.  In the first two the first
    probe is answered with HTTP 200; the probe host resolves to a private
    address in one, to a public address that prints with the prefix "172."
    in the other.  In the third the first probe is redirected to a login
    page. *)
Definition hijacked_200 : HttpResponse := mkHttpResponse true 200 None 512.

Definition env_private : PortalEnv :=
  mkPortalEnv (fun _ => hijacked_200)
    (fun _ => Some (InAddr.mk Byte.xc0 Byte.xa8 Byte.x01 Byte.x01))   (* 192.168.1.1 *)
    None.

Definition env_public_172 : PortalEnv :=
  mkPortalEnv (fun _ => hijacked_200)
    (fun _ => Some (InAddr.mk Byte.xac Byte.xd9 Byte.x00 Byte.x01))   (* 172.217.0.1 *)
    None.


Definition guest_ctx : PortalLoginCtx.t := PortalLoginCtx.mk "guest" "pw" "CafeWifi".

(** ** Construction *)

Definition set_max_tx_power_ (v : Z) (s : WifiStation) : WifiStation :=
  mkWifiStation
    (event_group_ s) (instance_any_id_ s) (instance_got_ip_ s) (timer_handle_ s)
    (station_netif_ s) v (remember_bssid_ s) (was_connected_ s) (reconnect_count_ s)
    (connect_queue_ s) (scan_min_interval_microseconds_ s)
    (scan_max_interval_microseconds_ s) (scan_current_interval_microseconds_ s) (ssid_ s)
    (password_ s) (ip_address_ s) (needs_portal_login_ s) (pending_portal_username_ s)
    (pending_portal_password_ s) (on_scan_begin_ s) (on_connect_ s) (on_connected_ s)
    (on_disconnected_ s).

Definition set_remember_bssid_ (v : Z) (s : WifiStation) : WifiStation :=
  mkWifiStation
    (event_group_ s) (instance_any_id_ s) (instance_got_ip_ s) (timer_handle_ s)
    (station_netif_ s) (max_tx_power_ s) v (was_connected_ s) (reconnect_count_ s)
    (connect_queue_ s) (scan_min_interval_microseconds_ s)
    (scan_max_interval_microseconds_ s) (scan_current_interval_microseconds_ s) (ssid_ s)
    (password_ s) (ip_address_ s) (needs_portal_login_ s) (pending_portal_username_ s)
    (pending_portal_password_ s) (on_scan_begin_ s) (on_connect_ s) (on_connected_ s)
    (on_disconnected_ s).

(** What the constructor finds in the NVS namespace "wifi", once it could be
    opened: each of the two keys read or not ([nvs_get_i8], [nvs_get_u8]
    returning [ESP_OK] or not). *)
Record NvsWifi : Type := mkNvsWifi {
  nvs_max_tx_power : option Z;      (* int8_t *)
  nvs_remember_bssid : option Z     (* uint8_t *)
}.

(** The body of [WifiStation::WifiStation], run on the object as its member
    initialisers leave it: a fresh event group, then the two settings.
    [nvs] is [None] when [nvs_open] fails. *)
Definition WifiStation_constructor (nvs : option NvsWifi) : Cmd unit :=
  modify (set_event_group_ 0) ;;
  match nvs with
  | None =>
      modify (set_max_tx_power_ 0) ;;
      modify (set_remember_bssid_ 0)
  | Some stored =>
      modify (set_max_tx_power_
                (match nvs_max_tx_power stored with Some v => v | None => 0 end)) ;;
      modify (set_remember_bssid_
                (match nvs_remember_bssid stored with Some v => v | None => 0 end))
  end.

(** ** Readings of a trace *)

(** The connect commands of a trace. *)
Definition connect_commands (effects : list Effect) : list Effect :=
  filter (fun e => match e with esp_wifi_connect => true | _ => false end) effects.

(** The station configurations a trace hands to the driver. *)
Definition configurations (effects : list Effect) : list StaConfig.t :=
  flat_map (fun e => match e with
                     | esp_wifi_set_config config => [config]
                     | _ => []
                     end) effects.

(** The starts of the scan timer in a trace, with their delays. *)
Definition timer_starts (effects : list Effect) : list Z :=
  flat_map (fun e => match e with
                     | esp_timer_start_once timeout_us => [timeout_us]
                     | _ => []
                     end) effects.

(** The disconnected notifications of a trace. *)
Definition disconnected_notices (effects : list Effect) : list Effect :=
  filter (fun e => match e with on_disconnected => true | _ => false end) effects.

(** The callbacks of a trace. *)
Definition callbacks (effects : list Effect) : list Effect :=
  filter (fun e => negb (is_driver_command e) &&
                   match e with xTaskCreate_portal_login _ => false | _ => true end)
    effects.

(** The TX power settings of a trace. *)
Definition tx_power_settings (effects : list Effect) : list Z :=
  flat_map (fun e => match e with
                     | esp_wifi_set_max_tx_power power => [power]
                     | _ => []
                     end) effects.

(** The enterprise commands [StartConnect] issues for a candidate. *)
Definition enterprise_commands (c : WifiApRecord.t) : list Effect :=
  if is_enterprise c
  then [esp_wifi_sta_wpa2_ent_set_identity (WifiApRecord.username c);
        esp_wifi_sta_wpa2_ent_set_username (WifiApRecord.username c);
        esp_wifi_sta_wpa2_ent_set_password (WifiApRecord.password c);
        esp_wifi_sta_wpa2_ent_enable]
  else [esp_wifi_sta_wpa2_ent_disable].

(** The station configuration [StartConnect] builds for a candidate, given
    the member [remember_bssid_]. *)
Definition station_config (remember_bssid : Z) (c : WifiApRecord.t) : StaConfig.t :=
  let pin := negb (remember_bssid =? 0) in
  StaConfig.mk
    (strlcpy (WifiApRecord.ssid c) 32)
    (if negb (is_enterprise c) &&
        negb (authmode_eqb (WifiApRecord.authmode c) WIFI_AUTH_OPEN)
     then strlcpy (WifiApRecord.password c) 64
     else EmptyString)
    (if pin then WifiApRecord.channel c else 0)
    (if pin then WifiApRecord.bssid c else repeat Byte.x00 6)
    pin
    3.

(** ** Registered callbacks *)

(** Which of the four callbacks the device layer has registered. *)
Definition registrations (s : WifiStation) : bool * bool * bool * bool :=
  (on_scan_begin_ s, on_connect_ s, on_connected_ s, on_disconnected_ s).

(** An effect that is the call of a callback finds its [std::function]
    set; other effects are not concerned. *)
Definition registered (s : WifiStation) (e : Effect) : bool :=
  match e with
  | on_scan_begin => on_scan_begin_ s
  | on_connect _ => on_connect_ s
  | on_connected _ => on_connected_ s
  | on_disconnected => on_disconnected_ s
  | _ => true
  end.

(** ** Where a login URL can come from *)

(** The four sources of a login URL in the portal task: the Location header
    of a probe answered by a redirect; the address a probe host resolves to,
    when the probe was answered by 200 and the address passes the prefix
    test; the fixed address for the two BUPT networks; and the gateway of the
    station interface, as a last resort when a probe was answered by 200 or
    the ssid contains "BUPT". *)
Inductive login_url_origin (env : PortalEnv) (current_ssid : string) (url : string) : Prop :=
| from_redirect (probe : string) :
    In probe [MIUI_PROBE; APPLE_PROBE] ->
    perform_ok (http_get env probe) = true ->
    status_code (http_get env probe) = 302 \/ status_code (http_get env probe) = 301 ->
    location_header (http_get env probe) = Some url ->
    login_url_origin env current_ssid url
| from_resolved_address (probe host : string) (a : in_addr) :
    In (probe, host) [(MIUI_PROBE, "connect.rom.miui.com"%string);
                      (APPLE_PROBE, "captive.apple.com"%string)] ->
    perform_ok (http_get env probe) = true ->
    status_code (http_get env probe) = 200 ->
    gethostbyname env host = Some a ->
    local_prefix (inet_ntoa a) = true ->
    url = ("http://" ++ inet_ntoa a ++ "/login")%string ->
    login_url_origin env current_ssid url
| from_bupt_address :
    current_ssid = "BUPT-portal"%string \/ current_ssid = "BUPT-mobile"%string ->
    url = "http://10.3.8.216/login"%string ->
    login_url_origin env current_ssid url
| from_gateway (gw : in_addr) :
    contains current_ssid "BUPT" = true \/
    (exists probe, In probe [MIUI_PROBE; APPLE_PROBE] /\
                   perform_ok (http_get env probe) = true /\
                   status_code (http_get env probe) = 200) ->
    gateway env = Some gw ->
    url = ("http://" ++ inet_ntoa gw ++ "/login")%string ->
    login_url_origin env current_ssid url.

(** A network without captive portal: the 204 probe is answered by 204 and
    the Apple probe by its short success page. *)
Definition env_clean : PortalEnv :=
  mkPortalEnv
    (fun url => if String.eqb url MIUI_PROBE
                then mkHttpResponse true 204 None 0
                else mkHttpResponse true 200 None 68)
    (fun _ => Some (InAddr.mk Byte.x11 Byte.xfd Byte.x90 Byte.x0a))
    None.

(** * WifiBoard

    A shallow embedding of [main/boards/common/wifi_board.cc]: the board's one
    member [wifi_config_mode_], what it does to the settings store, the WiFi
    manager, the application and the system, and the answers it gets. *)

(** The calls the board makes, named as in the source. *)
Inductive BoardAction : Type :=
| settings_SetInt (key : string) (value : Z)     (* on Settings("wifi", true) *)
| application_SetDeviceState_WifiConfiguring
| wifi_manager_Initialize (ssid_prefix : string)
| wifi_manager_StartConfigAp
| application_Alert_wifi_config_mode
| wifi_manager_SetEventCallback
| wifi_manager_StartStation
| wifi_manager_StopStation
| vTaskDelay_ms (milliseconds : Z)               (* vTaskDelay(pdMS_TO_TICKS(ms)) *)
| esp_sntp_init (servers : list string)          (* poll mode, the servers, init *)
| setenv_TZ (value : string)                     (* setenv and tzset *)
| display_ShowNotification_entering_config_mode
| esp_restart.

(** How a call of [StartNetwork] ends: it returns, or it stays in the
    [while (true)] of [EnterWifiConfigMode] until the device is reset. *)
Inductive Ending : Type := returns | waits_for_reset.

(** The answers the board gets while it starts the network: whether the
    credential store is empty, what [IsInitialized] answers when
    [EnterWifiConfigMode] asks, and what the successive calls of
    [wifi_manager.IsConnected] answer (the first call is number 0). *)
Record BoardEnv : Type := mkBoardEnv {
  ssid_list_empty : bool;
  is_initialized : bool;
  is_connected : nat -> bool
}.

Record NetworkStart : Type := mkNetworkStart {
  wifi_config_mode_after : bool;
  actions : list BoardAction;
  ending : Ending
}.

(** [WifiBoard::WifiBoard].  [force_ap] is what [settings.GetInt("force_ap")]
    returns; the result is the member [wifi_config_mode_], what a later
    [GetInt("force_ap")] returns, and the calls made. *)
Definition WifiBoard_constructor (force_ap : Z) : bool * Z * list BoardAction :=
  let wifi_config_mode := force_ap =? 1 in
  if wifi_config_mode
  then (wifi_config_mode, 0, [settings_SetInt "force_ap" 0])
  else (wifi_config_mode, force_ap, []).

(** [WifiBoard::ResetWifiConfiguration]: the stored value afterwards and the
    calls made; the last one reboots the device. *)
Definition ResetWifiConfiguration (force_ap : Z) : Z * list BoardAction :=
  (1, [settings_SetInt "force_ap" 1;
       display_ShowNotification_entering_config_mode;
       vTaskDelay_ms 1000;
       esp_restart]).

(** [WifiBoard::EnterWifiConfigMode], up to its final loop. *)
Definition EnterWifiConfigMode (env : BoardEnv) : list BoardAction :=
  [application_SetDeviceState_WifiConfiguring] ++
  (if negb (is_initialized env) then [wifi_manager_Initialize "XiaoTun"] else []) ++
  [wifi_manager_StartConfigAp; application_Alert_wifi_config_mode].

(** The polling loop of [StartNetwork]: with [timeout_ticks] turns left and
    [call] calls of [IsConnected] made so far, the number of delays still to
    come and the number of calls made when the loop is left. *)
Fixpoint wait_connected (answers : nat -> bool) (call timeout_ticks : nat) : nat * nat :=
  match timeout_ticks with
  | O => (O, call)
  | S remaining =>
      if answers call then (O, S call)
      else let r := wait_connected answers (S call) remaining in (S (fst r), snd r)
  end.

(** [WifiBoard::StartNetwork], on a board whose member is
    [wifi_config_mode]. *)
Definition StartNetwork (env : BoardEnv) (wifi_config_mode : bool) : NetworkStart :=
  if wifi_config_mode then
    mkNetworkStart wifi_config_mode (EnterWifiConfigMode env) waits_for_reset
  else if ssid_list_empty env then
    mkNetworkStart true (EnterWifiConfigMode env) waits_for_reset
  else
    let timeout_ticks := Z.to_nat (60 * 1000 / 100) in
    let r := wait_connected (is_connected env) 0 timeout_ticks in
    let started :=
      [wifi_manager_Initialize "XiaoTun"; wifi_manager_SetEventCallback;
       wifi_manager_StartStation] ++
      repeat (vTaskDelay_ms 100) (fst r) in
    if negb (is_connected env (snd r)) then
      mkNetworkStart true
        (started ++ [wifi_manager_StopStation] ++ EnterWifiConfigMode env)
        waits_for_reset
    else
      mkNetworkStart wifi_config_mode
        (started ++ [esp_sntp_init ["pool.ntp.org"; "ntp.aliyun.com"]%string;
                     setenv_TZ "CST-8"])
        returns.

(** The transports [CreateWebSocket] chooses between. *)
Inductive Transport : Type := TlsTransport | TcpTransport.

(** [WifiBoard::CreateWebSocket]: [websocket_configured] is whether
    [CONFIG_CONNECTION_TYPE_WEBSOCKET] is defined, [url] the configured
    [CONFIG_WEBSOCKET_URL]; [None] is the null pointer. *)
Definition CreateWebSocket (websocket_configured : bool) (url : string) : option Transport :=
  if websocket_configured then
    match String.index 0 "wss://" url with
    | Some O => Some TlsTransport
    | _ => Some TcpTransport
    end
  else None.

(** The time a trace spends in [vTaskDelay], in milliseconds. *)
Definition delayed_ms (trace : list BoardAction) : Z :=
  fold_right (fun a total => match a with
                             | vTaskDelay_ms ms => ms + total
                             | _ => total
                             end) 0 trace.

(** * Properties *)

(** ** Strings *)

Lemma c_str_nul_free (s : string) : nul_free s = true -> c_str s = s.
Proof.
  induction s as [|c rest IH]; cbn; [reflexivity|].
  destruct (Ascii.eqb c NUL); cbn; [discriminate|].
  intros H. now rewrite IH.
Qed.

(** For strings without NUL, [strcmp] equality is equality. *)
Lemma strcmp_eq_iff (a b : string) :
  nul_free a = true -> nul_free b = true -> (strcmp_eq a b = true <-> a = b).
Proof.
  intros Ha Hb. unfold strcmp_eq.
  rewrite (c_str_nul_free a Ha), (c_str_nul_free b Hb).
  apply String.eqb_eq.
Qed.

(** ** Ranking *)



Lemma fold_push_flat_map (ssid_list : list SsidItem.t) (l : list wifi_ap_record_t) :
  forall queue,
    fold_left (push_if_known ssid_list) l queue = queue ++ flat_map (candidates_of ssid_list) l.
Proof.
  induction l as [|ap rest IH]; intros queue; cbn.
  - now rewrite app_nil_r.
  - rewrite IH. unfold push_if_known, candidates_of.
    destruct (find_known ssid_list ap); [now rewrite <- app_assoc | reflexivity].
Qed.

Lemma ranked_queue_flat_map std_sort (ap_records : list wifi_ap_record_t)
    (ssid_list : list SsidItem.t) :
  ranked_queue std_sort ap_records ssid_list =
  flat_map (candidates_of ssid_list) (std_sort ap_records).
Proof. unfold ranked_queue. now rewrite fold_push_flat_map. Qed.

(** The candidates of a list of scan results are, one for one and in order,
    those of its known members. *)
Lemma candidates_of_known (ssid_list : list SsidItem.t) (l : list wifi_ap_record_t) :
  Forall2 (fun ap c => exists item, find_known ssid_list ap = Some item /\ c = make_record item ap)
    (filter (is_known ssid_list) l) (flat_map (candidates_of ssid_list) l).
Proof.
  induction l as [|ap rest IH]; cbn; [constructor|].
  unfold is_known, candidates_of at 1.
  destruct (find_known ssid_list ap) as [item|] eqn:E; cbn; [|exact IH].
  constructor; [|exact IH]. exists item. now split.
Qed.


Lemma StronglySorted_filter {A : Type} (R : A -> A -> Prop) (f : A -> bool) (l : list A) :
  StronglySorted R l -> StronglySorted R (filter f l).
Proof.
  induction 1 as [|x l Hs IH Hall]; cbn; [constructor|].
  destruct (f x); [|exact IH].
  constructor; [exact IH|].
  rewrite Forall_forall in *. intros y Hy. apply filter_In in Hy. now apply Hall.
Qed.

(** *** The two insertion sorts meet the contract of [std::sort] *)

Lemma insert_before_equal_perm (x : wifi_ap_record_t) (l : list wifi_ap_record_t) :
  Permutation (x :: l) (insert_before_equal x l).
Proof.
  induction l as [|y rest IH]; cbn; [apply Permutation_refl|].
  destruct (rssi_greater y x); [|apply Permutation_refl].
  eapply Permutation_trans; [apply perm_swap|]. now constructor.
Qed.


Lemma rssi_greater_false (a b : wifi_ap_record_t) :
  rssi_greater a b = false <-> ApInfo.rssi a <= ApInfo.rssi b.
Proof. unfold rssi_greater. rewrite Z.gtb_ltb, Z.ltb_ge. reflexivity. Qed.

Lemma rssi_greater_true (a b : wifi_ap_record_t) :
  rssi_greater a b = true <-> ApInfo.rssi b < ApInfo.rssi a.
Proof. unfold rssi_greater. rewrite Z.gtb_ltb, Z.ltb_lt. reflexivity. Qed.

Lemma insert_before_equal_ordered (x : wifi_ap_record_t) (l : list wifi_ap_record_t) :
  rssi_ordered l -> rssi_ordered (insert_before_equal x l).
Proof.
  unfold rssi_ordered. induction 1 as [|y rest Hs IH Hall]; cbn.
  - constructor; constructor.
  - destruct (rssi_greater y x) eqn:E.
    + constructor; [exact IH|].
      rewrite Forall_forall in *. intros z Hz.
      apply (Permutation_in z (Permutation_sym (insert_before_equal_perm x rest))) in Hz.
      destruct Hz as [<-|Hz]; [|now apply Hall].
      apply rssi_greater_false. apply rssi_greater_true in E. lia.
    + constructor; [now constructor|].
      constructor.
      * apply rssi_greater_false. apply rssi_greater_false in E. exact E.
      * rewrite Forall_forall in *. intros z Hz. specialize (Hall z Hz).
        apply rssi_greater_false. apply rssi_greater_false in E, Hall. lia.
Qed.


Lemma stable_sort_desc_contract : std_sort_contract stable_sort_desc.
Proof.
  split.
  - induction l as [|x rest IH]; cbn; [constructor|].
    eapply Permutation_trans; [|apply insert_before_equal_perm]. now constructor.
  - induction l as [|x rest IH]; cbn; [constructor|].
    now apply insert_before_equal_ordered.
Qed.


(** *** What [HandleScanResult] does with the ranked queue *)

Ltac unfold_cmd :=
  unfold state_after, effects_of, value_of, when, xEventGroupSetBits, xEventGroupClearBits,
    xEventGroupGetBits, bind, get, modify, emit, ret.

(** How the state and the trace of a sequence decompose. *)
Lemma state_after_bind {A B : Type} (c : Cmd A) (k : A -> Cmd B) (s : WifiStation) :
  state_after (bind c k) s = state_after (k (value_of c s)) (state_after c s).
Proof. reflexivity. Qed.

Lemma effects_of_bind {A B : Type} (c : Cmd A) (k : A -> Cmd B) (s : WifiStation) :
  effects_of (bind c k) s = effects_of c s ++ effects_of (k (value_of c s)) (state_after c s).
Proof. reflexivity. Qed.

Lemma set_connect_queue_twice (q q' : list WifiApRecord.t) (s : WifiStation) :
  set_connect_queue_ q (set_connect_queue_ q' s) = set_connect_queue_ q s.
Proof. reflexivity. Qed.

(** With at least one scan result, [HandleScanResult] stores the ranked
    queue in place of whatever the queue held and goes on from there. *)
Lemma HandleScanResult_ranks std_sort (ap_records : list wifi_ap_record_t)
    (ssid_list : list SsidItem.t) (s : WifiStation) :
  ap_records <> [] ->
  let ranked := ranked_queue std_sort ap_records ssid_list in
  let continue :=
    if vec_empty ranked
    then (emit (esp_timer_start_once (to_uint64 (scan_current_interval_microseconds_ s))) ;;
          UpdateScanInterval)
    else StartConnect in
  state_after (HandleScanResult std_sort ap_records ssid_list) s =
    state_after continue (set_connect_queue_ ranked s) /\
  effects_of (HandleScanResult std_sort ap_records ssid_list) s =
    effects_of continue (set_connect_queue_ ranked s).
Proof.
  intros Hne. destruct ap_records as [|ap rest]; [congruence|].
  cbv zeta. unfold HandleScanResult.
  remember (ranked_queue std_sort (ap :: rest) ssid_list) as rq eqn:Erq. clear Erq.
  unfold_cmd. cbn.
  destruct rq as [|c q]; split; reflexivity.
Qed.

Lemma StronglySorted_weaken {A : Type} (R R' : A -> A -> Prop) (l : list A) :
  (forall a b, R a b -> R' a b) -> StronglySorted R l -> StronglySorted R' l.
Proof.
  intros Himp. induction 1 as [|x l Hs IH Hall]; constructor; [exact IH|].
  rewrite Forall_forall in *. intros y Hy. apply Himp. now apply Hall.
Qed.

Lemma UpdateScanInterval_run (s : WifiStation) :
  UpdateScanInterval s =
  (tt,
   set_scan_current_interval_microseconds_
     (next_interval (scan_current_interval_microseconds_ s)
        (scan_max_interval_microseconds_ s)) s,
   []).
Proof.
  destruct s. unfold UpdateScanInterval, next_interval. unfold_cmd. cbn.
  destruct (scan_current_interval_microseconds_0 <? scan_max_interval_microseconds_0); cbn;
    [|reflexivity].
  destruct (wrap_int (scan_current_interval_microseconds_0 * 2) >?
            scan_max_interval_microseconds_0); reflexivity.
Qed.

Lemma UpdateScanInterval_state (s : WifiStation) :
  state_after UpdateScanInterval s =
  set_scan_current_interval_microseconds_
    (next_interval (scan_current_interval_microseconds_ s)
       (scan_max_interval_microseconds_ s)) s.
Proof. unfold state_after. now rewrite UpdateScanInterval_run. Qed.


(** The members after [StartConnect] has popped candidate [c]. *)
Lemma StartConnect_state (c : WifiApRecord.t) (q : list WifiApRecord.t) (s : WifiStation) :
  connect_queue_ s = c :: q ->
  let s' := state_after StartConnect s in
  connect_queue_ s' = q /\
  ssid_ s' = WifiApRecord.ssid c /\
  password_ s' = WifiApRecord.password c /\
  reconnect_count_ s' = 0 /\
  needs_portal_login_ s' = is_portal c /\
  pending_portal_username_ s' =
    (if is_portal c then WifiApRecord.username c else EmptyString) /\
  pending_portal_password_ s' =
    (if is_portal c then WifiApRecord.password c else EmptyString) /\
  scan_min_interval_microseconds_ s' = scan_min_interval_microseconds_ s /\
  scan_max_interval_microseconds_ s' = scan_max_interval_microseconds_ s /\
  scan_current_interval_microseconds_ s' = scan_current_interval_microseconds_ s /\
  event_group_ s' = event_group_ s /\
  was_connected_ s' = was_connected_ s /\
  on_connected_ s' = on_connected_ s.
Proof.
  destruct s; cbn [connect_queue_]. intros ->.
  destruct c as [ssid pw user ch auth mac].
  destruct on_connect_0, user, auth; repeat split; reflexivity.
Qed.


(** With nothing queued [StartConnect] only asks for a new scan. *)
Lemma StartConnect_empty (s : WifiStation) :
  connect_queue_ s = [] ->
  state_after StartConnect s = s /\ effects_of StartConnect s = [esp_wifi_scan_start].
Proof. destruct s; cbn [connect_queue_]. intros ->. split; reflexivity. Qed.

Section Ranking.

Variable std_sort : list wifi_ap_record_t -> list wifi_ap_record_t.
Hypothesis std_sort_ok : std_sort_contract std_sort.


End Ranking.

(** The scenario of the specification: of CafeWifi and OtherNet only
    CafeWifi is known, so the queue holds just its candidate. *)
Example ranked_queue_cafe :
  ranked_queue stable_sort_desc [cafe_ap; other_ap] [cafe_item] =
  [make_record cafe_item cafe_ap].
Proof. reflexivity. Qed.



(** ** Retries *)

Lemma wrap_int_small (x : Z) : - 2 ^ 31 <= x < 2 ^ 31 -> wrap_int x = x.
Proof.
  intros H. unfold wrap_int. rewrite Z.mod_small; lia.
Qed.

Section Retry.

Variable std_sort : list wifi_ap_record_t -> list wifi_ap_record_t.

Let on_disconnect : Cmd unit := WifiEventHandler std_sort WIFI_EVENT_STA_DISCONNECTED.

(** Below the retry limit a disconnect counts one up and connects again,
    to the same target. *)
Lemma disconnect_retries (s : WifiStation) :
  reconnect_count_ s < MAX_RECONNECT_COUNT ->
  state_after on_disconnect s =
    set_reconnect_count_ (wrap_int (reconnect_count_ s + 1)) (disconnected s) /\
  effects_of on_disconnect s = disconnect_notice s ++ [esp_wifi_connect].
Proof.
  destruct s. cbn [reconnect_count_]. intros H. apply Z.ltb_lt in H.
  unfold on_disconnect, WifiEventHandler, disconnect_notice, disconnected.
  destruct was_connected_0, on_disconnected_0; unfold_cmd; cbn; rewrite H; cbn;
    split; reflexivity.
Qed.

(** At the retry limit a disconnect moves on: to the next candidate if one
    is queued, to a rescan after the backoff interval otherwise. *)
Lemma disconnect_moves_on (s : WifiStation) :
  MAX_RECONNECT_COUNT <= reconnect_count_ s ->
  (connect_queue_ s <> [] ->
     state_after on_disconnect s = state_after StartConnect (disconnected s) /\
     effects_of on_disconnect s =
       disconnect_notice s ++ effects_of StartConnect (disconnected s)) /\
  (connect_queue_ s = [] ->
     state_after on_disconnect s = state_after UpdateScanInterval (disconnected s) /\
     effects_of on_disconnect s =
       disconnect_notice s ++
       [esp_timer_start_once (to_uint64 (scan_current_interval_microseconds_ s))]).
Proof.
  destruct s. cbn [reconnect_count_ connect_queue_]. intros H. apply Z.ltb_ge in H.
  unfold on_disconnect, WifiEventHandler, disconnect_notice, disconnected.
  split; intros Hq.
  - destruct connect_queue_0 as [|c q]; [congruence|].
    destruct was_connected_0, on_disconnected_0; unfold_cmd; cbn; rewrite H; cbn;
      split; reflexivity.
  - subst connect_queue_0.
    destruct was_connected_0, on_disconnected_0; unfold_cmd; cbn; rewrite H; cbn;
      split; try reflexivity.
    all: now rewrite UpdateScanInterval_run.
Qed.


Lemma driver_commands_app (e1 e2 : list Effect) :
  driver_commands (e1 ++ e2) = driver_commands e1 ++ driver_commands e2.
Proof. apply filter_app. Qed.

Lemma driver_commands_notice (s : WifiStation) : driver_commands (disconnect_notice s) = [].
Proof. unfold disconnect_notice. now destruct (was_connected_ s && on_disconnected_ s). Qed.

Lemma same_attempt_refl (s : WifiStation) : same_attempt s s.
Proof. repeat split. Qed.

Lemma same_attempt_trans (s1 s2 s3 : WifiStation) :
  same_attempt s1 s2 -> same_attempt s2 s3 -> same_attempt s1 s3.
Proof.
  unfold same_attempt. intros H12 H23.
  repeat match goal with H : _ /\ _ |- _ => destruct H end.
  repeat split; congruence.
Qed.

Lemma run_cons (input : Input) (rest : list Input) (s : WifiStation) :
  state_after (run std_sort (input :: rest)) s =
    state_after (run std_sort rest) (state_after (step std_sort input) s) /\
  effects_of (run std_sort (input :: rest)) s =
    effects_of (step std_sort input) s ++
    effects_of (run std_sort rest) (state_after (step std_sort input) s).
Proof. split; reflexivity. Qed.

(** Disconnects within the retry budget: one reconnect each, the attempt
    itself untouched. *)
Lemma retries_within_budget (n : nat) :
  forall (s : WifiStation) (k : nat),
    reconnect_count_ s = Z.of_nat k -> (k + n <= 5)%nat ->
    driver_commands (effects_of (run std_sort (disconnects n)) s) =
      repeat esp_wifi_connect n /\
    reconnect_count_ (state_after (run std_sort (disconnects n)) s) = Z.of_nat (k + n) /\
    same_attempt s (state_after (run std_sort (disconnects n)) s).
Proof.
  induction n as [|n IH]; intros s k Hk Hle.
  - cbn. rewrite Nat.add_0_r. repeat split. exact Hk.
  - change (disconnects (S n))
      with (WifiEvent WIFI_EVENT_STA_DISCONNECTED :: disconnects n).
    destruct (run_cons (WifiEvent WIFI_EVENT_STA_DISCONNECTED) (disconnects n) s)
      as [-> ->].
    change (step std_sort (WifiEvent WIFI_EVENT_STA_DISCONNECTED)) with on_disconnect.
    assert (Hlt : reconnect_count_ s < MAX_RECONNECT_COUNT)
      by (unfold MAX_RECONNECT_COUNT; lia).
    destruct (disconnect_retries s Hlt) as [-> ->].
    rewrite wrap_int_small by lia.
    set (s1 := set_reconnect_count_ (reconnect_count_ s + 1) (disconnected s)).
    assert (Hk1 : reconnect_count_ s1 = Z.of_nat (S k)) by (subst s1; cbn; lia).
    destruct (IH s1 (S k) Hk1 ltac:(lia)) as (He & Hc & Hsame).
    rewrite !driver_commands_app, driver_commands_notice, He.
    split; [reflexivity|]. split; [rewrite Hc; f_equal; lia|].
    apply same_attempt_trans with s1; [|exact Hsame].
    subst s1. repeat split.
Qed.


End Retry.


(** Six disconnects in a row on the sample station: five reconnects to
    CafeWifi, then the attempt to Home. *)
Example six_disconnects :
  let s0 := set_connect_queue_
              [make_record cafe_item cafe_ap; make_record home_item home_ap_1]
              sample_station in
  let r := run stable_sort_desc (disconnects 6) in
  filter (fun e => match e with esp_wifi_connect | esp_wifi_set_config _ => true | _ => false end)
    (effects_of r (state_after StartConnect s0)) =
  repeat esp_wifi_connect 5 ++
  [esp_wifi_set_config
     (StaConfig.mk "Home" "secret" 0 (repeat Byte.x00 6) false 3);
   esp_wifi_connect] /\
  ssid_ (state_after r (state_after StartConnect s0)) = "Home"%string.
Proof. vm_compute. split; reflexivity. Qed.

(** ** Backoff *)

Lemma next_interval_min (current maximum : Z) :
  0 <= current <= maximum -> maximum <= 2 ^ 30 ->
  next_interval current maximum = Z.min (2 * current) maximum.
Proof.
  intros Hc Hm. unfold next_interval.
  destruct (current <? maximum) eqn:E.
  - apply Z.ltb_lt in E. rewrite wrap_int_small by lia.
    rewrite Z.gtb_ltb. destruct (maximum <? current * 2) eqn:E2.
    + apply Z.ltb_lt in E2. lia.
    + apply Z.ltb_ge in E2. lia.
  - apply Z.ltb_ge in E. lia.
Qed.

Lemma StartConnect_intervals (s : WifiStation) :
  scan_min_interval_microseconds_ (state_after StartConnect s) =
    scan_min_interval_microseconds_ s /\
  scan_max_interval_microseconds_ (state_after StartConnect s) =
    scan_max_interval_microseconds_ s /\
  scan_current_interval_microseconds_ (state_after StartConnect s) =
    scan_current_interval_microseconds_ s.
Proof.
  destruct (connect_queue_ s) as [|c q] eqn:Eq.
  - destruct (StartConnect_empty s Eq) as [-> _]. repeat split.
  - destruct (StartConnect_state c q s Eq) as (_ & _ & _ & _ & _ & _ & _ & H1 & H2 & H3 & _).
    now rewrite H1, H2, H3.
Qed.

Section Backoff.

Variable std_sort : list wifi_ap_record_t -> list wifi_ap_record_t.

(** The three intervals after [HandleScanResult]: unchanged when a
    candidate is found, the current one advanced otherwise. *)
Lemma HandleScanResult_intervals (ap_records : list wifi_ap_record_t)
    (ssid_list : list SsidItem.t) (s : WifiStation) :
  let s' := state_after (HandleScanResult std_sort ap_records ssid_list) s in
  scan_min_interval_microseconds_ s' = scan_min_interval_microseconds_ s /\
  scan_max_interval_microseconds_ s' = scan_max_interval_microseconds_ s /\
  scan_current_interval_microseconds_ s' =
    (if vec_empty ap_records || vec_empty (ranked_queue std_sort ap_records ssid_list)
     then next_interval (scan_current_interval_microseconds_ s)
            (scan_max_interval_microseconds_ s)
     else scan_current_interval_microseconds_ s).
Proof.
  destruct ap_records as [|ap rest].
  - cbv zeta. unfold HandleScanResult. cbn [List.length Nat.eqb vec_empty orb].
    rewrite state_after_bind, state_after_bind.
    change (state_after (emit _) ?x) with x. change (state_after get ?x) with x.
    rewrite UpdateScanInterval_state. repeat split.
  - assert (Hne : ap :: rest <> []) by discriminate.
    destruct (HandleScanResult_ranks std_sort (ap :: rest) ssid_list s Hne) as [Hs _].
    cbv zeta in *. rewrite Hs. cbn [vec_empty orb].
    destruct (ranked_queue std_sort (ap :: rest) ssid_list) as [|c q]; cbn [vec_empty].
    + rewrite state_after_bind. change (state_after (emit _) ?x) with x.
      rewrite UpdateScanInterval_state. repeat split.
    + apply (StartConnect_intervals (set_connect_queue_ (c :: q) s)).
Qed.

(** The three intervals after one input. *)
Lemma step_intervals (input : Input) (s : WifiStation) :
  let s' := state_after (step std_sort input) s in
  match input with
  | CallSetScanIntervalRange lo hi =>
      scan_min_interval_microseconds_ s' = wrap_int (wrap_int (lo * 1000) * 1000) /\
      scan_max_interval_microseconds_ s' = wrap_int (wrap_int (hi * 1000) * 1000) /\
      scan_current_interval_microseconds_ s' = scan_min_interval_microseconds_ s'
  | IpEvent _ =>
      scan_min_interval_microseconds_ s' = scan_min_interval_microseconds_ s /\
      scan_max_interval_microseconds_ s' = scan_max_interval_microseconds_ s /\
      scan_current_interval_microseconds_ s' = scan_min_interval_microseconds_ s
  | _ =>
      scan_min_interval_microseconds_ s' = scan_min_interval_microseconds_ s /\
      scan_max_interval_microseconds_ s' = scan_max_interval_microseconds_ s /\
      (scan_current_interval_microseconds_ s' = scan_current_interval_microseconds_ s \/
       scan_current_interval_microseconds_ s' =
         next_interval (scan_current_interval_microseconds_ s)
           (scan_max_interval_microseconds_ s))
  end.
Proof.
  destruct input as [event|ip| |lo hi| |]; cbv zeta.
  - destruct event as [|aps known| |]; cbn [step].
    + destruct s. destruct on_scan_begin_0; repeat split; left; reflexivity.
    + unfold WifiEventHandler. rewrite state_after_bind.
      destruct (HandleScanResult_intervals aps known
                  (state_after (xEventGroupSetBits WIFI_EVENT_SCAN_DONE_BIT) s))
        as (H1 & H2 & H3).
      rewrite H1, H2, H3.
      split; [reflexivity|]. split; [reflexivity|].
      destruct (vec_empty aps || vec_empty (ranked_queue std_sort aps known));
        [right | left]; reflexivity.
    + destruct (Z.lt_ge_cases (reconnect_count_ s) MAX_RECONNECT_COUNT) as [Hlt|Hge].
      * destruct (disconnect_retries std_sort s Hlt) as [-> _].
        repeat split. left. reflexivity.
      * destruct (disconnect_moves_on std_sort s Hge) as [Hnext Hrescan].
        destruct (connect_queue_ s) as [|c q] eqn:Eq.
        -- destruct (Hrescan eq_refl) as [-> _].
           rewrite UpdateScanInterval_state. repeat split. right. reflexivity.
        -- destruct Hnext as [-> _]; [discriminate|].
           destruct (StartConnect_intervals (disconnected s)) as (-> & -> & ->).
           repeat split. left. reflexivity.
    + repeat split. left. reflexivity.
  - destruct s. destruct on_connected_0, needs_portal_login_0; repeat split.
  - destruct s. cbn. destruct (negb _); repeat split; left; reflexivity.
  - repeat split.
  - destruct s. cbn. destruct (negb _); repeat split; left; reflexivity.
  - destruct s.
    destruct instance_any_id_0, instance_got_ip_0, timer_handle_0, station_netif_0;
      repeat split; left; reflexivity.
Qed.


Lemma set_range_micro (seconds : Z) :
  0 <= seconds <= 1073 -> wrap_int (wrap_int (seconds * 1000) * 1000) = seconds * 1000000.
Proof.
  intros H. rewrite (wrap_int_small (seconds * 1000)) by lia.
  rewrite wrap_int_small by lia. lia.
Qed.

(** A valid input leaves the range valid. *)
Lemma step_interval_ok (input : Input) (s : WifiStation) :
  interval_ok s -> valid_input input -> interval_ok (state_after (step std_sort input) s).
Proof.
  unfold interval_ok. intros (Hmin & Hcur & Hmax) Hvalid.
  pose proof (step_intervals input s) as H. cbv zeta in H.
  pose proof (next_interval_min (scan_current_interval_microseconds_ s)
                (scan_max_interval_microseconds_ s) ltac:(lia) Hmax) as Hnext.
  destruct input as [event|ip| |lo hi| |]; cbn [valid_input] in Hvalid.
  1, 3, 5, 6: destruct event || idtac.
  all: try rewrite Hnext in H.
  all: try (destruct H as (H1 & H2 & [H3 | H3]); rewrite H1, H2, H3; lia).
  - destruct H as (H1 & H2 & H3). rewrite H1, H2, H3. lia.
  - destruct H as (H1 & H2 & H3). rewrite H3, H1, H2.
    rewrite !set_range_micro by lia. lia.
Qed.

Lemma run_interval_ok (inputs : list Input) :
  forall s, interval_ok s -> Forall valid_input inputs ->
            interval_ok (state_after (run std_sort inputs) s).
Proof.
  induction inputs as [|input rest IH]; intros s Hok Hall.
  - exact Hok.
  - destruct (run_cons std_sort input rest s) as [-> _].
    inversion Hall as [|? ? Hin Hrest]; subst.
    apply IH; [|exact Hrest]. now apply step_interval_ok.
Qed.

(** C3 (as amended).  From a station whose scan range is valid
    (0 <= min <= current <= max <= 2^30 microseconds), and with every
    reconfiguration valid as well: in every state reached the current
    interval lies between the minimum and the maximum; no input lowers it
    except the two that set it to the minimum, the IP-acquired event and a
    call of [SetScanIntervalRange]; any other input leaves it or replaces
    it by the smaller of its double and the maximum; and a scan that ends
    with no result or no known network does replace it so. *)
Theorem backoff_interval_bounded_and_monotone (s : WifiStation) :
  interval_ok s ->
  (forall inputs, Forall valid_input inputs ->
     interval_ok (state_after (run std_sort inputs) s)) /\
  (forall input, valid_input input ->
     let s' := state_after (step std_sort input) s in
     if resets_interval input
     then scan_current_interval_microseconds_ s' = scan_min_interval_microseconds_ s'
     else scan_min_interval_microseconds_ s' = scan_min_interval_microseconds_ s /\
          scan_max_interval_microseconds_ s' = scan_max_interval_microseconds_ s /\
          scan_current_interval_microseconds_ s <= scan_current_interval_microseconds_ s' /\
          (scan_current_interval_microseconds_ s' = scan_current_interval_microseconds_ s \/
           scan_current_interval_microseconds_ s' =
             Z.min (2 * scan_current_interval_microseconds_ s)
               (scan_max_interval_microseconds_ s))) /\
  (forall ap_records ssid_list,
     ap_records = [] \/ ranked_queue std_sort ap_records ssid_list = [] ->
     scan_current_interval_microseconds_
       (state_after (step std_sort (WifiEvent (WIFI_EVENT_SCAN_DONE ap_records ssid_list))) s) =
     Z.min (2 * scan_current_interval_microseconds_ s) (scan_max_interval_microseconds_ s)).
Proof.
  intros Hok. pose proof Hok as (Hmin & Hcur & Hmax).
  pose proof (next_interval_min (scan_current_interval_microseconds_ s)
                (scan_max_interval_microseconds_ s) ltac:(lia) Hmax) as Hnext.
  split; [|split].
  - intros inputs Hall. now apply run_interval_ok.
  - intros input Hvalid. pose proof (step_intervals input s) as H. cbv zeta in *.
    destruct input as [event|ip| |lo hi| |]; cbn [resets_interval].
    1, 3, 5, 6: destruct event || idtac.
    all: try rewrite Hnext in H.
    all: try (destruct H as (H1 & H2 & [H3 | H3]); rewrite H1, H2, H3;
              (split; [reflexivity|]); (split; [reflexivity|]); (split; [lia|]);
              first [left; reflexivity | right; reflexivity]).
    + destruct H as (H1 & _ & H3). now rewrite H1, H3.
    + destruct H as (_ & _ & H3). exact H3.
  - intros aps known Hunproductive. cbn [step]. unfold WifiEventHandler.
    rewrite state_after_bind.
    destruct (HandleScanResult_intervals aps known
                (state_after (xEventGroupSetBits WIFI_EVENT_SCAN_DONE_BIT) s))
      as (_ & _ & H3).
    rewrite H3.
    replace (vec_empty aps || vec_empty (ranked_queue std_sort aps known)) with true
      by (destruct Hunproductive as [-> | ->]; [reflexivity | now rewrite orb_true_r]).
    exact Hnext.
Qed.

End Backoff.

Lemma backoff_interval_bounded_and_monotone_witness :
  interval_ok sample_station /\
  scan_current_interval_microseconds_
    (state_after (step stable_sort_desc (WifiEvent (WIFI_EVENT_SCAN_DONE [] [cafe_item])))
       sample_station) =
  Z.min (2 * scan_current_interval_microseconds_ sample_station)
    (scan_max_interval_microseconds_ sample_station).
Proof.
  assert (Hok : interval_ok sample_station) by (unfold interval_ok; cbn; lia).
  split; [exact Hok|].
  pose proof (backoff_interval_bounded_and_monotone stable_sort_desc sample_station Hok) as H.
  destruct H as (_ & _ & H).
  apply H. left. reflexivity.
Defined.

(** C3 as stated fails.  After two scans without result the interval of the
    sample station is 40 s, and a call of [SetScanIntervalRange] takes it back
    to 10 s with no IP acquired.  And with the range set to 10 s .. 1800 s,
    seven scans without result bring the interval to 1280 s, which is below
    the maximum; its double does not fit an [int], and the eighth such scan
    leaves the interval negative instead of at the maximum. *)
Lemma backoff_interval_can_decrease :
  let no_result := WifiEvent (WIFI_EVENT_SCAN_DONE [] []) in
  let current inputs :=
    scan_current_interval_microseconds_
      (state_after (run stable_sort_desc inputs) sample_station) in
  interval_ok sample_station /\
  current [no_result; no_result] = 40000000 /\
  current [no_result; no_result; CallSetScanIntervalRange 10 300] = 10000000 /\
  current (CallSetScanIntervalRange 10 1800 :: repeat no_result 7) = 1280000000 /\
  scan_max_interval_microseconds_
    (state_after (run stable_sort_desc (CallSetScanIntervalRange 10 1800 :: repeat no_result 7))
       sample_station) = 1800000000 /\
  current (CallSetScanIntervalRange 10 1800 :: repeat no_result 8) = -1734967296.
Proof.
  cbv zeta. split; [unfold interval_ok; cbn; lia|].
  repeat split; vm_compute; reflexivity.
Qed.

(** ** Event-group bits *)

Lemma land_pow2 (x k : Z) :
  0 <= k -> Z.land x (2 ^ k) = if Z.testbit x k then 2 ^ k else 0.
Proof.
  intros Hk. apply Z.bits_inj'. intros n Hn.
  rewrite Z.land_spec, Z.pow2_bits_eqb by exact Hk.
  destruct (Z.eqb_spec k n) as [->|Hne].
  - destruct (Z.testbit x n) eqn:E; cbn.
    + now rewrite Z.pow2_bits_true.
    + now rewrite Z.bits_0.
  - rewrite andb_false_r. destruct (Z.testbit x k).
    + now rewrite Z.pow2_bits_false.
    + now rewrite Z.bits_0.
Qed.

Lemma connected_bit (g : Z) :
  negb (Z.land g WIFI_EVENT_CONNECTED =? 0) = Z.testbit g 0.
Proof.
  change WIFI_EVENT_CONNECTED with (2 ^ 0). rewrite land_pow2 by lia.
  now destruct (Z.testbit g 0).
Qed.

Lemma stopped_bit (g : Z) :
  negb (Z.land g WIFI_EVENT_STOPPED =? 0) = Z.testbit g 1.
Proof.
  change WIFI_EVENT_STOPPED with (2 ^ 1). rewrite land_pow2 by lia.
  now destruct (Z.testbit g 1).
Qed.

Lemma IsConnected_value (s : WifiStation) :
  value_of IsConnected s = Z.testbit (event_group_ s) 0.
Proof. unfold IsConnected. unfold_cmd. cbn. apply connected_bit. Qed.

(** ** IP acquired *)

(** What the IP-acquired handler issues: the connected callback, where one
    is registered, then the portal task, where the attempt asked for one. *)
Lemma IpEventHandler_effects (s : WifiStation) (ip_address : string) :
  effects_of (IpEventHandler ip_address) s =
  (if on_connected_ s then [on_connected (ssid_ s)] else []) ++
  (if needs_portal_login_ s
   then [xTaskCreate_portal_login
           (PortalLoginCtx.mk (pending_portal_username_ s) (pending_portal_password_ s)
              (ssid_ s))]
   else []).
Proof. destruct s; destruct on_connected_0, needs_portal_login_0; reflexivity. Qed.

(** C4.  After the IP-acquired event the candidate queue is empty, the retry
    counter is 0, the backoff interval is the configured minimum, the
    "was connected" flag is set, the station reports connected, and the
    connected callback, where one is registered, has been called with the
    current ssid (followed by the creation of the portal task where the
    attempt asked for one). *)
Theorem ip_acquired_resets_connection_context (s : WifiStation) (ip_address : string) :
  let s' := state_after (IpEventHandler ip_address) s in
  let effects := effects_of (IpEventHandler ip_address) s in
  connect_queue_ s' = [] /\
  reconnect_count_ s' = 0 /\
  scan_current_interval_microseconds_ s' = scan_min_interval_microseconds_ s /\
  scan_min_interval_microseconds_ s' = scan_min_interval_microseconds_ s /\
  was_connected_ s' = true /\
  value_of IsConnected s' = true /\
  ip_address_ s' = ip_address /\
  ssid_ s' = ssid_ s /\
  effects =
    (if on_connected_ s then [on_connected (ssid_ s)] else []) ++
    (if needs_portal_login_ s
     then [xTaskCreate_portal_login
             (PortalLoginCtx.mk (pending_portal_username_ s) (pending_portal_password_ s)
                (ssid_ s))]
     else []) /\
  (on_connected_ s = true -> In (on_connected (ssid_ s')) effects).
Proof.
  intros s' effects.
  assert (Hbits : Z.testbit (event_group_ s') 0 = true).
  { replace (event_group_ s') with (Z.lor (event_group_ s) WIFI_EVENT_CONNECTED)
      by (subst s'; destruct s; destruct on_connected_0, needs_portal_login_0; reflexivity).
    rewrite Z.lor_spec. apply orb_true_r. }
  rewrite IsConnected_value.
  split; [subst s'; destruct s; destruct on_connected_0, needs_portal_login_0; reflexivity|].
  split; [subst s'; destruct s; destruct on_connected_0, needs_portal_login_0; reflexivity|].
  split; [subst s'; destruct s; destruct on_connected_0, needs_portal_login_0; reflexivity|].
  split; [subst s'; destruct s; destruct on_connected_0, needs_portal_login_0; reflexivity|].
  split; [subst s'; destruct s; destruct on_connected_0, needs_portal_login_0; reflexivity|].
  split; [exact Hbits|].
  split; [subst s'; destruct s; destruct on_connected_0, needs_portal_login_0; reflexivity|].
  assert (Hssid : ssid_ s' = ssid_ s)
    by (subst s'; destruct s; destruct on_connected_0, needs_portal_login_0; reflexivity).
  split; [exact Hssid|].
  assert (Heff := IpEventHandler_effects s ip_address). fold effects in Heff.
  split; [exact Heff|].
  intros Hcb. rewrite Heff, Hcb, Hssid. now left.
Qed.

(** ** Classification of the popped candidate *)

Lemma authmode_eqb_eq (a b : wifi_auth_mode_t) : authmode_eqb a b = true <-> a = b.
Proof. destruct a, b; cbn; split; intros H; try reflexivity; discriminate. Qed.

Lemma is_enterprise_spec (c : WifiApRecord.t) :
  is_enterprise c =
  negb (empty (WifiApRecord.username c)) && enterprise_authmode (WifiApRecord.authmode c).
Proof. unfold is_enterprise. now destruct (WifiApRecord.authmode c). Qed.

Lemma is_portal_spec (c : WifiApRecord.t) :
  is_portal c =
  negb (empty (WifiApRecord.username c)) &&
  negb (enterprise_authmode (WifiApRecord.authmode c)).
Proof.
  unfold is_portal. rewrite is_enterprise_spec.
  now destruct (empty (WifiApRecord.username c)), (enterprise_authmode _).
Qed.

Lemma empty_iff (s : string) : empty s = true <-> s = EmptyString.
Proof. destruct s; cbn; split; intros H; try reflexivity; discriminate. Qed.

Lemma enterprise_authmode_iff (a : wifi_auth_mode_t) :
  enterprise_authmode a = true <->
  a = WIFI_AUTH_WPA2_ENTERPRISE \/ a = WIFI_AUTH_WPA2_WPA3_ENTERPRISE.
Proof.
  destruct a; cbn; split; intros H; try discriminate; auto;
    destruct H as [H|H]; discriminate.
Qed.

(** C8 (as amended).  The candidate popped for a connect attempt is treated
    as enterprise exactly when it has a non-empty username and its auth mode
    is WPA2-enterprise or WPA2/WPA3-enterprise: then identity, username and
    password are handed to the driver and enterprise auth is enabled, and in
    every other case enterprise auth is disabled.  It is flagged as a portal
    candidate, and its username and password are kept for the portal login,
    exactly when it has a non-empty username and another auth mode. *)
Theorem popped_candidate_classification
    (s : WifiStation) (c : WifiApRecord.t) (q : list WifiApRecord.t) :
  connect_queue_ s = c :: q ->
  let s' := state_after StartConnect s in
  let username := WifiApRecord.username c in
  let password := WifiApRecord.password c in
  let enterprise := negb (empty username) && enterprise_authmode (WifiApRecord.authmode c) in
  let portal := negb (empty username) && negb (enterprise_authmode (WifiApRecord.authmode c)) in
  (enterprise = true <->
     username <> EmptyString /\
     (WifiApRecord.authmode c = WIFI_AUTH_WPA2_ENTERPRISE \/
      WifiApRecord.authmode c = WIFI_AUTH_WPA2_WPA3_ENTERPRISE)) /\
  (exists config,
     driver_commands (effects_of StartConnect s) =
       esp_wifi_disconnect ::
       (if enterprise
        then [esp_wifi_sta_wpa2_ent_set_identity username;
              esp_wifi_sta_wpa2_ent_set_username username;
              esp_wifi_sta_wpa2_ent_set_password password;
              esp_wifi_sta_wpa2_ent_enable]
        else [esp_wifi_sta_wpa2_ent_disable]) ++
       [esp_wifi_set_config config; esp_wifi_connect]) /\
  needs_portal_login_ s' = portal /\
  pending_portal_username_ s' = (if portal then username else EmptyString) /\
  pending_portal_password_ s' = (if portal then password else EmptyString).
Proof.
  intros Hq s' username password enterprise portal.
  split; [|split].
  - subst enterprise. rewrite andb_true_iff, negb_true_iff, enterprise_authmode_iff.
    split; intros [Hu Ha]; (split; [|exact Ha]).
    + intros Heq. apply empty_iff in Heq. congruence.
    + destruct (empty username) eqn:E; [|reflexivity].
      apply empty_iff in E. contradiction.
  - subst enterprise username password. clear s' portal.
    destruct s; cbn [connect_queue_] in Hq; subst connect_queue_0.
    destruct c as [ssid pw user ch auth mac].
    destruct on_connect_0, user, auth; eexists; reflexivity.
  - destruct (StartConnect_state c q s Hq) as (_ & _ & _ & _ & Hn & Hu & Hp & _).
    fold s' in Hn, Hu, Hp. subst portal username password.
    rewrite <- is_portal_spec. repeat split; assumption.
Qed.

Lemma popped_candidate_classification_witness :
  let c := make_record cafe_item cafe_ap in
  let s := set_connect_queue_ [c] sample_station in
  needs_portal_login_ (state_after StartConnect s) = true /\
  pending_portal_username_ (state_after StartConnect s) = "guest"%string.
Proof.
  cbv zeta.
  pose proof (popped_candidate_classification
                (set_connect_queue_ [make_record cafe_item cafe_ap] sample_station)
                (make_record cafe_item cafe_ap) [] eq_refl) as H.
  cbv zeta in H. destruct H as (_ & _ & Hn & Hu & _).
  split; [exact Hn | exact Hu].
Defined.

(** C8 as stated fails: a candidate whose auth mode is WPA2-enterprise but
    which has no username is not treated as enterprise; enterprise auth is
    disabled for it and its password goes into the station configuration. *)
Lemma enterprise_authmode_without_username :
  let c := WifiApRecord.mk "Campus" "secret" EmptyString 6 WIFI_AUTH_WPA2_ENTERPRISE
             [Byte.x02; Byte.x00; Byte.x00; Byte.x00; Byte.x00; Byte.x03] in
  enterprise_authmode (WifiApRecord.authmode c) = true /\
  driver_commands (effects_of StartConnect (set_connect_queue_ [c] sample_station)) =
    [esp_wifi_disconnect;
     esp_wifi_sta_wpa2_ent_disable;
     esp_wifi_set_config (StaConfig.mk "Campus" "secret" 0 (repeat Byte.x00 6) false 3);
     esp_wifi_connect].
Proof. cbv zeta. split; reflexivity. Qed.

(** ** Portal gating *)

Lemma ranked_queue_head std_sort (ap_records : list wifi_ap_record_t)
    (ssid_list : list SsidItem.t) (ap : wifi_ap_record_t) (rest : list wifi_ap_record_t)
    (item : SsidItem.t) :
  filter (is_known ssid_list) (std_sort ap_records) = ap :: rest ->
  find_known ssid_list ap = Some item ->
  exists q, ranked_queue std_sort ap_records ssid_list = make_record item ap :: q.
Proof.
  intros Hf Hfind.
  pose proof (candidates_of_known ssid_list (std_sort ap_records)) as H.
  rewrite Hf, <- ranked_queue_flat_map in H.
  inversion H as [|? c ? q [item' [Hfind' Hc]] _]; subst.
  exists q. congruence.
Qed.


Section PortalGating.

Variable std_sort : list wifi_ap_record_t -> list wifi_ap_record_t.


End PortalGating.


(** ** The bounded wait and [Stop] *)





Section BoundedWait.

Variable portTICK_PERIOD_MS : Z.
Hypothesis tick_period_positive : 0 < portTICK_PERIOD_MS.


End BoundedWait.


(** ** Signal strength and channel *)

(** C10.  While the station is not connected, or when the driver has no AP
    information to give, [GetRssi] and [GetChannel] both return 0; the station
    is left as it was and nothing is issued. *)
Theorem rssi_and_channel_zero_when_not_connected
    (s : WifiStation) (ap_info : option wifi_ap_record_t) :
  value_of IsConnected s = false \/ ap_info = None ->
  GetRssi ap_info s = (0, s, []) /\ GetChannel ap_info s = (0, s, []).
Proof.
  intros H. rewrite IsConnected_value in H.
  unfold GetRssi, GetChannel, IsConnected. unfold_cmd. cbn [fst snd].
  rewrite connected_bit.
  destruct H as [-> | ->]; cbn [negb].
  - split; reflexivity.
  - destruct (Z.testbit (event_group_ s) 0); split; reflexivity.
Qed.

Lemma rssi_and_channel_zero_when_not_connected_witness :
  GetRssi (Some cafe_ap) sample_station = (0, sample_station, []) /\
  GetChannel (Some cafe_ap) sample_station = (0, sample_station, []).
Proof.
  apply (rssi_and_channel_zero_when_not_connected sample_station (Some cafe_ap)).
  left. reflexivity.
Defined.

(** Connected and with AP information, both queries pass the driver's
    values on. *)
Example rssi_and_channel_when_connected :
  let s := state_after (IpEventHandler "192.168.4.2") sample_station in
  value_of (GetRssi (Some cafe_ap)) s = -50 /\ value_of (GetChannel (Some cafe_ap)) s = 6.
Proof. split; reflexivity. Qed.

(** ** The portal task *)

(** The prefix test on a printed address looks at its first two bytes only:
    it lets through 10.x.x.x, 192.168.x.x and every 172.x.x.x. *)
Lemma local_prefix_inet_ntoa (a : in_addr) :
  local_prefix (inet_ntoa a) = local_range a.
Proof.
  destruct a as [b0 b1 b2 b3].
  destruct b0; try reflexivity.
  all: destruct b1; reflexivity.
Qed.

(** Against the private ranges the test is too wide by 172.0.0.0/8 outside
    172.16.0.0/12. *)
Lemma local_prefix_private_range (a : in_addr) :
  local_prefix (inet_ntoa a) =
  private_range a || (Byte.to_nat (InAddr.b0 a) =? 172)%nat.
Proof.
  rewrite local_prefix_inet_ntoa. unfold local_range, private_range. cbv zeta.
  destruct (Byte.to_nat (InAddr.b0 a) =? 10)%nat eqn:E10;
    destruct (Byte.to_nat (InAddr.b0 a) =? 172)%nat eqn:E172;
    destruct (Byte.to_nat (InAddr.b0 a) =? 192)%nat eqn:E192;
    cbn; try reflexivity.
  - now rewrite orb_true_r.
  - now rewrite orb_true_r.
  - now rewrite orb_false_r.
Qed.

(** The scenario of the specification: the 204 probe answers 200 and the
    probe host resolves to 192.168.1.1; the login URL is
    http://192.168.1.1/login and the POST goes to exactly that URL. *)
Example portal_login_private_address :
  detect_login_url env_private "CafeWifi" =
    ([GET MIUI_PROBE], "http://192.168.1.1/login"%string) /\
  PortalLoginTask env_private guest_ctx =
    [GET MIUI_PROBE;
     POST "http://192.168.1.1/login" login_headers "user=guest&pass=pw"].
Proof. split; reflexivity. Qed.

(** When the 204 probe answers 200 and the probe host resolves to an
    address the prefix test lets through, the login URL is built from that
    address and no further probe is sent. *)
Lemma hijacked_probe_login_url (env : PortalEnv) (current_ssid : string) (a : in_addr) :
  perform_ok (http_get env MIUI_PROBE) = true ->
  status_code (http_get env MIUI_PROBE) = 200 ->
  gethostbyname env "connect.rom.miui.com" = Some a ->
  local_prefix (inet_ntoa a) = true ->
  detect_login_url env current_ssid =
    ([GET MIUI_PROBE], ("http://" ++ inet_ntoa a ++ "/login")%string).
Proof.
  intros Hok Hcode Hdns Hlocal.
  unfold detect_login_url, check_redirect, resolve_login.
  rewrite Hok, Hcode, Hdns, Hlocal. reflexivity.
Qed.

(** C6, where the code departs from it.  With the 204 probe answered by
    200, a login URL is built from every resolved address that lies in a
    private range and, beyond the claim, from every address whose first byte
    is 172.  So for 172.217.0.1, which lies in none of the private ranges, the
    task takes http://172.217.0.1/login as login URL and posts the
    credentials there. *)
Theorem login_url_for_public_172_address :
  (forall env current_ssid a,
     perform_ok (http_get env MIUI_PROBE) = true ->
     status_code (http_get env MIUI_PROBE) = 200 ->
     gethostbyname env "connect.rom.miui.com" = Some a ->
     private_range a || (Byte.to_nat (InAddr.b0 a) =? 172)%nat = true ->
     detect_login_url env current_ssid =
       ([GET MIUI_PROBE], ("http://" ++ inet_ntoa a ++ "/login")%string)) /\
  private_range (InAddr.mk Byte.xac Byte.xd9 Byte.x00 Byte.x01) = false /\
  inet_ntoa (InAddr.mk Byte.xac Byte.xd9 Byte.x00 Byte.x01) = "172.217.0.1"%string /\
  detect_login_url env_public_172 "CafeWifi" =
    ([GET MIUI_PROBE], "http://172.217.0.1/login"%string) /\
  PortalLoginTask env_public_172 guest_ctx =
    [GET MIUI_PROBE;
     POST "http://172.217.0.1/login" login_headers "user=guest&pass=pw"].
Proof.
  split.
  - intros env current_ssid a Hok Hcode Hdns Hrange.
    apply hijacked_probe_login_url; try assumption.
    now rewrite local_prefix_private_range.
  - repeat split; reflexivity.
Qed.

(** *** The POST *)

Lemma string_app_assoc (a b c : string) : ((a ++ b) ++ c = a ++ (b ++ c))%string.
Proof. induction a as [|x a IH]; cbn; [reflexivity | now rewrite IH]. Qed.







(** A redirect to a URL without "login" gets the segment appended. *)
Example post_url_appended :
  post_url_of "http://10.0.0.1" = "http://10.0.0.1/login"%string /\
  post_url_of "http://10.0.0.1/" = "http://10.0.0.1/login"%string.
Proof. split; reflexivity. Qed.


(** * Further properties *)

(** ** Construction, start and stop *)

(** X1.  The TX power limit is applied at [Start] exactly when the
    constructor read a non-zero [max_tx_power] from NVS: with the namespace
    missing, the key missing or the value 0, [Start] leaves the driver's
    default alone. *)
Theorem tx_power_set_only_when_stored (nvs : option NvsWifi) (s : WifiStation) :
  tx_power_settings (effects_of Start (state_after (WifiStation_constructor nvs) s)) =
  match nvs with
  | Some stored =>
      match nvs_max_tx_power stored with
      | Some power => if power =? 0 then [] else [power]
      | None => []
      end
  | None => []
  end.
Proof.
  destruct s. destruct nvs as [[[[|p|p]|] remember]|]; reflexivity.
Qed.

(** What [StartConnect] issues for the candidate it pops. *)
Lemma StartConnect_effects (c : WifiApRecord.t) (q : list WifiApRecord.t) (s : WifiStation) :
  connect_queue_ s = c :: q ->
  effects_of StartConnect s =
  (if on_connect_ s then [on_connect (WifiApRecord.ssid c)] else []) ++
  esp_wifi_disconnect :: enterprise_commands c ++
  [esp_wifi_set_config (station_config (remember_bssid_ s) c); esp_wifi_connect].
Proof.
  destruct s; cbn [connect_queue_]. intros ->.
  destruct c as [ssid pw user ch auth mac].
  destruct on_connect_0, user, auth; reflexivity.
Qed.

Lemma stop_bits_twice (g : Z) :
  Z.lor (Z.ldiff (Z.lor (Z.ldiff g WIFI_EVENT_CONNECTED) WIFI_EVENT_STOPPED)
           WIFI_EVENT_CONNECTED) WIFI_EVENT_STOPPED =
  Z.lor (Z.ldiff g WIFI_EVENT_CONNECTED) WIFI_EVENT_STOPPED.
Proof.
  apply Z.bits_inj'. intros n Hn.
  rewrite !Z.lor_spec, !Z.ldiff_spec, !Z.lor_spec, !Z.ldiff_spec.
  destruct (Z.testbit g n), (Z.testbit WIFI_EVENT_CONNECTED n),
    (Z.testbit WIFI_EVENT_STOPPED n); reflexivity.
Qed.

Ltac reduce_members :=
  cbv [set_event_group_ set_instance_any_id_ set_instance_got_ip_ set_timer_handle_
       set_station_netif_ set_was_connected_ set_reconnect_count_ set_connect_queue_
       set_scan_min_interval_microseconds_ set_scan_max_interval_microseconds_
       set_scan_current_interval_microseconds_ set_ssid_ set_password_ set_ip_address_
       set_needs_portal_login_ set_pending_portal_username_ set_pending_portal_password_
       set_on_scan_begin_ set_on_connect_ set_on_connected_ set_on_disconnected_
       set_max_tx_power_ set_remember_bssid_
       event_group_ instance_any_id_ instance_got_ip_ timer_handle_ station_netif_
       max_tx_power_ remember_bssid_ was_connected_ reconnect_count_ connect_queue_
       scan_min_interval_microseconds_ scan_max_interval_microseconds_
       scan_current_interval_microseconds_ ssid_ password_ ip_address_
       needs_portal_login_ pending_portal_username_ pending_portal_password_
       on_scan_begin_ on_connect_ on_connected_ on_disconnected_].

(** The members after [Stop]: the four handles released, "was connected"
    forgotten, connected cleared and stopped set; nothing else is assigned. *)
Lemma Stop_state (s : WifiStation) :
  state_after Stop s =
  set_event_group_
    (Z.lor (Z.ldiff (event_group_ s) WIFI_EVENT_CONNECTED) WIFI_EVENT_STOPPED)
    (set_was_connected_ false
       (set_station_netif_ false
          (set_timer_handle_ false
             (set_instance_got_ip_ false (set_instance_any_id_ false s))))).
Proof.
  destruct s.
  destruct instance_any_id_0, instance_got_ip_0, timer_handle_0, station_netif_0;
    reflexivity.
Qed.

Lemma Stop_effects (s : WifiStation) :
  effects_of Stop s =
  (if instance_any_id_ s then [esp_event_handler_instance_unregister WIFI_EVENT] else []) ++
  (if instance_got_ip_ s then [esp_event_handler_instance_unregister IP_EVENT] else []) ++
  (if timer_handle_ s then [esp_timer_stop; esp_timer_delete] else []) ++
  [esp_wifi_scan_stop; esp_wifi_disconnect; esp_wifi_stop] ++
  (if station_netif_ s then [esp_netif_destroy_default_wifi] else []).
Proof.
  destruct s.
  destruct instance_any_id_0, instance_got_ip_0, timer_handle_0, station_netif_0;
    reflexivity.
Qed.

(** X2.  [Stop] may be called again: a second [Stop] leaves every member as
    the first left it, and finding no handler, timer or interface left it
    only repeats the three calls that stop the radio. *)
Theorem stop_twice (s : WifiStation) :
  state_after Stop (state_after Stop s) = state_after Stop s /\
  effects_of Stop (state_after Stop s) =
    [esp_wifi_scan_stop; esp_wifi_disconnect; esp_wifi_stop].
Proof.
  rewrite Stop_effects, !Stop_state. destruct s. reduce_members.
  split; [|reflexivity].
  f_equal. apply stop_bits_twice.
Qed.

(** ** Disconnects, retries and the queue *)

Lemma configurations_app (e1 e2 : list Effect) :
  configurations (e1 ++ e2) = configurations e1 ++ configurations e2.
Proof. apply flat_map_app. Qed.

Lemma timer_starts_app (e1 e2 : list Effect) :
  timer_starts (e1 ++ e2) = timer_starts e1 ++ timer_starts e2.
Proof. apply flat_map_app. Qed.

Lemma connect_commands_app (e1 e2 : list Effect) :
  connect_commands (e1 ++ e2) = connect_commands e1 ++ connect_commands e2.
Proof. apply filter_app. Qed.

Lemma disconnected_notices_app (e1 e2 : list Effect) :
  disconnected_notices (e1 ++ e2) = disconnected_notices e1 ++ disconnected_notices e2.
Proof. apply filter_app. Qed.

(** The three readings of driver commands do not see callbacks. *)
Lemma readings_of_driver_commands (effects : list Effect) :
  configurations (driver_commands effects) = configurations effects /\
  timer_starts (driver_commands effects) = timer_starts effects /\
  connect_commands (driver_commands effects) = connect_commands effects.
Proof.
  unfold configurations, timer_starts, connect_commands, driver_commands.
  induction effects as [|e rest (IH1 & IH2 & IH3)]; [repeat split|].
  destruct e; cbn; rewrite ?IH1, ?IH2, ?IH3; repeat split; reflexivity.
Qed.

Lemma readings_of_retries (n : nat) :
  configurations (repeat esp_wifi_connect n) = [] /\
  timer_starts (repeat esp_wifi_connect n) = [] /\
  connect_commands (repeat esp_wifi_connect n) = repeat esp_wifi_connect n.
Proof.
  unfold configurations, timer_starts, connect_commands.
  induction n as [|n (IH1 & IH2 & IH3)]; [repeat split|].
  cbn. rewrite IH3. repeat split; assumption.
Qed.

(** The readings of what [StartConnect] issues for a popped candidate. *)
Lemma StartConnect_readings (c : WifiApRecord.t) (q : list WifiApRecord.t) (s : WifiStation) :
  connect_queue_ s = c :: q ->
  configurations (effects_of StartConnect s) = [station_config (remember_bssid_ s) c] /\
  timer_starts (effects_of StartConnect s) = [] /\
  connect_commands (effects_of StartConnect s) = [esp_wifi_connect] /\
  disconnected_notices (effects_of StartConnect s) = [].
Proof.
  intros Hq. rewrite (StartConnect_effects c q s Hq). unfold enterprise_commands.
  destruct (on_connect_ s), (is_enterprise c); repeat split; reflexivity.
Qed.

Lemma run_app std_sort (a b : list Input) (s : WifiStation) :
  state_after (run std_sort (a ++ b)) s =
    state_after (run std_sort b) (state_after (run std_sort a) s) /\
  effects_of (run std_sort (a ++ b)) s =
    effects_of (run std_sort a) s ++
    effects_of (run std_sort b) (state_after (run std_sort a) s).
Proof.
  revert s. induction a as [|input a IH]; intros s.
  - split; reflexivity.
  - cbn [app].
    destruct (run_cons std_sort input (a ++ b) s) as [-> ->].
    destruct (run_cons std_sort input a s) as [-> ->].
    destruct (IH (state_after (step std_sort input) s)) as [-> ->].
    split; [reflexivity | now rewrite app_assoc].
Qed.

Section Disconnects.

Variable std_sort : list wifi_ap_record_t -> list wifi_ap_record_t.

Let on_disconnect : Cmd unit := WifiEventHandler std_sort WIFI_EVENT_STA_DISCONNECTED.

(** One disconnect, in its three cases. *)
Lemma disconnect_step (s : WifiStation) :
  effects_of on_disconnect s =
    disconnect_notice s ++
    (if reconnect_count_ s <? MAX_RECONNECT_COUNT then [esp_wifi_connect]
     else if vec_empty (connect_queue_ s)
          then [esp_timer_start_once (to_uint64 (scan_current_interval_microseconds_ s))]
          else effects_of StartConnect (disconnected s)) /\
  state_after on_disconnect s =
    (if reconnect_count_ s <? MAX_RECONNECT_COUNT
     then set_reconnect_count_ (wrap_int (reconnect_count_ s + 1)) (disconnected s)
     else if vec_empty (connect_queue_ s)
          then state_after UpdateScanInterval (disconnected s)
          else state_after StartConnect (disconnected s)).
Proof.
  destruct (Z.ltb_spec (reconnect_count_ s) MAX_RECONNECT_COUNT) as [Hlt|Hge].
  - destruct (disconnect_retries std_sort s Hlt) as [Hs He].
    split; assumption.
  - destruct (disconnect_moves_on std_sort s Hge) as [Hnext Hrescan].
    destruct (connect_queue_ s) as [|c q] eqn:Eq; cbn [vec_empty].
    + destruct (Hrescan eq_refl) as [Hs He]. split; assumption.
    + destruct Hnext as [Hs He]; [discriminate|]. split; assumption.
Qed.

(** A disconnect leaves "was connected" cleared. *)
Lemma disconnect_forgets_connection (s : WifiStation) :
  was_connected_ (state_after on_disconnect s) = false.
Proof.
  destruct (disconnect_step s) as [_ ->].
  destruct (reconnect_count_ s <? MAX_RECONNECT_COUNT); [reflexivity|].
  destruct (connect_queue_ s) as [|c q] eqn:Eq; cbn [vec_empty].
  - now rewrite UpdateScanInterval_state.
  - assert (Hq : connect_queue_ (disconnected s) = c :: q) by exact Eq.
    destruct (StartConnect_state c q (disconnected s) Hq)
      as (_ & _ & _ & _ & _ & _ & _ & _ & _ & _ & _ & Hw & _).
    exact Hw.
Qed.

Lemma disconnect_step_notices (s : WifiStation) :
  disconnected_notices (effects_of on_disconnect s) = disconnect_notice s.
Proof.
  destruct (disconnect_step s) as [-> _].
  rewrite disconnected_notices_app.
  assert (Hn : disconnected_notices (disconnect_notice s) = disconnect_notice s)
    by (unfold disconnect_notice; now destruct (was_connected_ s && on_disconnected_ s)).
  rewrite Hn.
  destruct (reconnect_count_ s <? MAX_RECONNECT_COUNT); [apply app_nil_r|].
  destruct (connect_queue_ s) as [|c q] eqn:Eq; cbn [vec_empty]; [apply app_nil_r|].
  assert (Hq : connect_queue_ (disconnected s) = c :: q) by exact Eq.
  destruct (StartConnect_readings c q (disconnected s) Hq) as (_ & _ & _ & ->).
  apply app_nil_r.
Qed.

Lemma no_notice_without_connection (n : nat) :
  forall s, was_connected_ s = false ->
            disconnected_notices (effects_of (run std_sort (disconnects n)) s) = [].
Proof.
  induction n as [|n IH]; intros s Hw; [reflexivity|].
  change (disconnects (S n)) with (WifiEvent WIFI_EVENT_STA_DISCONNECTED :: disconnects n).
  destruct (run_cons std_sort (WifiEvent WIFI_EVENT_STA_DISCONNECTED) (disconnects n) s)
    as [_ ->].
  change (step std_sort (WifiEvent WIFI_EVENT_STA_DISCONNECTED)) with on_disconnect.
  rewrite disconnected_notices_app, disconnect_step_notices.
  rewrite IH by apply disconnect_forgets_connection.
  unfold disconnect_notice. now rewrite Hw.
Qed.

(** X3.  However many disconnect events follow one another, the device layer
    is told at most once: the disconnected callback is called on the first
    of them, and only if the station had been connected and a callback is
    registered; the retries and candidate changes that follow are silent. *)
Theorem disconnected_reported_once (s : WifiStation) (n : nat) :
  disconnected_notices (effects_of (run std_sort (disconnects n)) s) =
  if (0 <? n)%nat && was_connected_ s && on_disconnected_ s then [on_disconnected] else [].
Proof.
  destruct n as [|n]; [reflexivity|].
  change (disconnects (S n)) with (WifiEvent WIFI_EVENT_STA_DISCONNECTED :: disconnects n).
  destruct (run_cons std_sort (WifiEvent WIFI_EVENT_STA_DISCONNECTED) (disconnects n) s)
    as [_ ->].
  change (step std_sort (WifiEvent WIFI_EVENT_STA_DISCONNECTED)) with on_disconnect.
  rewrite disconnected_notices_app, disconnect_step_notices.
  rewrite no_notice_without_connection by apply disconnect_forgets_connection.
  rewrite app_nil_r. reflexivity.
Qed.

End Disconnects.

Section QueueWalk.

Variable std_sort : list wifi_ap_record_t -> list wifi_ap_record_t.

Let on_disconnect : Cmd unit := WifiEventHandler std_sort WIFI_EVENT_STA_DISCONNECTED.

(** Five disconnects after a connect attempt: five reconnects, the attempt
    itself untouched, the budget spent. *)
Lemma five_retries (s : WifiStation) :
  reconnect_count_ s = 0 ->
  let r := run std_sort (disconnects 5) in
  configurations (effects_of r s) = [] /\
  timer_starts (effects_of r s) = [] /\
  connect_commands (effects_of r s) = repeat esp_wifi_connect 5 /\
  reconnect_count_ (state_after r s) = 5 /\
  same_attempt s (state_after r s).
Proof.
  intros Hrc r.
  destruct (retries_within_budget std_sort 5 s 0%nat Hrc ltac:(lia)) as (He & Hc & Hsame).
  fold r in He, Hc, Hsame. clearbody r.
  destruct (readings_of_driver_commands (effects_of r s)) as (H1 & H2 & H3).
  destruct (readings_of_retries 5) as (R1 & R2 & R3).
  rewrite <- H1, <- H2, <- H3, He.
  split; [exact R1|]. split; [exact R2|]. split; [exact R3|].
  split; [exact Hc | exact Hsame].
Qed.

Lemma run_one (s : WifiStation) :
  state_after (run std_sort [WifiEvent WIFI_EVENT_STA_DISCONNECTED]) s =
    state_after on_disconnect s /\
  effects_of (run std_sort [WifiEvent WIFI_EVENT_STA_DISCONNECTED]) s =
    effects_of on_disconnect s.
Proof.
  destruct (run_cons std_sort (WifiEvent WIFI_EVENT_STA_DISCONNECTED) [] s) as [-> ->].
  split; [reflexivity|].
  change (effects_of (run std_sort []) ?x) with (@nil Effect).
  apply app_nil_r.
Qed.

Lemma run_six (s : WifiStation) :
  state_after (run std_sort (disconnects 6)) s =
    state_after on_disconnect (state_after (run std_sort (disconnects 5)) s) /\
  effects_of (run std_sort (disconnects 6)) s =
    effects_of (run std_sort (disconnects 5)) s ++
    effects_of on_disconnect (state_after (run std_sort (disconnects 5)) s).
Proof.
  change (disconnects 6) with (disconnects 5 ++ [WifiEvent WIFI_EVENT_STA_DISCONNECTED]).
  destruct (run_app std_sort (disconnects 5) [WifiEvent WIFI_EVENT_STA_DISCONNECTED] s)
    as [-> ->].
  generalize (state_after (run std_sort (disconnects 5)) s) as s5.
  generalize (effects_of (run std_sort (disconnects 5)) s) as e5.
  intros e5 s5. destruct (run_one s5) as [-> ->]. split; reflexivity.
Qed.

(** Six disconnects after a connect attempt, with a candidate queued: five
    reconnects, then the queued candidate is configured and connected to. *)
Lemma six_disconnects_next (s : WifiStation) (c : WifiApRecord.t) (q : list WifiApRecord.t) :
  reconnect_count_ s = 0 -> connect_queue_ s = c :: q ->
  let r := run std_sort (disconnects 6) in
  map StaConfig.ssid (configurations (effects_of r s)) = [strlcpy (WifiApRecord.ssid c) 32] /\
  timer_starts (effects_of r s) = [] /\
  connect_commands (effects_of r s) = repeat esp_wifi_connect 6 /\
  reconnect_count_ (state_after r s) = 0 /\
  connect_queue_ (state_after r s) = q /\
  ssid_ (state_after r s) = WifiApRecord.ssid c /\
  scan_current_interval_microseconds_ (state_after r s) =
    scan_current_interval_microseconds_ s /\
  scan_max_interval_microseconds_ (state_after r s) = scan_max_interval_microseconds_ s.
Proof.
  intros Hrc Hq r.
  destruct (five_retries s Hrc) as (C5 & T5 & K5 & Hrc5 & Hsame).
  destruct (run_six s) as [Hs He]. fold r in Hs, He. clearbody r.
  revert C5 T5 K5 Hrc5 Hsame Hs He.
  generalize (state_after (run std_sort (disconnects 5)) s) as s5.
  generalize (effects_of (run std_sort (disconnects 5)) s) as e5.
  intros e5 s5 C5 T5 K5 Hrc5 Hsame Hs He.
  destruct Hsame as (Hq5 & _ & _ & _ & _ & _ & _ & Hmax5 & Hcur5).
  destruct (disconnect_step std_sort s5) as [Hde Hds].
  fold on_disconnect in Hde, Hds.
  rewrite Hrc5, Hq5, Hq in Hde, Hds. cbn [vec_empty] in Hde, Hds.
  change (5 <? MAX_RECONNECT_COUNT) with false in Hde, Hds.
  assert (Hqd : connect_queue_ (disconnected s5) = c :: q)
    by (change (connect_queue_ s5 = c :: q); now rewrite Hq5).
  destruct (StartConnect_readings c q (disconnected s5) Hqd) as (RC & RT & RK & _).
  destruct (StartConnect_state c q (disconnected s5) Hqd)
    as (Sq & Sssid & _ & Src & _ & _ & _ & _ & Smax & Scur & _).
  assert (Hnotice : configurations (disconnect_notice s5) = [] /\
                    timer_starts (disconnect_notice s5) = [] /\
                    connect_commands (disconnect_notice s5) = [])
    by (unfold disconnect_notice;
        destruct (was_connected_ s5 && on_disconnected_ s5); repeat split).
  destruct Hnotice as (N1 & N2 & N3).
  rewrite Hs, He, Hds, Hde.
  rewrite !configurations_app, !timer_starts_app, !connect_commands_app.
  rewrite C5, T5, K5, N1, N2, N3, RC, RT, RK.
  split; [reflexivity|]. split; [reflexivity|]. split; [reflexivity|].
  split; [exact Src|]. split; [exact Sq|]. split; [exact Sssid|].
  split; [now rewrite Scur | now rewrite Smax].
Qed.

(** Six disconnects after a connect attempt, with nothing queued: five
    reconnects, then the scan timer is started and the interval advanced. *)
Lemma six_disconnects_rescan (s : WifiStation) :
  reconnect_count_ s = 0 -> connect_queue_ s = [] ->
  let r := run std_sort (disconnects 6) in
  configurations (effects_of r s) = [] /\
  timer_starts (effects_of r s) = [to_uint64 (scan_current_interval_microseconds_ s)] /\
  connect_commands (effects_of r s) = repeat esp_wifi_connect 5 /\
  connect_queue_ (state_after r s) = [] /\
  scan_current_interval_microseconds_ (state_after r s) =
    next_interval (scan_current_interval_microseconds_ s)
      (scan_max_interval_microseconds_ s).
Proof.
  intros Hrc Hq r.
  destruct (five_retries s Hrc) as (C5 & T5 & K5 & Hrc5 & Hsame).
  destruct (run_six s) as [Hs He]. fold r in Hs, He. clearbody r.
  revert C5 T5 K5 Hrc5 Hsame Hs He.
  generalize (state_after (run std_sort (disconnects 5)) s) as s5.
  generalize (effects_of (run std_sort (disconnects 5)) s) as e5.
  intros e5 s5 C5 T5 K5 Hrc5 Hsame Hs He.
  destruct Hsame as (Hq5 & _ & _ & _ & _ & _ & _ & Hmax5 & Hcur5).
  destruct (disconnect_step std_sort s5) as [Hde Hds].
  fold on_disconnect in Hde, Hds.
  rewrite Hrc5, Hq5, Hq in Hde, Hds. cbn [vec_empty] in Hde, Hds.
  change (5 <? MAX_RECONNECT_COUNT) with false in Hde, Hds.
  rewrite UpdateScanInterval_state in Hds.
  assert (Hnotice : configurations (disconnect_notice s5) = [] /\
                    timer_starts (disconnect_notice s5) = [] /\
                    connect_commands (disconnect_notice s5) = [])
    by (unfold disconnect_notice;
        destruct (was_connected_ s5 && on_disconnected_ s5); repeat split).
  destruct Hnotice as (N1 & N2 & N3).
  rewrite Hs, He, Hds, Hde.
  rewrite !configurations_app, !timer_starts_app, !connect_commands_app.
  rewrite C5, T5, K5, N1, N2, N3.
  change (scan_current_interval_microseconds_ (disconnected s5))
    with (scan_current_interval_microseconds_ s5).
  change (scan_max_interval_microseconds_ (disconnected s5))
    with (scan_max_interval_microseconds_ s5).
  rewrite Hcur5, Hmax5.
  split; [reflexivity|]. split; [reflexivity|]. split; [reflexivity|].
  split; [|reflexivity].
  change (connect_queue_ s5 = []). now rewrite Hq5.
Qed.

Lemma disconnects_add (a b : nat) : disconnects (a + b) = disconnects a ++ disconnects b.
Proof. apply repeat_app. Qed.

(** X4.  After a connect attempt, let every attempt fail: the station gives
    each candidate of the queue its turn, in queue order, six connect
    commands to each (the first attempt and five retries), and when the last
    one has failed it starts the scan timer once, with the current backoff
    interval, and advances the interval.  It takes six disconnects per
    candidate, the one being tried included. *)
Theorem failing_candidates_tried_in_queue_order (q : list WifiApRecord.t) :
  forall s : WifiStation,
    reconnect_count_ s = 0 -> connect_queue_ s = q ->
    let r := run std_sort (disconnects (6 * (List.length q + 1))) in
    map StaConfig.ssid (configurations (effects_of r s)) =
      map (fun c => strlcpy (WifiApRecord.ssid c) 32) q /\
    connect_commands (effects_of r s) = repeat esp_wifi_connect (6 * List.length q + 5) /\
    timer_starts (effects_of r s) = [to_uint64 (scan_current_interval_microseconds_ s)] /\
    connect_queue_ (state_after r s) = [] /\
    scan_current_interval_microseconds_ (state_after r s) =
      next_interval (scan_current_interval_microseconds_ s)
        (scan_max_interval_microseconds_ s).
Proof.
  induction q as [|c q IH]; intros s Hrc Hq.
  - destruct (six_disconnects_rescan s Hrc Hq) as (H1 & H2 & H3 & H4 & H5).
    cbv zeta.
    change (6 * (List.length (@nil WifiApRecord.t) + 1))%nat with 6%nat.
    change (6 * List.length (@nil WifiApRecord.t) + 5)%nat with 5%nat.
    rewrite H1, H2, H3.
    split; [reflexivity|]. split; [reflexivity|]. split; [reflexivity|].
    split; [exact H4 | exact H5].
  - destruct (six_disconnects_next s c q Hrc Hq)
      as (H1 & H2 & H3 & Hrc' & Hq' & _ & Hcur & Hmax).
    specialize (IH (state_after (run std_sort (disconnects 6)) s) Hrc' Hq').
    cbv zeta in IH. destruct IH as (I1 & I2 & I3 & I4 & I5).
    cbv zeta.
    replace (6 * (List.length (c :: q) + 1))%nat
      with (6 + 6 * (List.length q + 1))%nat by (cbn [List.length]; lia).
    rewrite disconnects_add.
    destruct (run_app std_sort (disconnects 6)
                (disconnects (6 * (List.length q + 1))) s) as [-> ->].
    revert H1 H2 H3 Hcur Hmax I1 I2 I3 I4 I5. clear Hrc' Hq'.
    generalize (state_after (run std_sort (disconnects 6)) s) as s6.
    generalize (effects_of (run std_sort (disconnects 6)) s) as e6.
    intros e6 s6 H1 H2 H3 Hcur Hmax.
    generalize (state_after (run std_sort (disconnects (6 * (List.length q + 1)))) s6) as s'.
    generalize (effects_of (run std_sort (disconnects (6 * (List.length q + 1)))) s6) as e'.
    intros e' s' I1 I2 I3 I4 I5.
    rewrite !configurations_app, !connect_commands_app, !timer_starts_app, map_app.
    rewrite H1, H2, H3, I1, I2, I3, I4, I5, Hcur, Hmax.
    split; [reflexivity|].
    split; [|repeat split].
    rewrite <- repeat_app. f_equal. cbn [List.length]. lia.
Qed.

End QueueWalk.

Lemma failing_candidates_tried_in_queue_order_witness :
  let q := [make_record home_item home_ap_1] in
  let s := state_after StartConnect
             (set_connect_queue_ (make_record cafe_item cafe_ap :: q) sample_station) in
  let r := run stable_sort_desc (disconnects (6 * (List.length q + 1))) in
  map StaConfig.ssid (configurations (effects_of r s)) = ["Home"%string] /\
  connect_commands (effects_of r s) = repeat esp_wifi_connect 11.
Proof.
  cbv zeta.
  pose proof (failing_candidates_tried_in_queue_order stable_sort_desc
                [make_record home_item home_ap_1]
                (state_after StartConnect
                   (set_connect_queue_
                      [make_record cafe_item cafe_ap; make_record home_item home_ap_1]
                      sample_station))
                eq_refl eq_refl) as H.
  cbv zeta in H. destruct H as (H1 & H2 & _).
  split; [exact H1 | exact H2].
Defined.

(** ** Connection, loss and the scan timer *)

(** The members the IP-acquired handler assigns. *)
Lemma IpEventHandler_state (s : WifiStation) (ip_address : string) :
  state_after (IpEventHandler ip_address) s =
  set_scan_current_interval_microseconds_ (scan_min_interval_microseconds_ s)
    (set_connect_queue_ []
       (set_reconnect_count_ 0
          (set_was_connected_ true
             (set_event_group_ (Z.lor (event_group_ s) WIFI_EVENT_CONNECTED)
                (set_ip_address_ ip_address s))))).
Proof.
  destruct (on_connected_ s) eqn:Hcb, (needs_portal_login_ s) eqn:Hportal; destruct s;
    cbn in Hcb, Hportal; subst; cbv -[Z.lor]; reflexivity.
Qed.

Lemma timer_callback_run (s : WifiStation) :
  WiFiScanTimer_callback s =
  (tt, s, if Z.testbit (event_group_ s) 0 then [] else [esp_wifi_scan_start]).
Proof.
  unfold WiFiScanTimer_callback, IsConnected. unfold_cmd. cbn [fst snd].
  rewrite connected_bit. now destruct (Z.testbit (event_group_ s) 0).
Qed.

Section ConnectionLoss.

Variable std_sort : list wifi_ap_record_t -> list wifi_ap_record_t.

Let on_disconnect : Cmd unit := WifiEventHandler std_sort WIFI_EVENT_STA_DISCONNECTED.

(** A disconnect leaves the connected bit cleared. *)
Lemma disconnect_clears_connected (s : WifiStation) :
  Z.testbit (event_group_ (state_after on_disconnect s)) 0 = false.
Proof.
  assert (Hd : Z.testbit (event_group_ (disconnected s)) 0 = false).
  { change (event_group_ (disconnected s))
      with (Z.ldiff (event_group_ s) WIFI_EVENT_CONNECTED).
    rewrite Z.ldiff_spec. apply andb_false_r. }
  destruct (disconnect_step std_sort s) as [_ Hs]. fold on_disconnect in Hs. rewrite Hs.
  destruct (reconnect_count_ s <? MAX_RECONNECT_COUNT); [exact Hd|].
  destruct (connect_queue_ s) as [|c q] eqn:Eq; cbn [vec_empty].
  - rewrite UpdateScanInterval_state. exact Hd.
  - assert (Hq : connect_queue_ (disconnected s) = c :: q) by exact Eq.
    destruct (StartConnect_state c q (disconnected s) Hq)
      as (_ & _ & _ & _ & _ & _ & _ & _ & _ & _ & Hg & _).
    rewrite Hg. exact Hd.
Qed.

(** X5.  When an established connection is lost and stays lost, the station
    reconnects to the same network five times and then falls back to timed
    rescans: no candidate of the scan that led to the connection is tried any
    more, the timer is started with the configured minimum interval, and the
    device layer is told once. *)
Theorem lost_connection_retried_then_rescanned (s : WifiStation) (ip_address : string) :
  let connected := state_after (IpEventHandler ip_address) s in
  let r := run std_sort (disconnects 6) in
  driver_commands (effects_of r connected) =
    repeat esp_wifi_connect 5 ++
    [esp_timer_start_once (to_uint64 (scan_min_interval_microseconds_ s))] /\
  disconnected_notices (effects_of r connected) =
    (if on_disconnected_ s then [on_disconnected] else []) /\
  ssid_ (state_after r connected) = ssid_ s /\
  connect_queue_ (state_after r connected) = [] /\
  scan_current_interval_microseconds_ (state_after r connected) =
    next_interval (scan_min_interval_microseconds_ s) (scan_max_interval_microseconds_ s).
Proof.
  intros connected r.
  assert (Hfields : reconnect_count_ connected = 0 /\ connect_queue_ connected = [] /\
                    was_connected_ connected = true /\
                    on_disconnected_ connected = on_disconnected_ s /\
                    ssid_ connected = ssid_ s /\
                    scan_current_interval_microseconds_ connected =
                      scan_min_interval_microseconds_ s /\
                    scan_max_interval_microseconds_ connected =
                      scan_max_interval_microseconds_ s)
    by (subst connected; rewrite IpEventHandler_state; repeat split).
  destruct Hfields as (Hrc & Hq & Hw & Hcb & Hssid & Hcur & Hmax).
  assert (Hnotice : disconnected_notices (effects_of r connected) =
                    if on_disconnected_ s then [on_disconnected] else []).
  { subst r.
    change (disconnects 6) with (WifiEvent WIFI_EVENT_STA_DISCONNECTED :: disconnects 5).
    destruct (run_cons std_sort (WifiEvent WIFI_EVENT_STA_DISCONNECTED) (disconnects 5)
                connected) as [_ ->].
    change (step std_sort (WifiEvent WIFI_EVENT_STA_DISCONNECTED))
      with (WifiEventHandler std_sort WIFI_EVENT_STA_DISCONNECTED).
    rewrite disconnected_notices_app, disconnect_step_notices.
    rewrite no_notice_without_connection by apply disconnect_forgets_connection.
    rewrite app_nil_r. unfold disconnect_notice. now rewrite Hw, Hcb. }
  destruct (retries_within_budget std_sort 5 connected 0%nat Hrc ltac:(lia))
    as (He5 & Hrc5 & Hsame).
  destruct (run_six std_sort connected) as [Hs He]. fold r in Hs, He.
  clearbody r. revert He5 Hrc5 Hsame Hs He.
  generalize (state_after (run std_sort (disconnects 5)) connected) as s5.
  generalize (effects_of (run std_sort (disconnects 5)) connected) as e5.
  intros e5 s5 He5 Hrc5 Hsame Hs He.
  destruct Hsame as (Hq5 & Hssid5 & _ & _ & _ & _ & _ & Hmax5 & Hcur5).
  destruct (disconnect_step std_sort s5) as [Hde Hds].
  rewrite Hrc5, Hq5, Hq in Hde, Hds. cbn [vec_empty] in Hde, Hds.
  change (Z.of_nat (0 + 5) <? MAX_RECONNECT_COUNT) with false in Hde, Hds.
  rewrite UpdateScanInterval_state in Hds.
  rewrite Hs, He, Hds, Hde, !driver_commands_app, He5, driver_commands_notice.
  change (scan_current_interval_microseconds_ (disconnected s5))
    with (scan_current_interval_microseconds_ s5).
  change (scan_max_interval_microseconds_ (disconnected s5))
    with (scan_max_interval_microseconds_ s5).
  rewrite He, Hde in Hnotice. rewrite Hcur5, Hcur in Hnotice.
  rewrite Hcur5, Hmax5, Hcur, Hmax.
  split; [reflexivity|]. split; [exact Hnotice|].
  split; [change (ssid_ s5 = ssid_ s); now rewrite Hssid5|].
  split; [change (connect_queue_ s5 = []); now rewrite Hq5 | reflexivity].
Qed.

(** X6.  The scan timer never scans while the station is connected: fired
    after an IP acquisition it issues nothing, fired after a disconnect event
    it starts one scan; either way it assigns no member. *)
Theorem scan_timer_scans_only_when_disconnected (s : WifiStation) (ip_address : string) :
  effects_of WiFiScanTimer_callback (state_after (IpEventHandler ip_address) s) = [] /\
  effects_of WiFiScanTimer_callback (state_after on_disconnect s) = [esp_wifi_scan_start] /\
  forall s', state_after WiFiScanTimer_callback s' = s'.
Proof.
  assert (Hfired : forall s', effects_of WiFiScanTimer_callback s' =
                     if Z.testbit (event_group_ s') 0 then [] else [esp_wifi_scan_start])
    by (intros s'; unfold effects_of; now rewrite timer_callback_run).
  split; [|split].
  - rewrite Hfired, IpEventHandler_state.
    change (event_group_ _) with (Z.lor (event_group_ s) WIFI_EVENT_CONNECTED).
    rewrite Z.lor_spec, orb_true_r. reflexivity.
  - rewrite Hfired. now rewrite (disconnect_clears_connected s).
  - intros s'. unfold state_after. now rewrite timer_callback_run.
Qed.

End ConnectionLoss.

(** ** Scan completion *)

Lemma timer_then_update (microseconds : Z) (s : WifiStation) :
  effects_of (emit (esp_timer_start_once microseconds) ;; UpdateScanInterval) s =
    [esp_timer_start_once microseconds] /\
  state_after (emit (esp_timer_start_once microseconds) ;; UpdateScanInterval) s =
    set_scan_current_interval_microseconds_
      (next_interval (scan_current_interval_microseconds_ s)
         (scan_max_interval_microseconds_ s)) s.
Proof.
  unfold effects_of, state_after, bind, emit. cbn [fst snd].
  rewrite UpdateScanInterval_run. split; reflexivity.
Qed.

Lemma candidates_of_unknown (ssid_list : list SsidItem.t) (l : list wifi_ap_record_t) :
  (forall ap, In ap l -> is_known ssid_list ap = false) ->
  flat_map (candidates_of ssid_list) l = [].
Proof.
  induction l as [|ap rest IH]; intros H; [reflexivity|].
  cbn [flat_map]. rewrite IH by (intros ap' Hin; apply H; now right).
  pose proof (H ap (or_introl eq_refl)) as Hap.
  unfold is_known in Hap. unfold candidates_of.
  now destruct (find_known ssid_list ap).
Qed.

Section ScanCompletion.

Variable std_sort : list wifi_ap_record_t -> list wifi_ap_record_t.
Hypothesis std_sort_ok : std_sort_contract std_sort.

Lemma no_known_no_candidates (ap_records : list wifi_ap_record_t)
    (ssid_list : list SsidItem.t) :
  (forall ap, In ap ap_records -> is_known ssid_list ap = false) ->
  ranked_queue std_sort ap_records ssid_list = [].
Proof.
  intros H. rewrite ranked_queue_flat_map. apply candidates_of_unknown.
  intros ap Hin. apply H.
  apply (Permutation_in ap (Permutation_sym (sort_permutes _ std_sort_ok ap_records))).
  exact Hin.
Qed.

(** X7.  A scan in which no result matches a known network (in particular a
    scan without results) issues nothing but one start of the scan timer,
    with the interval as it was before the scan; only afterwards is the
    interval advanced.  No connection is attempted and no callback is called;
    the queue is emptied, except that a scan without results leaves it as it
    was. *)
Theorem unproductive_scan_only_arms_timer
    (ap_records : list wifi_ap_record_t) (ssid_list : list SsidItem.t) (s : WifiStation) :
  (forall ap, In ap ap_records -> is_known ssid_list ap = false) ->
  let scan := HandleScanResult std_sort ap_records ssid_list in
  effects_of scan s =
    [esp_timer_start_once (to_uint64 (scan_current_interval_microseconds_ s))] /\
  connect_queue_ (state_after scan s) =
    (if vec_empty ap_records then connect_queue_ s else []) /\
  ssid_ (state_after scan s) = ssid_ s /\
  reconnect_count_ (state_after scan s) = reconnect_count_ s /\
  scan_current_interval_microseconds_ (state_after scan s) =
    next_interval (scan_current_interval_microseconds_ s) (scan_max_interval_microseconds_ s).
Proof.
  intros Hunknown scan. subst scan.
  destruct ap_records as [|ap rest].
  - unfold HandleScanResult. cbn [List.length Nat.eqb vec_empty].
    rewrite effects_of_bind, state_after_bind.
    change (state_after get s) with s. change (effects_of get s) with (@nil Effect).
    change (value_of get s) with s. cbn [app].
    destruct (timer_then_update (to_uint64 (scan_current_interval_microseconds_ s)) s)
      as [-> ->].
    repeat split.
  - assert (Hne : ap :: rest <> []) by discriminate.
    destruct (HandleScanResult_ranks std_sort (ap :: rest) ssid_list s Hne) as [Hs He].
    cbv zeta in Hs, He. rewrite Hs, He.
    rewrite (no_known_no_candidates (ap :: rest) ssid_list Hunknown).
    cbn [vec_empty].
    destruct (timer_then_update (to_uint64 (scan_current_interval_microseconds_ s))
                (set_connect_queue_ [] s)) as [-> ->].
    repeat split.
Qed.

(** X8.  A scan with a known network among its results starts exactly one
    connection attempt and no timer: the driver is configured for a known
    result that no other known result of the scan exceeds in signal strength,
    joined with the first store entry of its ssid; that entry's ssid becomes
    the current one and the retry counter is zero. *)
Theorem productive_scan_connects_to_strongest
    (ap_records : list wifi_ap_record_t) (ssid_list : list SsidItem.t) (s : WifiStation) :
  (exists ap, In ap ap_records /\ is_known ssid_list ap = true) ->
  exists ap item,
    In ap ap_records /\
    find_known ssid_list ap = Some item /\
    (forall other, In other ap_records -> is_known ssid_list other = true ->
                   ApInfo.rssi other <= ApInfo.rssi ap) /\
    let scan := HandleScanResult std_sort ap_records ssid_list in
    configurations (effects_of scan s) =
      [station_config (remember_bssid_ s) (make_record item ap)] /\
    connect_commands (effects_of scan s) = [esp_wifi_connect] /\
    timer_starts (effects_of scan s) = [] /\
    ssid_ (state_after scan s) = SsidItem.ssid item /\
    reconnect_count_ (state_after scan s) = 0.
Proof.
  intros (known & Hin & Hknown).
  destruct std_sort_ok as [Hperm Hsorted].
  assert (Hne : ap_records <> []) by (intros ->; contradiction).
  assert (Hmatched : In known (filter (is_known ssid_list) (std_sort ap_records))).
  { apply filter_In. split; [|exact Hknown].
    apply (Permutation_in known (Hperm ap_records)). exact Hin. }
  assert (Hordered : StronglySorted (fun a b => ApInfo.rssi b <= ApInfo.rssi a)
                       (filter (is_known ssid_list) (std_sort ap_records))).
  { apply StronglySorted_filter.
    apply StronglySorted_weaken with (R := fun a b => rssi_greater b a = false);
      [|apply Hsorted].
    intros a b H. now apply rssi_greater_false. }
  destruct (filter (is_known ssid_list) (std_sort ap_records)) as [|ap matched] eqn:Ematched;
    [contradiction|].
  assert (Hap : In ap ap_records /\ is_known ssid_list ap = true).
  { assert (H : In ap (filter (is_known ssid_list) (std_sort ap_records)))
      by (rewrite Ematched; now left).
    apply filter_In in H. destruct H as [H1 H2]. split; [|exact H2].
    apply (Permutation_in ap (Permutation_sym (Hperm ap_records))). exact H1. }
  destruct Hap as [Hap_in Hap_known].
  destruct (find_known ssid_list ap) as [item|] eqn:Efind;
    [|unfold is_known in Hap_known; rewrite Efind in Hap_known; discriminate].
  destruct (ranked_queue_head std_sort ap_records ssid_list ap matched item Ematched Efind)
    as [q Hq].
  exists ap, item.
  split; [exact Hap_in|]. split; [exact Efind|]. split.
  - intros other Hother Hother_known.
    assert (H : In other (ap :: matched)).
    { rewrite <- Ematched. apply filter_In. split; [|exact Hother_known].
      apply (Permutation_in other (Hperm ap_records)). exact Hother. }
    destruct H as [<- | H]; [lia|].
    apply StronglySorted_inv in Hordered. destruct Hordered as [_ Hall].
    rewrite Forall_forall in Hall. now apply Hall.
  - destruct (HandleScanResult_ranks std_sort ap_records ssid_list s Hne) as [Hs He].
    cbv zeta in Hs, He. cbv zeta. rewrite Hs, He, Hq. cbn [vec_empty].
    assert (Hqueue : connect_queue_ (set_connect_queue_ (make_record item ap :: q) s) =
                     make_record item ap :: q) by reflexivity.
    destruct (StartConnect_readings _ _ _ Hqueue) as (R1 & R2 & R3 & _).
    destruct (StartConnect_state _ _ _ Hqueue) as (_ & Hssid & _ & Hrc & _).
    rewrite R1, R2, R3, Hssid, Hrc.
    repeat split.
Qed.

End ScanCompletion.

Lemma productive_scan_connects_to_strongest_witness :
  exists ap item,
    In ap [other_ap; cafe_ap] /\
    find_known [cafe_item] ap = Some item /\
    (forall other, In other [other_ap; cafe_ap] -> is_known [cafe_item] other = true ->
                   ApInfo.rssi other <= ApInfo.rssi ap) /\
    let scan := HandleScanResult stable_sort_desc [other_ap; cafe_ap] [cafe_item] in
    configurations (effects_of scan sample_station) =
      [station_config (remember_bssid_ sample_station) (make_record item ap)] /\
    connect_commands (effects_of scan sample_station) = [esp_wifi_connect] /\
    timer_starts (effects_of scan sample_station) = [] /\
    ssid_ (state_after scan sample_station) = SsidItem.ssid item /\
    reconnect_count_ (state_after scan sample_station) = 0.
Proof.
  apply (productive_scan_connects_to_strongest stable_sort_desc stable_sort_desc_contract
           [other_ap; cafe_ap] [cafe_item] sample_station).
  exists cafe_ap. split; [right; left; reflexivity | reflexivity].
Defined.

Lemma unproductive_scan_only_arms_timer_witness :
  effects_of (HandleScanResult stable_sort_desc [other_ap] [cafe_item]) sample_station =
    [esp_timer_start_once
       (to_uint64 (scan_current_interval_microseconds_ sample_station))].
Proof.
  apply (unproductive_scan_only_arms_timer stable_sort_desc stable_sort_desc_contract
           [other_ap] [cafe_item] sample_station).
  intros ap [<- | []]. reflexivity.
Defined.

(** ** The station configuration of a connection attempt *)

Lemma substring_0_length (n : nat) (s : string) :
  (String.length (substring 0 n s) <= n)%nat.
Proof.
  revert s. induction n as [|n IH]; intros [|c s]; cbn; try lia.
  specialize (IH s). lia.
Qed.

Lemma substring_0_all (n : nat) (s : string) :
  (String.length s <= n)%nat -> substring 0 n s = s.
Proof.
  revert s. induction n as [|n IH]; intros [|c s]; cbn; intros H;
    try reflexivity; try lia.
  now rewrite IH by lia.
Qed.

Lemma strlcpy_whole (src : string) (size : nat) :
  nul_free src = true -> (String.length src < size)%nat -> strlcpy src size = src.
Proof.
  intros Hnul Hlen. unfold strlcpy. rewrite (c_str_nul_free src Hnul).
  apply substring_0_all. lia.
Qed.

(** X9.  For every popped candidate [StartConnect] hands the driver one
    station configuration: the ssid and the password fit their 32- and
    64-byte fields with the terminator (a longer one is cut, a fitting one
    without NUL is copied whole); no password is configured for an enterprise
    candidate or an open network; and the access point is pinned (channel and
    bssid copied, [bssid_set]) exactly when [remember_bssid_] is non-zero,
    the three fields staying zero otherwise. *)
Theorem connect_configuration_fields
    (c : WifiApRecord.t) (q : list WifiApRecord.t) (s : WifiStation) :
  connect_queue_ s = c :: q ->
  exists config,
    configurations (effects_of StartConnect s) = [config] /\
    (String.length (StaConfig.ssid config) <= 31)%nat /\
    (String.length (StaConfig.password config) <= 63)%nat /\
    (nul_free (WifiApRecord.ssid c) = true ->
     (String.length (WifiApRecord.ssid c) <= 31)%nat ->
     StaConfig.ssid config = WifiApRecord.ssid c) /\
    (is_enterprise c = true \/ WifiApRecord.authmode c = WIFI_AUTH_OPEN ->
     StaConfig.password config = EmptyString) /\
    (is_enterprise c = false -> WifiApRecord.authmode c <> WIFI_AUTH_OPEN ->
     StaConfig.password config = strlcpy (WifiApRecord.password c) 64) /\
    (remember_bssid_ s = 0 ->
     StaConfig.bssid_set config = false /\ StaConfig.channel config = 0 /\
     StaConfig.bssid config = repeat Byte.x00 6) /\
    (remember_bssid_ s <> 0 ->
     StaConfig.bssid_set config = true /\
     StaConfig.channel config = WifiApRecord.channel c /\
     StaConfig.bssid config = WifiApRecord.bssid c) /\
    StaConfig.listen_interval config = 3.
Proof.
  intros Hq. exists (station_config (remember_bssid_ s) c).
  destruct (StartConnect_readings c q s Hq) as (Hconfig & _).
  split; [exact Hconfig|].
  unfold station_config. cbn [StaConfig.ssid StaConfig.password StaConfig.bssid_set
                              StaConfig.channel StaConfig.bssid StaConfig.listen_interval].
  split; [apply (substring_0_length 31)|].
  split.
  { destruct (negb (is_enterprise c) &&
              negb (authmode_eqb (WifiApRecord.authmode c) WIFI_AUTH_OPEN));
      [apply (substring_0_length 63) | cbn; lia]. }
  split; [intros Hnul Hlen; apply strlcpy_whole; [exact Hnul | lia]|].
  split.
  { intros [Hent | Hopen].
    - now rewrite Hent.
    - rewrite Hopen. cbn [authmode_eqb negb]. now rewrite andb_false_r. }
  split.
  { intros Hent Hopen. rewrite Hent. cbn [negb andb].
    destruct (authmode_eqb (WifiApRecord.authmode c) WIFI_AUTH_OPEN) eqn:E;
      [|reflexivity].
    apply authmode_eqb_eq in E. contradiction. }
  split.
  { intros ->. repeat split. }
  split; [|reflexivity].
  intros Hpin. apply Z.eqb_neq in Hpin. rewrite Hpin. repeat split.
Qed.

Lemma connect_configuration_fields_witness :
  exists config,
    configurations
      (effects_of StartConnect
         (set_connect_queue_ [make_record home_item home_ap_1] sample_station)) = [config] /\
    StaConfig.ssid config = "Home"%string /\
    StaConfig.password config = "secret"%string.
Proof.
  destruct (connect_configuration_fields (make_record home_item home_ap_1) []
              (set_connect_queue_ [make_record home_item home_ap_1] sample_station)
              eq_refl)
    as (config & Hconfig & _ & _ & Hssid & _ & Hpassword & _).
  exists config. split; [exact Hconfig|]. split.
  - apply Hssid; [reflexivity | cbn; lia].
  - rewrite Hpassword; [reflexivity | reflexivity | discriminate].
Defined.

(** ** Start and stop *)

Lemma Start_state (s : WifiStation) :
  state_after Start s =
  set_timer_handle_ true
    (set_instance_got_ip_ true
       (set_instance_any_id_ true
          (set_station_netif_ true
             (set_event_group_
                (Z.ldiff (event_group_ s)
                   (Z.lor WIFI_EVENT_STOPPED WIFI_EVENT_SCAN_DONE_BIT)) s)))).
Proof.
  destruct (max_tx_power_ s) as [|p|p] eqn:E; destruct s; cbn in E; subst; reflexivity.
Qed.

Lemma Start_effects (s : WifiStation) :
  effects_of Start s =
  [esp_netif_create_default_wifi_sta;
   esp_event_handler_instance_register WIFI_EVENT;
   esp_event_handler_instance_register IP_EVENT;
   esp_wifi_set_mode_sta; esp_wifi_start] ++
  (if max_tx_power_ s =? 0 then [] else [esp_wifi_set_max_tx_power (max_tx_power_ s)]) ++
  [esp_timer_create].
Proof.
  destruct (max_tx_power_ s) as [|p|p] eqn:E; destruct s; cbn in E; subst; reflexivity.
Qed.

(** X10.  [Stop] releases what [Start] acquired.  Whatever the station was
    before, [Start] leaves all four handles set and the stopped bit cleared,
    and a [Stop] after it unregisters both event handlers, stops and deletes
    the scan timer, stops scan, connection and radio, and destroys the
    network interface, in that order; afterwards no handle is left and the
    station is stopped and not connected. *)
Theorem stop_releases_what_start_acquired (s : WifiStation) :
  let started := state_after Start s in
  let stopped := state_after Stop started in
  (instance_any_id_ started = true /\ instance_got_ip_ started = true /\
   timer_handle_ started = true /\ station_netif_ started = true /\
   Z.testbit (event_group_ started) 1 = false) /\
  effects_of Stop started =
    [esp_event_handler_instance_unregister WIFI_EVENT;
     esp_event_handler_instance_unregister IP_EVENT;
     esp_timer_stop; esp_timer_delete;
     esp_wifi_scan_stop; esp_wifi_disconnect; esp_wifi_stop;
     esp_netif_destroy_default_wifi] /\
  (instance_any_id_ stopped = false /\ instance_got_ip_ stopped = false /\
   timer_handle_ stopped = false /\ station_netif_ stopped = false /\
   was_connected_ stopped = false /\
   Z.testbit (event_group_ stopped) 0 = false /\
   Z.testbit (event_group_ stopped) 1 = true).
Proof.
  intros started stopped. subst stopped started.
  rewrite Stop_effects, Stop_state, Start_state. destruct s. reduce_members.
  split; [|split; [reflexivity|]].
  - repeat split. rewrite Z.ldiff_spec.
    change (Z.testbit (Z.lor WIFI_EVENT_STOPPED WIFI_EVENT_SCAN_DONE_BIT) 1) with true.
    apply andb_false_r.
  - repeat split.
    + rewrite Z.lor_spec, Z.ldiff_spec.
      change (Z.testbit WIFI_EVENT_CONNECTED 0) with true.
      change (Z.testbit WIFI_EVENT_STOPPED 0) with false.
      now rewrite andb_false_r.
    + rewrite Z.lor_spec.
      change (Z.testbit WIFI_EVENT_STOPPED 1) with true.
      apply orb_true_r.
Qed.

(** ** Callbacks *)

Lemma registered_same (s s' : WifiStation) (effects : list Effect) :
  registrations s' = registrations s ->
  forallb (registered s') effects = forallb (registered s) effects.
Proof.
  unfold registrations. intros H. injection H as H1 H2 H3 H4.
  induction effects as [|e rest IH]; [reflexivity|].
  cbn [forallb]. rewrite IH. f_equal.
  destruct e; cbn [registered]; congruence.
Qed.

Lemma StartConnect_callbacks (s : WifiStation) :
  registrations (state_after StartConnect s) = registrations s /\
  forallb (registered s) (effects_of StartConnect s) = true.
Proof.
  destruct (connect_queue_ s) as [|c q] eqn:Hq.
  - destruct (StartConnect_empty s Hq) as [-> ->]. split; reflexivity.
  - destruct (on_connect_ s) eqn:E; destruct s; cbn in E, Hq; subst;
      destruct c as [ssid pw user ch auth mac];
      destruct user, auth; split; reflexivity.
Qed.

Section Callbacks.

Variable std_sort : list wifi_ap_record_t -> list wifi_ap_record_t.

Lemma HandleScanResult_callbacks (ap_records : list wifi_ap_record_t)
    (ssid_list : list SsidItem.t) (s : WifiStation) :
  registrations (state_after (HandleScanResult std_sort ap_records ssid_list) s) =
    registrations s /\
  forallb (registered s) (effects_of (HandleScanResult std_sort ap_records ssid_list) s) = true.
Proof.
  destruct ap_records as [|ap rest].
  - unfold HandleScanResult. cbn [List.length Nat.eqb].
    rewrite effects_of_bind, state_after_bind.
    change (state_after get s) with s. change (effects_of get s) with (@nil Effect).
    change (value_of get s) with s. cbn [app].
    destruct (timer_then_update (to_uint64 (scan_current_interval_microseconds_ s)) s)
      as [-> ->].
    split; reflexivity.
  - assert (Hne : ap :: rest <> []) by discriminate.
    destruct (HandleScanResult_ranks std_sort (ap :: rest) ssid_list s Hne) as [Hs He].
    cbv zeta in Hs, He. rewrite Hs, He.
    generalize (ranked_queue std_sort (ap :: rest) ssid_list) as ranked.
    intros [|c q]; cbn [vec_empty].
    + destruct (timer_then_update (to_uint64 (scan_current_interval_microseconds_ s))
                  (set_connect_queue_ [] s)) as [-> ->].
      split; reflexivity.
    + destruct (StartConnect_callbacks (set_connect_queue_ (c :: q) s)) as [H1 H2].
      rewrite H1. split; [reflexivity|].
      rewrite <- H2. symmetry. now apply registered_same.
Qed.

Lemma step_callbacks (input : Input) (s : WifiStation) :
  registrations (state_after (step std_sort input) s) = registrations s /\
  forallb (registered s) (effects_of (step std_sort input) s) = true.
Proof.
  destruct input as [event|ip| |lo hi| |]; cbn [step].
  - destruct event as [|aps known| |].
    + destruct (on_scan_begin_ s) eqn:E; destruct s; cbn in E; subst; split; reflexivity.
    + unfold WifiEventHandler. rewrite state_after_bind, effects_of_bind.
      change (effects_of (xEventGroupSetBits WIFI_EVENT_SCAN_DONE_BIT) s)
        with (@nil Effect).
      cbn [app].
      destruct (HandleScanResult_callbacks aps known
                  (state_after (xEventGroupSetBits WIFI_EVENT_SCAN_DONE_BIT) s))
        as [H1 H2].
      change (value_of (xEventGroupSetBits WIFI_EVENT_SCAN_DONE_BIT) s) with tt.
      rewrite H1. split; [reflexivity|].
      rewrite <- H2. symmetry. now apply registered_same.
    + destruct (disconnect_step std_sort s) as [He Hs]. rewrite He, Hs.
      rewrite forallb_app.
      assert (Hnotice : forallb (registered s) (disconnect_notice s) = true).
      { unfold disconnect_notice.
        destruct (was_connected_ s); [|reflexivity].
        destruct (on_disconnected_ s) eqn:E; [|reflexivity].
        cbn. now rewrite E. }
      rewrite Hnotice. cbn [andb].
      destruct (reconnect_count_ s <? MAX_RECONNECT_COUNT); [split; reflexivity|].
      destruct (vec_empty (connect_queue_ s)).
      * rewrite UpdateScanInterval_state. split; reflexivity.
      * destruct (StartConnect_callbacks (disconnected s)) as [H1 H2].
        rewrite H1. split; [reflexivity|].
        rewrite <- H2. symmetry. now apply registered_same.
    + split; reflexivity.
  - rewrite IpEventHandler_effects, IpEventHandler_state. split; [reflexivity|].
    rewrite forallb_app.
    destruct (on_connected_ s) eqn:E; cbn; rewrite ?E;
      now destruct (needs_portal_login_ s).
  - unfold state_after, effects_of. rewrite timer_callback_run. cbn [fst snd].
    split; [reflexivity|]. now destruct (Z.testbit (event_group_ s) 0).
  - split; reflexivity.
  - rewrite Start_state, Start_effects. split; [reflexivity|].
    now destruct (max_tx_power_ s =? 0).
  - rewrite Stop_state, Stop_effects. split; [reflexivity|].
    now destruct (instance_any_id_ s), (instance_got_ip_ s), (timer_handle_ s),
      (station_netif_ s).
Qed.

(** X11.  Whatever events, timer firings and calls of [SetScanIntervalRange],
    [Start] and [Stop] a station goes through, it never calls a callback the
    device layer has not registered (an empty [std::function] is never
    invoked), and it leaves the registrations as they are. *)
Theorem unregistered_callbacks_never_called (inputs : list Input) (s : WifiStation) :
  forallb (registered s) (effects_of (run std_sort inputs) s) = true /\
  registrations (state_after (run std_sort inputs) s) = registrations s.
Proof.
  revert s. induction inputs as [|input rest IH]; intros s; [split; reflexivity|].
  destruct (run_cons std_sort input rest s) as [-> ->].
  destruct (step_callbacks input s) as [Hflags Hcalls].
  destruct (IH (state_after (step std_sort input) s)) as [IHcalls IHflags].
  rewrite (registered_same _ _ _ Hflags) in IHcalls.
  rewrite forallb_app, Hcalls, IHcalls, IHflags, Hflags. split; reflexivity.
Qed.

End Callbacks.

(** ** The portal task as a whole *)

Lemma substring_app_r (a b : string) :
  substring (String.length a) (String.length b) (a ++ b) = b.
Proof.
  induction a as [|c a IH]; cbn [String.length append substring].
  - now apply substring_0_all.
  - exact IH.
Qed.

Lemma contains_app_r (a b : string) : b <> EmptyString -> contains (a ++ b) b = true.
Proof.
  intros Hne. unfold contains.
  destruct (String.index 0 b (a ++ b)) as [m|] eqn:E; [reflexivity|].
  exfalso.
  apply (index_correct3 0 (String.length a) b (a ++ b) E Hne (Nat.le_0_l _)).
  apply substring_app_r.
Qed.

Lemma post_url_contains_login (url : string) : contains (post_url_of url) "login" = true.
Proof.
  unfold post_url_of. destruct (contains url "login") eqn:E; cbn [negb]; [exact E|].
  destruct (Ascii.eqb (back url) "/").
  - now apply contains_app_r.
  - change (url ++ "/login")%string with (url ++ ("/" ++ "login"))%string.
    rewrite <- string_app_assoc. now apply contains_app_r.
Qed.

Lemma probe_kinds :
  contains MIUI_PROBE "generate_204" = true /\
  contains APPLE_PROBE "generate_204" = false /\
  contains APPLE_PROBE "captive.apple.com" = true.
Proof. repeat split; reflexivity. Qed.

Lemma redirect_codes (code : Z) :
  (code =? 302) || (code =? 301) = true <-> code = 302 \/ code = 301.
Proof. rewrite orb_true_iff, !Z.eqb_eq. reflexivity. Qed.

(** The probes the task sends. *)
Lemma detect_login_url_probes (env : PortalEnv) (current_ssid : string) :
  fst (detect_login_url env current_ssid) =
  if fst (check_redirect env MIUI_PROBE (mkDetection EmptyString false))
  then [GET MIUI_PROBE] else [GET MIUI_PROBE; GET APPLE_PROBE].
Proof.
  unfold detect_login_url.
  destruct (check_redirect env MIUI_PROBE (mkDetection EmptyString false)) as [f1 d1].
  destruct f1; cbn [negb fst]; [reflexivity|].
  now destruct (check_redirect env APPLE_PROBE d1) as [f2 d2].
Qed.

(** X12.  Whatever the network answers, the portal task sends at most
    three requests: first the GET of the 204 probe, then possibly the GET of
    the Apple probe, and last at most one POST; the POST carries the two
    fixed headers and the credentials of the session as body, and its URL
    contains "login".  The credentials appear in no other request. *)
Theorem portal_task_shape (env : PortalEnv) (ctx : PortalLoginCtx.t) :
  exists probes posts,
    PortalLoginTask env ctx = probes ++ posts /\
    (probes = [GET MIUI_PROBE] \/ probes = [GET MIUI_PROBE; GET APPLE_PROBE]) /\
    (posts = [] \/
     exists url,
       posts = [POST url login_headers
                  (login_body (PortalLoginCtx.username ctx) (PortalLoginCtx.password ctx))] /\
       contains url "login" = true).
Proof.
  unfold PortalLoginTask.
  pose proof (detect_login_url_probes env (PortalLoginCtx.ssid ctx)) as Hprobes.
  destruct (detect_login_url env (PortalLoginCtx.ssid ctx)) as [probes url].
  cbn [fst] in Hprobes.
  exists probes,
    (login_post url (PortalLoginCtx.username ctx) (PortalLoginCtx.password ctx)).
  split; [reflexivity|]. split.
  - rewrite Hprobes. destruct (fst _); [now left | now right].
  - unfold login_post. destruct (empty url); cbn [negb]; [now left|].
    right. exists (post_url_of url). split; [reflexivity|].
    apply post_url_contains_login.
Qed.

(** What a probe that finds nothing leaves behind, and what one that finds
    something has found. *)
Lemma resolve_login_result (env : PortalEnv) (host : string) (d : Detection) :
  is_hijacked_200 (snd (resolve_login env host d)) = true /\
  if fst (resolve_login env host d)
  then exists a, gethostbyname env host = Some a /\
                 local_prefix (inet_ntoa a) = true /\
                 login_url (snd (resolve_login env host d)) =
                   ("http://" ++ inet_ntoa a ++ "/login")%string
  else login_url (snd (resolve_login env host d)) = login_url d.
Proof.
  unfold resolve_login.
  destruct (gethostbyname env host) as [a|]; [|split; reflexivity].
  destruct (local_prefix (inet_ntoa a)) eqn:E; cbn [fst snd login_url is_hijacked_200];
    split; try reflexivity.
  exists a. repeat split. exact E.
Qed.

Lemma check_redirect_result (env : PortalEnv) (current_ssid : string)
    (probe host : string) (d : Detection) :
  In (probe, host) [(MIUI_PROBE, "connect.rom.miui.com"%string);
                    (APPLE_PROBE, "captive.apple.com"%string)] ->
  (is_hijacked_200 (snd (check_redirect env probe d)) = true ->
   is_hijacked_200 d = true \/
   perform_ok (http_get env probe) = true /\ status_code (http_get env probe) = 200) /\
  if fst (check_redirect env probe d)
  then login_url_origin env current_ssid (login_url (snd (check_redirect env probe d)))
  else login_url (snd (check_redirect env probe d)) = login_url d.
Proof.
  intros Hin.
  assert (Hprobe : In probe [MIUI_PROBE; APPLE_PROBE]).
  { destruct Hin as [[= <- _] | [[= <- _] | []]]; [now left | right; now left]. }
  assert (Hbody :
    check_redirect env probe d =
    let r := http_get env probe in
    if perform_ok r then
      if (status_code r =? 302) || (status_code r =? 301) then
        match location_header r with
        | Some loc => (true, mkDetection loc (is_hijacked_200 d))
        | None => (false, d)
        end
      else if status_code r =? 200 then
        if String.eqb probe APPLE_PROBE &&
           (content_length r >? 0) && (content_length r <? 200)
        then (false, d)
        else resolve_login env host d
      else (false, d)
    else (false, d)).
  { destruct probe_kinds as (K1 & K2 & K3).
    destruct Hin as [[= <- <-] | [[= <- <-] | []]]; unfold check_redirect; cbv zeta.
    - rewrite K1. reflexivity.
    - rewrite K2, K3. reflexivity. }
  rewrite Hbody. cbv zeta.
  destruct (perform_ok (http_get env probe)) eqn:Hok; [|split; [now left | reflexivity]].
  destruct ((status_code (http_get env probe) =? 302) ||
            (status_code (http_get env probe) =? 301)) eqn:Hredirect.
  - apply redirect_codes in Hredirect.
    destruct (location_header (http_get env probe)) as [loc|] eqn:Hloc;
      cbn [fst snd login_url is_hijacked_200]; (split; [now left|]); [|reflexivity].
    now apply (from_redirect env current_ssid loc probe).
  - destruct (status_code (http_get env probe) =? 200) eqn:H200;
      [|split; [now left | reflexivity]].
    apply Z.eqb_eq in H200.
    destruct (String.eqb probe APPLE_PROBE && (content_length (http_get env probe) >? 0) &&
              (content_length (http_get env probe) <? 200));
      [split; [now left | reflexivity]|].
    split; [intros _; right; now split|].
    destruct (resolve_login_result env host d) as [_ Hresolved].
    destruct (fst (resolve_login env host d)); [|exact Hresolved].
    destruct Hresolved as (a & Hdns & Hlocal & Hurl).
    now apply (from_resolved_address env current_ssid _ probe host a).
Qed.

Lemma detect_login_url_origin (env : PortalEnv) (current_ssid : string) :
  snd (detect_login_url env current_ssid) = EmptyString \/
  login_url_origin env current_ssid (snd (detect_login_url env current_ssid)).
Proof.
  unfold detect_login_url.
  destruct (check_redirect_result env current_ssid MIUI_PROBE "connect.rom.miui.com"
              (mkDetection EmptyString false) (or_introl eq_refl)) as [Hflag1 Hfound1].
  destruct (check_redirect env MIUI_PROBE (mkDetection EmptyString false)) as [f1 d1].
  cbn [fst snd] in Hflag1, Hfound1.
  destruct f1; cbn [negb andb snd]; [now right|].
  destruct (check_redirect_result env current_ssid APPLE_PROBE "captive.apple.com"
              d1 (or_intror (or_introl eq_refl))) as [Hflag2 Hfound2].
  destruct (check_redirect env APPLE_PROBE d1) as [f2 d2].
  cbn [fst snd] in Hflag2, Hfound2.
  destruct f2; cbn [negb andb snd]; [now right|].
  assert (Hnone : login_url d2 = EmptyString) by (rewrite Hfound2; exact Hfound1).
  destruct (is_hijacked_200 d2 || contains current_ssid "BUPT") eqn:Hfallback;
    [|now left].
  destruct (String.eqb current_ssid "BUPT-portal" || String.eqb current_ssid "BUPT-mobile")
    eqn:Hbupt.
  - right. apply from_bupt_address; [|reflexivity].
    apply orb_true_iff in Hbupt. rewrite !String.eqb_eq in Hbupt. exact Hbupt.
  - destruct (gateway env) as [gw|] eqn:Hgw; [|now left].
    right. apply (from_gateway env current_ssid _ gw); [|exact Hgw | reflexivity].
    apply orb_true_iff in Hfallback. destruct Hfallback as [Hhijacked | Hssid];
      [|now left].
    right. destruct (Hflag2 Hhijacked) as [Hearlier | [Hok H200]].
    + destruct (Hflag1 Hearlier) as [Himpossible | [Hok H200]]; [discriminate|].
      exists MIUI_PROBE. split; [now left | now split].
    + exists APPLE_PROBE. split; [right; now left | now split].
Qed.

(** X13.  The credentials are posted nowhere but to a detected portal: the
    URL of every POST of the task is the login URL (with the login segment
    ensured) that came from the Location header of a redirected probe, from
    the prefix-tested address a probe host resolved to after a probe was
    answered by 200, from the fixed BUPT address on the two BUPT networks, or
    from the gateway when a probe was answered by 200 or the ssid contains
    "BUPT". *)
Theorem credentials_posted_only_to_detected_portal
    (env : PortalEnv) (ctx : PortalLoginCtx.t)
    (url : string) (headers : list (string * string)) (body : string) :
  In (POST url headers body) (PortalLoginTask env ctx) ->
  exists login,
    url = post_url_of login /\ login <> EmptyString /\
    login_url_origin env (PortalLoginCtx.ssid ctx) login.
Proof.
  unfold PortalLoginTask.
  pose proof (detect_login_url_probes env (PortalLoginCtx.ssid ctx)) as Hprobes.
  pose proof (detect_login_url_origin env (PortalLoginCtx.ssid ctx)) as Horigin.
  destruct (detect_login_url env (PortalLoginCtx.ssid ctx)) as [probes login].
  cbn [fst snd] in Hprobes, Horigin.
  intros Hin. apply in_app_or in Hin. destruct Hin as [Hin | Hin].
  - rewrite Hprobes in Hin.
    destruct (fst _); cbn in Hin; repeat destruct Hin as [Hin | Hin];
      try discriminate; contradiction.
  - unfold login_post in Hin. destruct login as [|c rest]; [contradiction|].
    cbn [empty negb] in Hin. destruct Hin as [[= <- _ _] | []].
    exists (String c rest). split; [reflexivity|]. split; [discriminate|].
    destruct Horigin as [Hempty | Horigin]; [discriminate | exact Horigin].
Qed.

Lemma credentials_posted_only_to_detected_portal_witness :
  exists login,
    "http://192.168.1.1/login"%string = post_url_of login /\ login <> EmptyString /\
    login_url_origin env_private (PortalLoginCtx.ssid guest_ctx) login.
Proof.
  apply (credentials_posted_only_to_detected_portal env_private guest_ctx
           "http://192.168.1.1/login" login_headers "user=guest&pass=pw").
  right. left. reflexivity.
Defined.

(** X14.  On a network without captive portal the task sends its two probes
    and nothing else, so the credentials stay on the device: that is the
    case whenever the 204 probe fails or is answered by a status other than
    200, 301 and 302, the Apple probe fails, is answered by such a status, or
    by 200 with a body of 1 to 199 bytes, and the ssid does not contain
    "BUPT". *)
Theorem clean_network_sends_no_credentials (env : PortalEnv) (ctx : PortalLoginCtx.t) :
  let miui := http_get env MIUI_PROBE in
  let apple := http_get env APPLE_PROBE in
  perform_ok miui = false \/
    (status_code miui <> 200 /\ status_code miui <> 301 /\ status_code miui <> 302) ->
  perform_ok apple = false \/
    (status_code apple <> 200 /\ status_code apple <> 301 /\ status_code apple <> 302) \/
    (status_code apple = 200 /\ 0 < content_length apple < 200) ->
  contains (PortalLoginCtx.ssid ctx) "BUPT" = false ->
  PortalLoginTask env ctx = [GET MIUI_PROBE; GET APPLE_PROBE].
Proof.
  intros miui apple Hmiui Happle Hssid.
  assert (H1 : forall d, check_redirect env MIUI_PROBE d = (false, d)).
  { intros d. unfold check_redirect. cbv zeta. fold miui.
    destruct Hmiui as [-> | (N200 & N301 & N302)]; [reflexivity|].
    apply Z.eqb_neq in N200, N301, N302. rewrite N200, N301, N302.
    now destruct (perform_ok miui). }
  assert (H2 : forall d, check_redirect env APPLE_PROBE d = (false, d)).
  { intros d. unfold check_redirect. cbv zeta. fold apple.
    destruct probe_kinds as (_ & K2 & K3). rewrite K2, K3.
    destruct Happle as [-> | [(N200 & N301 & N302) | (E200 & Hlen)]]; [reflexivity| |].
    - apply Z.eqb_neq in N200, N301, N302. rewrite N200, N301, N302.
      now destruct (perform_ok apple).
    - rewrite E200. cbn [Z.eqb Pos.eqb orb].
      assert (Hgt : (content_length apple >? 0) = true) by (apply Z.gtb_lt; lia).
      assert (Hlt : (content_length apple <? 200) = true) by (apply Z.ltb_lt; lia).
      rewrite Hgt, Hlt. now destruct (perform_ok apple). }
  unfold PortalLoginTask, detect_login_url.
  rewrite H1. cbn [negb]. rewrite H2. cbn [negb is_hijacked_200 orb andb login_url].
  rewrite Hssid. reflexivity.
Qed.

Lemma clean_network_sends_no_credentials_witness :
  PortalLoginTask env_clean guest_ctx = [GET MIUI_PROBE; GET APPLE_PROBE].
Proof.
  apply (clean_network_sends_no_credentials env_clean guest_ctx).
  - right. cbn. repeat split; discriminate.
  - right. right. cbn. split; [reflexivity | lia].
  - reflexivity.
Defined.



(** ** From scan start to connection *)

Lemma callbacks_app (e1 e2 : list Effect) :
  callbacks (e1 ++ e2) = callbacks e1 ++ callbacks e2.
Proof. apply filter_app. Qed.

Lemma callbacks_of_StartConnect (c : WifiApRecord.t) (q : list WifiApRecord.t)
    (s : WifiStation) :
  connect_queue_ s = c :: q ->
  callbacks (effects_of StartConnect s) =
  if on_connect_ s then [on_connect (WifiApRecord.ssid c)] else [].
Proof.
  intros Hq. rewrite (StartConnect_effects c q s Hq).
  unfold enterprise_commands.
  destruct (on_connect_ s), (is_enterprise c); reflexivity.
Qed.

Lemma callbacks_of_IpEventHandler (s : WifiStation) (ip_address : string) :
  callbacks (effects_of (IpEventHandler ip_address) s) =
  if on_connected_ s then [on_connected (ssid_ s)] else [].
Proof.
  rewrite IpEventHandler_effects.
  destruct (on_connected_ s), (needs_portal_login_ s); reflexivity.
Qed.

Lemma station_start_run std_sort (s : WifiStation) :
  WifiEventHandler std_sort WIFI_EVENT_STA_START s =
  (tt, s, esp_wifi_scan_start :: if on_scan_begin_ s then [on_scan_begin] else []).
Proof.
  destruct (on_scan_begin_ s) eqn:E; destruct s; cbn in E; subst; reflexivity.
Qed.

Section Join.

Variable std_sort : list wifi_ap_record_t -> list wifi_ap_record_t.

Lemma run_single (input : Input) (s : WifiStation) :
  state_after (run std_sort [input]) s = state_after (step std_sort input) s /\
  effects_of (run std_sort [input]) s = effects_of (step std_sort input) s.
Proof.
  destruct (run_cons std_sort input [] s) as [-> ->].
  split; [reflexivity | apply app_nil_r].
Qed.

(** X16.  From the start of the radio to the connection the device layer
    hears, in this order and each only where a callback is registered: that
    a scan begins, that a connection to an ssid is attempted, and that the
    station is connected to that same ssid.  The ssid reported is the one of
    the store entry joined with the strongest known scan result. *)
Theorem join_reported_in_order
    (s : WifiStation) (ap_records : list wifi_ap_record_t) (ssid_list : list SsidItem.t)
    (ap : wifi_ap_record_t) (rest : list wifi_ap_record_t) (item : SsidItem.t)
    (ip_address : string) :
  ap_records <> [] ->
  filter (is_known ssid_list) (std_sort ap_records) = ap :: rest ->
  find_known ssid_list ap = Some item ->
  let join := run std_sort [WifiEvent WIFI_EVENT_STA_START;
                            WifiEvent (WIFI_EVENT_SCAN_DONE ap_records ssid_list);
                            IpEvent ip_address] in
  callbacks (effects_of join s) =
    (if on_scan_begin_ s then [on_scan_begin] else []) ++
    (if on_connect_ s then [on_connect (SsidItem.ssid item)] else []) ++
    (if on_connected_ s then [on_connected (SsidItem.ssid item)] else []) /\
  value_of IsConnected (state_after join s) = true /\
  ssid_ (state_after join s) = SsidItem.ssid item.
Proof.
  intros Hne Hf Hfind join. subst join.
  destruct (ranked_queue_head std_sort ap_records ssid_list ap rest item Hf Hfind)
    as [q Hranked].
  set (scan_done := WifiEvent (WIFI_EVENT_SCAN_DONE ap_records ssid_list)).
  destruct (run_cons std_sort (WifiEvent WIFI_EVENT_STA_START)
              [scan_done; IpEvent ip_address] s) as [-> ->].
  cbn [step].
  assert (Hstart_state : state_after (WifiEventHandler std_sort WIFI_EVENT_STA_START) s = s)
    by (unfold state_after; now rewrite station_start_run).
  assert (Hstart_effects :
            effects_of (WifiEventHandler std_sort WIFI_EVENT_STA_START) s =
            esp_wifi_scan_start :: if on_scan_begin_ s then [on_scan_begin] else [])
    by (unfold effects_of; now rewrite station_start_run).
  rewrite Hstart_state, Hstart_effects.
  destruct (run_cons std_sort scan_done [IpEvent ip_address] s) as [-> ->].
  destruct (run_single (IpEvent ip_address) (state_after (step std_sort scan_done) s))
    as [-> ->].
  subst scan_done. cbn [step]. unfold WifiEventHandler.
  rewrite state_after_bind, effects_of_bind.
  change (effects_of (xEventGroupSetBits WIFI_EVENT_SCAN_DONE_BIT) s) with (@nil Effect).
  change (value_of (xEventGroupSetBits WIFI_EVENT_SCAN_DONE_BIT) s) with tt.
  cbn [app].
  set (s1 := state_after (xEventGroupSetBits WIFI_EVENT_SCAN_DONE_BIT) s).
  destruct (HandleScanResult_ranks std_sort ap_records ssid_list s1 Hne) as [Hs He].
  cbv zeta in Hs, He. rewrite Hranked in Hs, He. cbn [vec_empty] in Hs, He.
  rewrite Hs, He. clear Hs He.
  set (c := make_record item ap).
  assert (Hq : connect_queue_ (set_connect_queue_ (c :: q) s1) = c :: q) by reflexivity.
  pose proof (callbacks_of_StartConnect c q _ Hq) as Hconnect.
  destruct (StartConnect_state c q _ Hq)
    as (_ & Hssid & _ & _ & _ & _ & _ & _ & _ & _ & _ & _ & Hcb).
  revert Hconnect Hssid Hcb.
  generalize (effects_of StartConnect (set_connect_queue_ (c :: q) s1)) as e2.
  generalize (state_after StartConnect (set_connect_queue_ (c :: q) s1)) as s2.
  intros s2 e2 Hconnect Hssid Hcb.
  change (on_connect_ (set_connect_queue_ (c :: q) s1)) with (on_connect_ s) in Hconnect.
  change (on_connected_ (set_connect_queue_ (c :: q) s1)) with (on_connected_ s) in Hcb.
  change (WifiApRecord.ssid c) with (SsidItem.ssid item) in Hconnect, Hssid.
  split; [|split].
  - change (esp_wifi_scan_start :: ?l) with ([esp_wifi_scan_start] ++ l).
    rewrite !callbacks_app, Hconnect, callbacks_of_IpEventHandler, Hcb, Hssid.
    now destruct (on_scan_begin_ s).
  - rewrite IsConnected_value, IpEventHandler_state.
    change (event_group_ _) with (Z.lor (event_group_ s2) WIFI_EVENT_CONNECTED).
    rewrite Z.lor_spec. apply orb_true_r.
  - rewrite IpEventHandler_state. exact Hssid.
Qed.

End Join.

Lemma join_reported_in_order_witness :
  callbacks
    (effects_of
       (run stable_sort_desc
          [WifiEvent WIFI_EVENT_STA_START;
           WifiEvent (WIFI_EVENT_SCAN_DONE [other_ap; cafe_ap] [cafe_item]);
           IpEvent "192.168.4.2"])
       (state_after (OnConnect ;; OnConnected) sample_station)) =
  (if on_scan_begin_ (state_after (OnConnect ;; OnConnected) sample_station)
   then [on_scan_begin] else []) ++ [on_connect "CafeWifi"] ++ [on_connected "CafeWifi"].
Proof.
  apply (join_reported_in_order stable_sort_desc
           (state_after (OnConnect ;; OnConnected) sample_station)
           [other_ap; cafe_ap] [cafe_item] cafe_ap [] cafe_item "192.168.4.2").
  - discriminate.
  - reflexivity.
  - reflexivity.
Defined.

(** * Properties of the board *)

Lemma wait_connected_spec (answers : nat -> bool) (timeout_ticks : nat) :
  forall call,
    let r := wait_connected answers call timeout_ticks in
    (forall j, (j < fst r)%nat -> answers (call + j)%nat = false) /\
    ((fst r < timeout_ticks)%nat /\ answers (call + fst r)%nat = true /\
     snd r = S (call + fst r) \/
     fst r = timeout_ticks /\ snd r = (call + timeout_ticks)%nat).
Proof.
  induction timeout_ticks as [|remaining IH]; intros call; cbn [wait_connected].
  - cbv zeta. cbn [fst snd]. split; [intros j Hj; lia|]. right. split; [reflexivity | lia].
  - destruct (answers call) eqn:Hnow; cbv zeta; cbn [fst snd].
    + split; [intros j Hj; lia|]. left. rewrite Nat.add_0_r.
      split; [lia|]. split; [exact Hnow | reflexivity].
    + specialize (IH (S call)). cbv zeta in IH. destruct IH as [Hbefore Hend].
      split.
      * intros [|j] Hj; [now rewrite Nat.add_0_r|].
        replace (call + S j)%nat with (S call + j)%nat by lia. apply Hbefore. lia.
      * destruct Hend as [(Hlt & Htrue & Hcalls) | (Hall & Hcalls)].
        -- left. split; [lia|].
           replace (call + S (fst (wait_connected answers (S call) remaining)))%nat
             with (S call + fst (wait_connected answers (S call) remaining))%nat by lia.
           split; [exact Htrue | exact Hcalls].
        -- right. split; [lia|]. rewrite Hcalls. lia.
Qed.

Lemma delayed_ms_app (a b : list BoardAction) :
  delayed_ms (a ++ b) = delayed_ms a + delayed_ms b.
Proof.
  induction a as [|x a IH]; [reflexivity|].
  cbn [app]. unfold delayed_ms in *. cbn [fold_right]. rewrite IH. destruct x; lia.
Qed.

Lemma delayed_ms_repeat (ms : Z) (n : nat) :
  delayed_ms (repeat (vTaskDelay_ms ms) n) = ms * Z.of_nat n.
Proof.
  induction n as [|n IH]; [cbn; lia|].
  cbn [repeat]. unfold delayed_ms in *. cbn [fold_right]. rewrite IH. lia.
Qed.

Lemma delayed_ms_EnterWifiConfigMode (env : BoardEnv) :
  delayed_ms (EnterWifiConfigMode env) = 0.
Proof. unfold EnterWifiConfigMode. now destruct (is_initialized env). Qed.

(** [StartNetwork] when it gets as far as starting the station. *)
Lemma StartNetwork_polling (env : BoardEnv) :
  ssid_list_empty env = false ->
  StartNetwork env false =
  let r := wait_connected (is_connected env) 0 600 in
  let started :=
    [wifi_manager_Initialize "XiaoTun"; wifi_manager_SetEventCallback;
     wifi_manager_StartStation] ++
    repeat (vTaskDelay_ms 100) (fst r) in
  if negb (is_connected env (snd r)) then
    mkNetworkStart true
      (started ++ [wifi_manager_StopStation] ++ EnterWifiConfigMode env)
      waits_for_reset
  else
    mkNetworkStart false
      (started ++ [esp_sntp_init ["pool.ntp.org"; "ntp.aliyun.com"]%string;
                   setenv_TZ "CST-8"])
      returns.
Proof. intros H. unfold StartNetwork. rewrite H. reflexivity. Qed.

(** X17.  With a known network in the store and no forced configuration
    mode, [StartNetwork] starts the station and polls the connection every
    100 ms for at most 600 turns, one minute in all: it stops waiting at the
    first poll answered "connected", and then asks once more.  It returns
    (with SNTP and time zone set up) exactly when that last answer is
    "connected"; otherwise it stops the station, sets [wifi_config_mode_] and
    stays in configuration mode until reset. *)
Theorem start_network_waits_at_most_a_minute (env : BoardEnv) :
  ssid_list_empty env = false ->
  let start := StartNetwork env false in
  exists polls : nat,
    (polls <= 600)%nat /\
    delayed_ms (actions start) = 100 * Z.of_nat polls /\
    (forall j, (j < polls)%nat -> is_connected env j = false) /\
    ((polls < 600)%nat -> is_connected env polls = true) /\
    let last := if (polls <? 600)%nat then S polls else polls in
    if is_connected env last
    then ending start = returns /\ wifi_config_mode_after start = false /\
         actions start =
           [wifi_manager_Initialize "XiaoTun"; wifi_manager_SetEventCallback;
            wifi_manager_StartStation] ++
           repeat (vTaskDelay_ms 100) polls ++
           [esp_sntp_init ["pool.ntp.org"; "ntp.aliyun.com"]%string; setenv_TZ "CST-8"]
    else ending start = waits_for_reset /\ wifi_config_mode_after start = true /\
         actions start =
           [wifi_manager_Initialize "XiaoTun"; wifi_manager_SetEventCallback;
            wifi_manager_StartStation] ++
           repeat (vTaskDelay_ms 100) polls ++
           [wifi_manager_StopStation] ++ EnterWifiConfigMode env.
Proof.
  intros Hstore start. subst start. rewrite (StartNetwork_polling env Hstore).
  pose proof (wait_connected_spec (is_connected env) 600 0) as Hspec.
  revert Hspec. generalize (wait_connected (is_connected env) 0 600) as r.
  intros [polls calls] Hspec. cbv zeta in Hspec. cbv zeta. cbn [fst snd] in Hspec.
  cbn [fst snd]. destruct Hspec as [Hbefore Hend].
  exists polls.
  assert (Hlast : calls = if (polls <? 600)%nat then S polls else polls).
  { destruct Hend as [(Hlt & _ & Hcalls) | (Hall & Hcalls)].
    - apply Nat.ltb_lt in Hlt. rewrite Hlt. exact Hcalls.
    - rewrite Hall, Nat.ltb_irrefl. exact Hcalls. }
  rewrite <- Hlast.
  split; [destruct Hend as [(Hlt & _) | (Hall & _)]; [apply Nat.lt_le_incl, Hlt|]|].
  { rewrite Hall. apply Nat.le_refl. }
  split.
  { destruct (is_connected env calls); cbn [negb actions];
      rewrite !delayed_ms_app, ?delayed_ms_repeat, ?delayed_ms_EnterWifiConfigMode;
      cbn [delayed_ms fold_right]; ring. }
  split; [intros j Hj; exact (Hbefore j Hj)|].
  split.
  { intros Hlt. destruct Hend as [(_ & Htrue & _) | (Hall & _)]; [exact Htrue|].
    rewrite Hall in Hlt. now apply Nat.lt_irrefl in Hlt. }
  destruct (is_connected env calls); cbn [negb ending wifi_config_mode_after actions];
    (split; [reflexivity|]); (split; [reflexivity|]); symmetry; apply app_assoc.
Qed.

Lemma start_network_waits_at_most_a_minute_witness :
  exists polls : nat,
    (polls <= 600)%nat /\
    delayed_ms (actions (StartNetwork (mkBoardEnv false true (fun n => (2 <=? n)%nat)) false)) =
      100 * Z.of_nat polls.
Proof.
  destruct (start_network_waits_at_most_a_minute
              (mkBoardEnv false true (fun n => (2 <=? n)%nat)) eq_refl)
    as (polls & Hle & Hdelay & _).
  exists polls. split; [exact Hle | exact Hdelay].
Defined.

(** X18.  [ResetWifiConfiguration] forces configuration mode for exactly
    one boot: whatever the store held, the board constructed after the reboot
    finds the flag, clears it in the store and goes straight into
    configuration mode when the network is started, without starting the
    station; the board constructed at the boot after that is not forced any
    more. *)
Theorem reset_forces_configuration_for_one_boot (force_ap : Z) (env : BoardEnv) :
  let stored := fst (ResetWifiConfiguration force_ap) in
  let first_boot := WifiBoard_constructor stored in
  let second_boot := WifiBoard_constructor (snd (fst first_boot)) in
  fst (fst first_boot) = true /\
  snd first_boot = [settings_SetInt "force_ap" 0] /\
  ending (StartNetwork env (fst (fst first_boot))) = waits_for_reset /\
  actions (StartNetwork env (fst (fst first_boot))) = EnterWifiConfigMode env /\
  ~ In wifi_manager_StartStation (actions (StartNetwork env (fst (fst first_boot)))) /\
  fst (fst second_boot) = false /\
  snd second_boot = [].
Proof.
  cbv zeta. cbn [ResetWifiConfiguration fst snd WifiBoard_constructor Z.eqb Pos.eqb].
  unfold StartNetwork, EnterWifiConfigMode. cbn [actions ending].
  repeat split.
  destruct (is_initialized env); cbn; intros H;
    repeat (destruct H as [H | H]; [discriminate|]); exact H.
Qed.

Lemma substring_0_prefix (n : nat) :
  forall s p, substring 0 n s = p -> String.length p = n ->
              exists rest, s = (p ++ rest)%string.
Proof.
  induction n as [|n IH]; intros s p Hsub Hlen.
  - destruct p; [|discriminate]. exists s. reflexivity.
  - destruct s as [|c s]; cbn [substring] in Hsub; subst p; [discriminate|].
    cbn [String.length] in Hlen. injection Hlen as Hlen.
    destruct (IH s (substring 0 n s) eq_refl Hlen) as [rest Hrest].
    exists rest. cbn [append]. now rewrite <- Hrest.
Qed.

(** X19.  With the WebSocket connection configured, [CreateWebSocket]
    always creates a socket, over TLS exactly when the configured URL begins
    with "wss://" (in lower case) and over plain TCP for every other URL;
    without that configuration it returns the null pointer. *)
Theorem websocket_tls_iff_wss_prefix (url : string) :
  (CreateWebSocket true url = Some TlsTransport <->
   exists rest, url = ("wss://" ++ rest)%string) /\
  (CreateWebSocket true url = Some TcpTransport <->
   ~ exists rest, url = ("wss://" ++ rest)%string) /\
  CreateWebSocket false url = None.
Proof.
  assert (Htls : CreateWebSocket true url = Some TlsTransport <->
                 exists rest, url = ("wss://" ++ rest)%string).
  { unfold CreateWebSocket. split.
    - destruct (String.index 0 "wss://" url) as [[|m]|] eqn:E; try discriminate.
      intros _. apply index_correct1 in E.
      now apply (substring_0_prefix 6 url "wss://").
    - intros [rest ->]. destruct rest; reflexivity. }
  split; [exact Htls|]. split; [|reflexivity].
  rewrite <- Htls. unfold CreateWebSocket.
  destruct (String.index 0 "wss://" url) as [[|m]|]; split; congruence.
Qed.

(** ** A negative timeout *)

Section NegativeTimeout.

Variable portTICK_PERIOD_MS : Z.
Hypothesis tick_period_positive : 0 < portTICK_PERIOD_MS.


End NegativeTimeout.

